(** * MIDI Sample Dump Standard (package sds): codec, sample packer,
      transfer session and the data loop of the sender

    A shallow embedding of the Go sources

      - package sds, the message codec (Encode, Decode, ComputeChecksum,
        GetSamples, SetSamples)
      - package sds, transfer.go (SendOp)
      - package main of the sender (transferData, doTransfer,
        samplerateToPeriod)
      - the helpers of the tests of package sds (encodeSDS, loadSDS)
      - package cmdutil (isSysex)

    Go values are modelled as follows: [byte], [uint16], [uint] and [int]
    are integers in [Z] with the wrap-around of every conversion written
    out; a slice or an array is a [list Z]; a run-time panic (index out of
    range, explicit [panic]) is the [Panic] outcome of the [exec] monad;
    a Go [(T, error)] result is a [result T]. *)

From Stdlib Require Import ZArith Lia Bool String QArith Qround Qpower Lqa Btauto.
From Stdlib Require Import PrimFloat FloatOps SpecFloat Uint63.
From stdpp Require Import base list.
From coqutil Require Import Z.bitblast.

Local Open Scope Z_scope.

(* ===================================================================== *)
(** ** Go run-time model                                                  *)
(* ===================================================================== *)

Module Go.

(** Conversions to the fixed-width integer types: the value modulo the
    width, two's complement for the signed type. *)
Definition byte (x : Z) : Z := x mod 2 ^ 8.
Definition uint16 (x : Z) : Z := x mod 2 ^ 16.
Definition uint (x : Z) : Z := x mod 2 ^ 64.
Definition int (x : Z) : Z := (x + 2 ^ 63) mod 2 ^ 64 - 2 ^ 63.

(** Outcome of running a piece of Go code: it returns, or it panics. *)
Inductive exec (A : Type) : Type :=
| Ret (a : A)
| Panic (reason : string).
Arguments Ret {A} a.
Arguments Panic {A} reason.

Definition bind {A B : Type} (c : exec A) (k : A -> exec B) : exec B :=
  match c with
  | Ret a => k a
  | Panic r => Panic r
  end.

Definition panics {A : Type} (c : exec A) : Prop :=
  match c with
  | Ret _ => False
  | Panic _ => True
  end.

Definition returns {A : Type} (c : exec A) : Prop :=
  match c with
  | Ret _ => True
  | Panic _ => False
  end.

(** [len(s)] as a Go [int]. *)
Definition len {A : Type} (s : list A) : Z := Z.of_nat (length s).

(** [s[i]]: panics when [i] is out of range. *)
Definition index (s : list Z) (i : Z) : exec Z :=
  if (i <? 0) || (len s <=? i) then Panic "index out of range"
  else Ret (nth (Z.to_nat i) s 0).

(** [s[lo:hi]] on a slice whose capacity is its length. *)
Definition slice (s : list Z) (lo hi : Z) : exec (list Z) :=
  if (lo <? 0) || (hi <? lo) || (len s <? hi) then Panic "slice bounds out of range"
  else Ret (take (Z.to_nat (hi - lo)) (drop (Z.to_nat lo) s)).

(** [copy(dst, src)]: copies [min(len(dst), len(src))] elements. *)
Definition copy (dst src : list Z) : list Z :=
  let n := Nat.min (length dst) (length src) in
  take n src ++ drop n dst.

(** [bytes.HasPrefix(s, prefix)]. *)
Fixpoint HasPrefix (s prefix : list Z) : bool :=
  match prefix, s with
  | [], _ => true
  | p :: prefix', x :: s' => (x =? p) && HasPrefix s' prefix'
  | _ :: _, [] => false
  end.

End Go.

Import Go.

Notation "x <- c ;; k" := (Go.bind c (fun x => k))
  (at level 100, c at next level, right associativity).

(** A Go [(T, error)] pair of which exactly one component is set. *)
Inductive error : Type :=
| errNotSysex                       (* "not a sysex message" *)
| errTooShort                       (* "message too short" *)
| errInvalidMessageId (id : Z)      (* "invalid message id %x" *)
| errBadSize (n : Z) (what : string)(* "bad size %d for <what>" *)
| errUnsupportedBitDepth (d : Z).   (* "unsupported bit depth %d in DumpHeader" *)

Inductive result (A : Type) : Type :=
| Ok (a : A)
| Err (e : error).
Arguments Ok {A} a.
Arguments Err {A} e.

(* ===================================================================== *)
(** ** Messages (package sds)                                              *)
(* ===================================================================== *)

Module DumpHeader.
Record t : Type := mk {
  Channel : Z;      (* byte *)
  Number : Z;       (* uint16 *)
  BitDepth : Z;     (* byte *)
  Period : Z;       (* uint *)
  Length : Z;       (* uint *)
  LoopStart : Z;    (* uint *)
  LoopEnd : Z;      (* uint *)
  LoopType : Z      (* byte *)
}.
End DumpHeader.

Module DumpRequest.
Record t : Type := mk {
  Channel : Z;      (* byte *)
  Number : Z        (* uint16 *)
}.
End DumpRequest.

Module DataPacket.
Record t : Type := mk {
  Channel : Z;       (* byte *)
  PacketNumber : Z;  (* byte *)
  Data : list Z;     (* [120]byte *)
  Checksum : Z       (* byte *)
}.
(** The zero value of the struct. *)
Definition zero : t := mk 0 0 (replicate 120 0) 0.
End DataPacket.

Module ControlPacket.
Record t : Type := mk {
  Type_ : Z;         (* ControlPacketType, a byte *)
  Channel : Z;       (* byte *)
  PacketNumber : Z   (* byte *)
}.
End ControlPacket.

Definition Ack : Z := 0x7F.
Definition Nak : Z := 0x7E.
Definition Cancel : Z := 0x7D.
Definition Wait : Z := 0x7C.

(** The [Message] interface: its four implementations. *)
Inductive Message : Type :=
| MDumpHeader (m : DumpHeader.t)
| MDataPacket (m : DataPacket.t)
| MDumpRequest (m : DumpRequest.t)
| MControlPacket (m : ControlPacket.t).

Definition append14bit (b : list Z) (num : Z) : list Z :=
  b ++ [Z.land (byte num) 0x7F; Z.land (byte (Z.shiftr num 7)) 0x7F].

Definition append20bit (b : list Z) (num : Z) : list Z :=
  b ++ [Z.land (byte num) 0x7F; Z.land (byte (Z.shiftr num 7)) 0x7F;
        Z.land (byte (Z.shiftr num 14)) 0x3F].

Definition DumpHeader_Encode (msg : DumpHeader.t) (b : list Z) : list Z :=
  let b := b ++ [0xF0; 0x7E; Z.land (DumpHeader.Channel msg) 0x7F; 0x01] in
  let b := append14bit b (DumpHeader.Number msg) in
  let b := b ++ [Z.land (DumpHeader.BitDepth msg) 0x7F] in
  let b := append20bit b (DumpHeader.Period msg) in
  let b := append20bit b (DumpHeader.Length msg) in
  let b := append20bit b (DumpHeader.LoopStart msg) in
  let b := append20bit b (DumpHeader.LoopEnd msg) in
  let b := b ++ [Z.land (DumpHeader.LoopType msg) 0x7F] in
  b ++ [0xF7].

Definition DataPacket_Encode (msg : DataPacket.t) (b : list Z) : list Z :=
  let b := b ++ [0xF0; 0x7E; Z.land (DataPacket.Channel msg) 0x7F; 0x02] in
  let b := b ++ [Z.land (DataPacket.PacketNumber msg) 0x7F] in
  let b := b ++ DataPacket.Data msg in
  let b := b ++ [Z.land (DataPacket.Checksum msg) 0x7F] in
  b ++ [0xF7].

Definition DumpRequest_Encode (msg : DumpRequest.t) (b : list Z) : list Z :=
  let b := b ++ [0xF0; 0x7E; Z.land (DumpRequest.Channel msg) 0x7F; 0x03] in
  let b := append14bit b (DumpRequest.Number msg) in
  b ++ [0xF7].

Definition ControlPacket_Encode (msg : ControlPacket.t) (b : list Z) : list Z :=
  b ++ [0xF0; 0x7E; Z.land (ControlPacket.Channel msg) 0x7F;
        Z.land (byte (ControlPacket.Type_ msg)) 0x7F;
        Z.land (ControlPacket.PacketNumber msg) 0x7F; 0xF7].

(** Method dispatch of [msg.Encode(b)]. *)
Definition Encode (msg : Message) (b : list Z) : list Z :=
  match msg with
  | MDumpHeader m => DumpHeader_Encode m b
  | MDataPacket m => DataPacket_Encode m b
  | MDumpRequest m => DumpRequest_Encode m b
  | MControlPacket m => ControlPacket_Encode m b
  end.

Definition dumpHeaderSize : Z := 21.
Definition dumpRequestSize : Z := 7.
Definition dataPacketSize : Z := 127.
Definition controlPacketSize : Z := 6.

Definition prefix : list Z := [0xF0; 0x7E].

Definition dec14bit (l h : Z) : Z :=
  Z.lor (uint16 (Z.land l 0x7F)) (uint16 (Z.shiftl (uint16 (Z.land h 0x7F)) 7)).

Definition dec20bit (l m h : Z) : Z :=
  Z.lor (Z.lor (uint (Z.land l 0x7F)) (uint (Z.shiftl (uint (Z.land m 0x7F)) 7)))
        (uint (Z.shiftl (uint (Z.land h 0x3F)) 14)).

Definition decodeDumpHeader (msg : list Z) : exec (result Message) :=
  if negb (len msg =? dumpHeaderSize) then Ret (Err (errBadSize (len msg) "DumpHeader"))
  else
    b2 <- index msg 2 ;; b4 <- index msg 4 ;; b5 <- index msg 5 ;;
    b6 <- index msg 6 ;; b7 <- index msg 7 ;; b8 <- index msg 8 ;;
    b9 <- index msg 9 ;; b10 <- index msg 10 ;; b11 <- index msg 11 ;;
    b12 <- index msg 12 ;; b13 <- index msg 13 ;; b14 <- index msg 14 ;;
    b15 <- index msg 15 ;; b16 <- index msg 16 ;; b17 <- index msg 17 ;;
    b18 <- index msg 18 ;; b19 <- index msg 19 ;;
    let dec := DumpHeader.mk b2 (dec14bit b4 b5) b6 (dec20bit b7 b8 b9)
                 (dec20bit b10 b11 b12) (dec20bit b13 b14 b15)
                 (dec20bit b16 b17 b18) b19 in
    if (DumpHeader.BitDepth dec <? 8) || (28 <? DumpHeader.BitDepth dec)
    then Ret (Err (errUnsupportedBitDepth (DumpHeader.BitDepth dec)))
    else Ret (Ok (MDumpHeader dec)).

Definition decodeDataPacket (msg : list Z) : exec (result Message) :=
  if negb (len msg =? dataPacketSize) then Ret (Err (errBadSize (len msg) "DataPacket"))
  else
    b2 <- index msg 2 ;; b4 <- index msg 4 ;; b125 <- index msg 125 ;;
    let dec := DataPacket.mk b2 b4 (replicate 120 0) b125 in
    src <- slice msg 5 125 ;;
    Ret (Ok (MDataPacket
      (DataPacket.mk (DataPacket.Channel dec) (DataPacket.PacketNumber dec)
         (copy (DataPacket.Data dec) src) (DataPacket.Checksum dec)))).

Definition decodeDumpRequest (msg : list Z) : exec (result Message) :=
  if negb (len msg =? dumpRequestSize) then Ret (Err (errBadSize (len msg) "DumpRequest"))
  else
    b2 <- index msg 2 ;; b4 <- index msg 4 ;; b5 <- index msg 5 ;;
    Ret (Ok (MDumpRequest (DumpRequest.mk b2 (dec14bit b4 b5)))).

Definition decodeControlPacket (msg : list Z) : exec (result Message) :=
  if negb (len msg =? controlPacketSize) then Ret (Err (errBadSize (len msg) "ControlPacket"))
  else
    b2 <- index msg 2 ;; b3 <- index msg 3 ;; b4 <- index msg 4 ;;
    Ret (Ok (MControlPacket (ControlPacket.mk b3 b2 b4))).

(** [Decode]: the condition [!HasPrefix(..) || sysex[len(sysex)-1] != 0xF7]
    is evaluated left to right and short-circuits, so the index expression
    is only run when the prefix is present. *)
Definition Decode (sysex : list Z) : exec (result Message) :=
  notSysex <- (if negb (HasPrefix sysex prefix) then Ret true
               else last <- index sysex (len sysex - 1) ;; Ret (negb (last =? 0xF7))) ;;
  if (notSysex : bool) then Ret (Err errNotSysex)
  else if len sysex <? 4 then Ret (Err errTooShort)
  else
    id <- index sysex 3 ;;
    if id =? 0x01 then decodeDumpHeader sysex
    else if id =? 0x02 then decodeDataPacket sysex
    else if id =? 0x03 then decodeDumpRequest sysex
    else if (id =? 0x7C) || (id =? 0x7D) || (id =? 0x7E) || (id =? 0x7F)
    then decodeControlPacket sysex
    else Ret (Err (errInvalidMessageId id)).

(** [ComputeChecksum]: [msg.Encode(buf[:0])] appends 127 bytes to a slice of
    capacity 127 over the array [buf], so the encoding is written into
    [buf] itself ([Data] has 120 entries by its type).  The loop ranges
    over the indices [0 .. len(buf[1:126])-1] of the sub-slice and uses them
    to index [buf]. *)
Definition ComputeChecksum (msg : DataPacket.t) : Z :=
  let buf := copy (replicate (Z.to_nat dataPacketSize) 0) (DataPacket_Encode msg []) in
  let c := nth 0 buf 0 in
  let sub := take (Z.to_nat (dataPacketSize - 1 - 1)) (drop 1 buf) in
  let c := fold_left (fun c i => Z.lxor c (nth i buf 0)) (seq 0 (length sub)) c in
  Z.land c 0x7F.

(* ===================================================================== *)
(** ** Sample packing (package sds)                                       *)
(* ===================================================================== *)

(** The [for] loops are run with the length of [Data] as fuel; every
    iteration advances the byte index, so the loops leave through their
    own condition and more fuel does not change the result (lemmas
    [write2_loop_spec], [read2_loop_spec] and following).  Shift counts
    are the Go [int] values computed from [bits]; under the dispatch of
    [SetSamples] and [GetSamples] none of them is negative. *)

Fixpoint zero_loop (fuel : nat) (Data : list Z) (di : nat) : list Z :=
  match fuel with
  | O => Data
  | S fuel' =>
      if (di <? length Data)%nat
      then zero_loop fuel' (<[di := 0]> Data) (S di)
      else Data
  end.

Fixpoint write2_loop (fuel : nat) (samples : list Z) (shiftH shiftL zero : Z)
    (Data : list Z) (si di : nat) : list Z * nat * nat :=
  match fuel with
  | O => (Data, si, di)
  | S fuel' =>
      if (si <? length samples)%nat && (di <? length Data)%nat then
        let s := uint (uint (nth si samples 0) + zero) in
        let Data := <[di := Z.land (byte (Z.shiftr s shiftH)) 0x7F]> Data in
        let Data := <[(di + 1)%nat := Z.land (byte (uint (Z.shiftl s shiftL))) 0x7F]> Data in
        write2_loop fuel' samples shiftH shiftL zero Data (si + 1)%nat (di + 2)%nat
      else (Data, si, di)
  end.

Definition write2 (msg : DataPacket.t) (samples : list Z) (bits : Z)
    : DataPacket.t * list Z :=
  let shiftH := bits - 7 in
  let shiftL := 14 - bits in
  let zero := uint (Z.shiftl (uint 1) (bits - 1)) in
  let '(Data, si, di) :=
    write2_loop (length (DataPacket.Data msg)) samples shiftH shiftL zero
      (DataPacket.Data msg) 0 0 in
  let Data := zero_loop (length Data) Data di in
  (DataPacket.mk (DataPacket.Channel msg) (DataPacket.PacketNumber msg) Data
     (DataPacket.Checksum msg),
   drop si samples).

Fixpoint write3_loop (fuel : nat) (samples : list Z) (shiftH shiftM shiftL zero : Z)
    (Data : list Z) (si di : nat) : list Z * nat * nat :=
  match fuel with
  | O => (Data, si, di)
  | S fuel' =>
      if (si <? length samples)%nat && (di <? length Data)%nat then
        let s := uint (uint (nth si samples 0) + zero) in
        let Data := <[di := Z.land (byte (Z.shiftr s shiftH)) 0x7F]> Data in
        let Data := <[(di + 1)%nat := Z.land (byte (Z.shiftr s shiftM)) 0x7F]> Data in
        let Data := <[(di + 2)%nat := Z.land (byte (uint (Z.shiftl s shiftL))) 0x7F]> Data in
        write3_loop fuel' samples shiftH shiftM shiftL zero Data (si + 1)%nat (di + 3)%nat
      else (Data, si, di)
  end.

Definition write3 (msg : DataPacket.t) (samples : list Z) (bits : Z)
    : DataPacket.t * list Z :=
  let shiftH := bits - 7 in
  let shiftM := bits - 14 in
  let shiftL := 21 - bits in
  let zero := uint (Z.shiftl (uint 1) (bits - 1)) in
  let '(Data, si, di) :=
    write3_loop (length (DataPacket.Data msg)) samples shiftH shiftM shiftL zero
      (DataPacket.Data msg) 0 0 in
  let Data := zero_loop (length Data) Data di in
  (DataPacket.mk (DataPacket.Channel msg) (DataPacket.PacketNumber msg) Data
     (DataPacket.Checksum msg),
   drop si samples).

Fixpoint write4_loop (fuel : nat) (samples : list Z)
    (shiftH shiftM1 shiftM2 shiftL zero : Z)
    (Data : list Z) (si di : nat) : list Z * nat * nat :=
  match fuel with
  | O => (Data, si, di)
  | S fuel' =>
      if (si <? length samples)%nat && (di <? length Data)%nat then
        let s := uint (uint (nth si samples 0) + zero) in
        let Data := <[di := Z.land (byte (Z.shiftr s shiftH)) 0x7F]> Data in
        let Data := <[(di + 1)%nat := Z.land (byte (Z.shiftr s shiftM1)) 0x7F]> Data in
        let Data := <[(di + 2)%nat := Z.land (byte (Z.shiftr s shiftM2)) 0x7F]> Data in
        let Data := <[(di + 3)%nat := Z.land (byte (uint (Z.shiftl s shiftL))) 0x7F]> Data in
        write4_loop fuel' samples shiftH shiftM1 shiftM2 shiftL zero Data
          (si + 1)%nat (di + 4)%nat
      else (Data, si, di)
  end.

Definition write4 (msg : DataPacket.t) (samples : list Z) (bits : Z)
    : DataPacket.t * list Z :=
  let shiftH := bits - 7 in
  let shiftM1 := bits - 14 in
  let shiftM2 := bits - 21 in
  let shiftL := 28 - bits in
  let zero := uint (Z.shiftl (uint 1) (bits - 1)) in
  let '(Data, si, di) :=
    write4_loop (length (DataPacket.Data msg)) samples shiftH shiftM1 shiftM2 shiftL zero
      (DataPacket.Data msg) 0 0 in
  let Data := zero_loop (length Data) Data di in
  (DataPacket.mk (DataPacket.Channel msg) (DataPacket.PacketNumber msg) Data
     (DataPacket.Checksum msg),
   drop si samples).

(** [SetSamples] has a pointer receiver: the updated packet is returned
    next to the remaining samples. *)
Definition SetSamples (msg : DataPacket.t) (samples : list Z) (bitDepth : Z)
    : exec (DataPacket.t * list Z) :=
  if bitDepth <? 8 then Panic "bit depth < 8 is not supported"
  else if bitDepth <=? 14 then Ret (write2 msg samples bitDepth)
  else if bitDepth <=? 21 then Ret (write3 msg samples bitDepth)
  else if bitDepth <=? 28 then Ret (write4 msg samples bitDepth)
  else Panic "bit depth > 28 is not supported".

Fixpoint read2_loop (fuel : nat) (Data : list Z) (shiftH shiftL zero : Z)
    (buf : list Z) (bufIndex i : nat) : list Z :=
  match fuel with
  | O => buf
  | S fuel' =>
      if (i <? length Data)%nat then
        let v := uint (Z.shiftl (uint (Z.land (nth i Data 0) 0x7F)) shiftH) in
        let v := Z.lor v (Z.shiftr (uint (Z.land (nth (i + 1) Data 0) 0x7F)) shiftL) in
        let buf := <[bufIndex := int (uint (v - zero))]> buf in
        read2_loop fuel' Data shiftH shiftL zero buf (bufIndex + 1)%nat (i + 2)%nat
      else buf
  end.

Definition read2 (msg : DataPacket.t) (out : list Z) (bits : Z) : list Z :=
  let shiftH := bits - 7 in
  let shiftL := 14 - bits in
  let zero := uint (Z.shiftl (uint 1) (bits - 1)) in
  let buf := replicate (length (DataPacket.Data msg) / 2) 0 in
  out ++ read2_loop (length (DataPacket.Data msg)) (DataPacket.Data msg)
           shiftH shiftL zero buf 0 0.

Fixpoint read3_loop (fuel : nat) (Data : list Z) (shiftH shiftM shiftL zero : Z)
    (buf : list Z) (bufIndex i : nat) : list Z :=
  match fuel with
  | O => buf
  | S fuel' =>
      if (i <? length Data)%nat then
        let v := uint (Z.shiftl (uint (Z.land (nth i Data 0) 0x7F)) shiftH) in
        let v := Z.lor v (uint (Z.shiftl (uint (Z.land (nth (i + 1) Data 0) 0x7F)) shiftM)) in
        let v := Z.lor v (Z.shiftr (uint (Z.land (nth (i + 2) Data 0) 0x7F)) shiftL) in
        let buf := <[bufIndex := int (uint (v - zero))]> buf in
        read3_loop fuel' Data shiftH shiftM shiftL zero buf (bufIndex + 1)%nat (i + 3)%nat
      else buf
  end.

Definition read3 (msg : DataPacket.t) (out : list Z) (bits : Z) : list Z :=
  let shiftH := bits - 7 in
  let shiftM := bits - 14 in
  let shiftL := 21 - bits in
  let zero := uint (Z.shiftl (uint 1) (bits - 1)) in
  let buf := replicate (length (DataPacket.Data msg) / 3) 0 in
  out ++ read3_loop (length (DataPacket.Data msg)) (DataPacket.Data msg)
           shiftH shiftM shiftL zero buf 0 0.

Fixpoint read4_loop (fuel : nat) (Data : list Z)
    (shiftH shiftM1 shiftM2 shiftL zero : Z)
    (buf : list Z) (bufIndex i : nat) : list Z :=
  match fuel with
  | O => buf
  | S fuel' =>
      if (i <? length Data)%nat then
        let v := uint (Z.shiftl (uint (Z.land (nth i Data 0) 0x7F)) shiftH) in
        let v := Z.lor v (uint (Z.shiftl (uint (Z.land (nth (i + 1) Data 0) 0x7F)) shiftM1)) in
        let v := Z.lor v (uint (Z.shiftl (uint (Z.land (nth (i + 2) Data 0) 0x7F)) shiftM2)) in
        let v := Z.lor v (Z.shiftr (uint (Z.land (nth (i + 3) Data 0) 0x7F)) shiftL) in
        let buf := <[bufIndex := int (uint (v - zero))]> buf in
        read4_loop fuel' Data shiftH shiftM1 shiftM2 shiftL zero buf
          (bufIndex + 1)%nat (i + 4)%nat
      else buf
  end.

Definition read4 (msg : DataPacket.t) (out : list Z) (bits : Z) : list Z :=
  let shiftH := bits - 7 in
  let shiftM1 := bits - 14 in
  let shiftM2 := bits - 21 in
  let shiftL := 28 - bits in
  let zero := uint (Z.shiftl (uint 1) (bits - 1)) in
  let buf := replicate (length (DataPacket.Data msg) / 4) 0 in
  out ++ read4_loop (length (DataPacket.Data msg)) (DataPacket.Data msg)
           shiftH shiftM1 shiftM2 shiftL zero buf 0 0.

Definition GetSamples (msg : DataPacket.t) (s : list Z) (bitDepth : Z)
    : exec (list Z) :=
  if bitDepth <? 8 then Panic "bit depth < 8 is not supported"
  else if bitDepth <=? 14 then Ret (read2 msg s bitDepth)
  else if bitDepth <=? 21 then Ret (read3 msg s bitDepth)
  else if bitDepth <=? 28 then Ret (read4 msg s bitDepth)
  else Panic "bit depth > 28 is not supported".

(* ===================================================================== *)
(** ** float64 arithmetic used by [Progress]                              *)
(* ===================================================================== *)

(** IEEE 754 binary64 on the non-negative finite numbers, each denoted by
    the rational it stands for.  Every operation computes the exact
    rational result and rounds it to the nearest number with a 53-bit
    significand, ties to even ([rnd]); the exponent is clamped at the
    subnormal range.  Negative numbers, infinities and NaN are outside of
    the model: [Progress] divides a count between 0 and the length by the
    length, which is positive for a non-empty waveform. *)
Module F64.
Local Open Scope Q_scope.

(** [ex x] is the exponent of [x > 0]: [2^(ex x) <= x < 2^(ex x + 1)]. *)
Definition ex (x : Q) : Z :=
  let k := (Z.log2 (Qnum x) - Z.log2 (Zpos (Qden x)))%Z in
  if Qle_bool (2 ^ k) x then k else (k - 1)%Z.

(** Round to the nearest integer, ties to even. *)
Definition rne (x : Q) : Z :=
  let f := Qfloor x in
  match Qcompare (x - inject_Z f) (1 # 2) with
  | Lt => f
  | Gt => (f + 1)%Z
  | Eq => if Z.even f then f else (f + 1)%Z
  end.

(** Round to binary64. *)
Definition rnd (x : Q) : Q :=
  if Qle_bool x 0 then 0
  else
    let s := Z.max (ex x - 52) (-1074) in
    inject_Z (rne (x / 2 ^ s)) * 2 ^ s.

(** [float64(n)] for an integer [n >= 0]. *)
Definition of_int (n : Z) : Q := rnd (inject_Z n).

Definition div (x y : Q) : Q := rnd (x / y).
Definition mul (x y : Q) : Q := rnd (x * y).

(** [math.Round]: nearest integer, halves away from zero. *)
Definition Round (x : Q) : Q := inject_Z (Qfloor (x + (1 # 2))).

(** [int(x)]: the fraction is discarded. *)
Definition to_int (x : Q) : Z := Go.int (Qfloor x).

(** The exponent of the last place of [x] in binary64. *)
Definition scale (x : Q) : Z := Z.max (ex x - 52) (-1074).

(** [(float64(done) / float64(total)) * 100], and its [math.Round]. *)
Definition percent (done total : Z) : Q :=
  mul (div (of_int done) (of_int total)) (inject_Z 100).

Definition rounded (done total : Z) : Z := Qfloor (percent done total + (1 # 2)).

(** The same percentage computed with the binary64 numbers of the
    machine, and the rational a finite non-negative one stands for; they
    are used to compare [rnd] with the hardware on sample values. *)
Definition machine_percent (done total : Z) : float :=
  PrimFloat.mul
    (PrimFloat.div (PrimFloat.of_uint63 (Uint63.of_Z done))
                   (PrimFloat.of_uint63 (Uint63.of_Z total)))
    (PrimFloat.of_uint63 100%uint63).

Definition SF2Q (x : spec_float) : Q :=
  match x with
  | S754_finite false m e => inject_Z (Zpos m) * 2 ^ e
  | _ => 0
  end.
End F64.

(* ===================================================================== *)
(** ** Transfer session (transfer.go)                                     *)
(* ===================================================================== *)

Module SendOp.
Record t : Type := mk {
  length : Z;          (* int *)
  bitDepth : Z;        (* int *)
  samples : list Z;    (* []int *)
  data : DataPacket.t;
  num : Z              (* byte *)
}.
End SendOp.

(** [NewSendOp] writes the length into the header it is given: the
    updated header is returned next to the session. *)
Definition NewSendOp (samples : list Z) (h : DumpHeader.t) : SendOp.t * DumpHeader.t :=
  let h := DumpHeader.mk (DumpHeader.Channel h) (DumpHeader.Number h)
             (DumpHeader.BitDepth h) (DumpHeader.Period h) (uint (len samples))
             (DumpHeader.LoopStart h) (DumpHeader.LoopEnd h) (DumpHeader.LoopType h) in
  let s := SendOp.mk (len samples) (int (DumpHeader.BitDepth h)) samples
             DataPacket.zero 0 in
  let s := SendOp.mk (SendOp.length s) (SendOp.bitDepth s) (SendOp.samples s)
             (DataPacket.mk (DumpHeader.Channel h)
                (DataPacket.PacketNumber (SendOp.data s))
                (DataPacket.Data (SendOp.data s))
                (DataPacket.Checksum (SendOp.data s)))
             (SendOp.num s) in
  (s, h).

Definition Done (s : SendOp.t) : bool := len (SendOp.samples s) =? 0.

(** The constant 100 is a float64 itself. *)
Definition Progress (s : SendOp.t) : Z :=
  let done := int (SendOp.length s - len (SendOp.samples s)) in
  F64.to_int
    (F64.Round
       (F64.mul (F64.div (F64.of_int done) (F64.of_int (SendOp.length s)))
                (inject_Z 100))).

Definition nextNumber (s : SendOp.t) : SendOp.t * Z :=
  let n := SendOp.num s in
  let num := if 127 <=? n then 0 else byte (n + 1) in
  (SendOp.mk (SendOp.length s) (SendOp.bitDepth s) (SendOp.samples s)
     (SendOp.data s) num,
   n).

(** [NextMessage] returns a pointer to the packet held by the session, or
    nil ([None]) when the session is done; the packet returned here is the
    value that pointer refers to at the time of return. *)
Definition NextMessage (s : SendOp.t) : exec (SendOp.t * option Message) :=
  if Done s then Ret (s, None)
  else
    r <- SetSamples (SendOp.data s) (SendOp.samples s) (int (SendOp.bitDepth s)) ;;
    let '(data, rest) := r in
    let s := SendOp.mk (SendOp.length s) (SendOp.bitDepth s) rest data (SendOp.num s) in
    let '(s, n) := nextNumber s in
    let data := SendOp.data s in
    let data := DataPacket.mk (DataPacket.Channel data) n (DataPacket.Data data)
                  (DataPacket.Checksum data) in
    let data := DataPacket.mk (DataPacket.Channel data) (DataPacket.PacketNumber data)
                  (DataPacket.Data data) (ComputeChecksum data) in
    let s := SendOp.mk (SendOp.length s) (SendOp.bitDepth s) (SendOp.samples s)
               data (SendOp.num s) in
    Ret (s, Some (MDataPacket data)).

(* ===================================================================== *)
(** ** The data loop of the sender (package main)                         *)
(* ===================================================================== *)

Module sendConfig.
Record t : Type := mk {
  Channel : Z;          (* int *)
  WaveformNumber : Z    (* int *)
}.
End sendConfig.

(** The local variables of [transferData] together with the session. *)
Record loop_state : Type := mk_loop_state {
  transfer : SendOp.t;
  progress : Z;
  waiting : bool
}.

(** One pass through the body of the [for] loop.  [receive] waits on the
    connection and on a timer; its result in this pass is the argument
    [ev], [None] for nil (the timeout).  [sent] lists what the pass wrote
    to the connection; writes are taken to succeed ([send] ends the
    process otherwise). *)
Inductive pass : Type :=
| Next (st : loop_state) (sent : list (list Z))   (* the loop goes on *)
| Fatal (sent : list (list Z)) (why : string)     (* log.Fatalf *)
| Crash (reason : string).                        (* panic *)

Definition report (t : SendOp.t) (progress : Z) (waiting : bool) : loop_state :=
  let p := Progress t in
  if (5 <? p - progress) || ((p =? 100) && negb (progress =? 100))
  then mk_loop_state t p waiting
  else mk_loop_state t progress waiting.

Definition iteration (cfg : sendConfig.t) (st : loop_state) (ev : option Message) : pass :=
  let sending :=
    if negb (waiting st) then
      r <- NextMessage (transfer st) ;;
      match snd r with
      | Some m => Ret (fst r, [Encode m []])
      | None => Panic "nil pointer dereference"
      end
    else Ret (transfer st, []) in
  match sending with
  | Panic reason => Crash reason
  | Ret (t, sent) =>
      match ev with
      | None => Next (report t (progress st) (waiting st)) sent
      | Some (MControlPacket msg) =>
          if negb (ControlPacket.Channel msg =? byte (sendConfig.Channel cfg))
          then Next (mk_loop_state t (progress st) (waiting st)) sent   (* continue *)
          else
            let ty := ControlPacket.Type_ msg in
            if ty =? Ack then Next (report t (progress st) false) sent
            else if ty =? Nak then Fatal sent "<< NAK"
            else if ty =? Cancel then Fatal sent "<< CANCEL"
            else if ty =? Wait then Next (report t (progress st) true) sent
            else Next (report t (progress st) false) sent
      | Some _ => Next (report t (progress st) (waiting st)) sent
      end
  end.

(** How a run of the loop over the received events [evs] stands. *)
Inductive run_end : Type :=
| Finished (st : loop_state)    (* transfer.Done() *)
| Receiving (st : loop_state)   (* the events are used up *)
| Exited (why : string)
| Crashed (reason : string).

Fixpoint transferData_loop (cfg : sendConfig.t) (evs : list (option Message))
    (st : loop_state) : list (list Z) * run_end :=
  if Done (transfer st) then ([], Finished st)
  else
    match evs with
    | [] => ([], Receiving st)
    | ev :: evs' =>
        match iteration cfg st ev with
        | Next st' sent =>
            let '(more, e) := transferData_loop cfg evs' st' in (sent ++ more, e)
        | Fatal sent why => (sent, Exited why)
        | Crash reason => ([], Crashed reason)
        end
    end.

Definition transferData (cfg : sendConfig.t) (transfer : SendOp.t)
    (evs : list (option Message)) : list (list Z) * run_end :=
  transferData_loop cfg evs (mk_loop_state transfer 0 false).

(* ===================================================================== *)
(** ** Reference definitions used in the statements                       *)
(* ===================================================================== *)

(** The five codec failures, and which one an [error] value is. *)
Inductive ErrorKind : Type :=
| NotSysex | TooShort | UnknownMessageType | BadSize | UnsupportedBitDepth.

Definition kind_of (e : error) : ErrorKind :=
  match e with
  | errNotSysex => NotSysex
  | errTooShort => TooShort
  | errInvalidMessageId _ => UnknownMessageType
  | errBadSize _ _ => BadSize
  | errUnsupportedBitDepth _ => UnsupportedBitDepth
  end.

Inductive Variant : Type := Header | Packet | Request | Control.

Definition variant_of (m : Message) : Variant :=
  match m with
  | MDumpHeader _ => Header
  | MDataPacket _ => Packet
  | MDumpRequest _ => Request
  | MControlPacket _ => Control
  end.

(** What a call of [Decode] came to: [None] for a panic. *)
Definition verdict (r : exec (result Message)) : option (ErrorKind + Variant) :=
  match r with
  | Ret (Ok m) => Some (inr (variant_of m))
  | Ret (Err e) => Some (inl (kind_of e))
  | Panic _ => None
  end.

(** The validation order of the codec, written from its description:
    framing, minimal length, sub-ID, exact size, bit depth. *)
Definition framed (sysex : list Z) : bool :=
  bool_decide (take 2 sysex = [0xF0; 0x7E]) && bool_decide (last sysex = Some 0xF7).

Definition sized (sysex : list Z) (n : nat) (v : ErrorKind + Variant)
    : ErrorKind + Variant :=
  if bool_decide (length sysex = n) then v else inl BadSize.

Definition Decode_checks (sysex : list Z) : ErrorKind + Variant :=
  if negb (framed sysex) then inl NotSysex
  else if bool_decide (length sysex < 4)%nat then inl TooShort
  else
    let id := nth 3 sysex 0 in
    if bool_decide (id = 0x01) then
      sized sysex 21
        (if bool_decide (8 <= nth 6 sysex 0 <= 28) then inr Header
         else inl UnsupportedBitDepth)
    else if bool_decide (id = 0x02) then sized sysex 127 (inr Packet)
    else if bool_decide (id = 0x03) then sized sysex 7 (inr Request)
    else if bool_decide (0x7C <= id <= 0x7F) then sized sysex 6 (inr Control)
    else inl UnknownMessageType.

(** XOR-fold of a byte sequence. *)
Definition xor_fold (l : list Z) : Z := fold_left Z.lxor l 0.

(** [n] successive calls of [NextMessage], with what each returned. *)
Fixpoint NextMessages (n : nat) (s : SendOp.t) : exec (SendOp.t * list (option Message)) :=
  match n with
  | O => Ret (s, [])
  | S n' =>
      r <- NextMessage s ;;
      r' <- NextMessages n' (fst r) ;;
      Ret (fst r', snd r :: snd r')
  end.

Definition packetNumber (m : option Message) : option Z :=
  match m with
  | Some (MDataPacket p) => Some (DataPacket.PacketNumber p)
  | _ => None
  end.

(** The bytes one sample is written to by [write2], [write3] and [write4],
    and the sample read back from them by [read2], [read3] and [read4]:
    the loop bodies, named so that the loops can be described. *)
Definition enc2 (shiftH shiftL zero x : Z) : list Z :=
  let s := uint (uint x + zero) in
  [Z.land (byte (Z.shiftr s shiftH)) 0x7F; Z.land (byte (uint (Z.shiftl s shiftL))) 0x7F].

Definition enc3 (shiftH shiftM shiftL zero x : Z) : list Z :=
  let s := uint (uint x + zero) in
  [Z.land (byte (Z.shiftr s shiftH)) 0x7F; Z.land (byte (Z.shiftr s shiftM)) 0x7F;
   Z.land (byte (uint (Z.shiftl s shiftL))) 0x7F].

Definition enc4 (shiftH shiftM1 shiftM2 shiftL zero x : Z) : list Z :=
  let s := uint (uint x + zero) in
  [Z.land (byte (Z.shiftr s shiftH)) 0x7F; Z.land (byte (Z.shiftr s shiftM1)) 0x7F;
   Z.land (byte (Z.shiftr s shiftM2)) 0x7F;
   Z.land (byte (uint (Z.shiftl s shiftL))) 0x7F].

Definition dec2 (shiftH shiftL zero a b : Z) : Z :=
  let v := uint (Z.shiftl (uint (Z.land a 0x7F)) shiftH) in
  let v := Z.lor v (Z.shiftr (uint (Z.land b 0x7F)) shiftL) in
  int (uint (v - zero)).

Definition dec3 (shiftH shiftM shiftL zero a b c : Z) : Z :=
  let v := uint (Z.shiftl (uint (Z.land a 0x7F)) shiftH) in
  let v := Z.lor v (uint (Z.shiftl (uint (Z.land b 0x7F)) shiftM)) in
  let v := Z.lor v (Z.shiftr (uint (Z.land c 0x7F)) shiftL) in
  int (uint (v - zero)).

Definition dec4 (shiftH shiftM1 shiftM2 shiftL zero a b c e : Z) : Z :=
  let v := uint (Z.shiftl (uint (Z.land a 0x7F)) shiftH) in
  let v := Z.lor v (uint (Z.shiftl (uint (Z.land b 0x7F)) shiftM1)) in
  let v := Z.lor v (uint (Z.shiftl (uint (Z.land c 0x7F)) shiftM2)) in
  let v := Z.lor v (Z.shiftr (uint (Z.land e 0x7F)) shiftL) in
  int (uint (v - zero)).

Fixpoint unpack2 (shiftH shiftL zero : Z) (l : list Z) : list Z :=
  match l with
  | a :: b :: l' => dec2 shiftH shiftL zero a b :: unpack2 shiftH shiftL zero l'
  | _ => []
  end.

Fixpoint unpack3 (shiftH shiftM shiftL zero : Z) (l : list Z) : list Z :=
  match l with
  | a :: b :: c :: l' =>
      dec3 shiftH shiftM shiftL zero a b c :: unpack3 shiftH shiftM shiftL zero l'
  | _ => []
  end.

Fixpoint unpack4 (shiftH shiftM1 shiftM2 shiftL zero : Z) (l : list Z) : list Z :=
  match l with
  | a :: b :: c :: e :: l' =>
      dec4 shiftH shiftM1 shiftM2 shiftL zero a b c e
        :: unpack4 shiftH shiftM1 shiftM2 shiftL zero l'
  | _ => []
  end.

(** Bytes per sample and samples per packet at bit depth [d]. *)
Definition group (d : Z) : nat := if d <=? 14 then 2 else if d <=? 21 then 3 else 4.
Definition capacity (d : Z) : nat := if d <=? 14 then 60 else if d <=? 21 then 40 else 30.

(** The signed range of a sample at bit depth [d]. *)
Definition in_range (d x : Z) : Prop := - 2 ^ (d - 1) <= x < 2 ^ (d - 1).

Definition encode_sample (d x : Z) : list Z :=
  let zero := uint (Z.shiftl (uint 1) (d - 1)) in
  if d <=? 14 then enc2 (d - 7) (14 - d) zero x
  else if d <=? 21 then enc3 (d - 7) (d - 14) (21 - d) zero x
  else enc4 (d - 7) (d - 14) (d - 21) (28 - d) zero x.

(** A payload holding the samples [xs], zero-filled. *)
Definition pack (d : Z) (xs : list Z) : list Z :=
  flat_map (encode_sample d) xs ++ replicate (120 - group d * length xs) 0.

Definition unpack (d : Z) (l : list Z) : list Z :=
  let zero := uint (Z.shiftl (uint 1) (d - 1)) in
  if d <=? 14 then unpack2 (d - 7) (14 - d) zero l
  else if d <=? 21 then unpack3 (d - 7) (d - 14) (21 - d) zero l
  else unpack4 (d - 7) (d - 14) (d - 21) (28 - d) zero l.

(** The loop of a receiver: every data packet is decoded onto the samples
    collected so far ([r.samples = msg.GetSamples(r.samples, depth)]). *)
Fixpoint GetSamples_all (packets : list DataPacket.t) (s : list Z) (d : Z)
    : exec (list Z) :=
  match packets with
  | [] => Ret s
  | p :: packets' => s' <- GetSamples p s d ;; GetSamples_all packets' s' d
  end.

(** Number of packets a waveform of [count] samples takes. *)
Definition packets_needed (d : Z) (count : nat) : nat :=
  ((count + capacity d - 1) / capacity d)%nat.

Definition packet_message (p : DataPacket.t) : option Message := Some (MDataPacket p).

(** The state of a session over the waveform [orig] at depth [d] after
    [k] packets. *)
Definition session_at (orig : list Z) (d : Z) (k : nat) (s : SendOp.t) : Prop :=
  SendOp.length s = len orig /\
  SendOp.bitDepth s = d /\
  length (DataPacket.Data (SendOp.data s)) = 120%nat /\
  SendOp.samples s = drop (k * capacity d) orig /\
  SendOp.num s = Z.of_nat k mod 128.

(** [x] fits an unsigned field of [w] bits. *)
Definition fits (w x : Z) : Prop := 0 <= x < 2 ^ w.

(** Every numeric field of the message lies within its declared width. *)
Definition within_widths (m : Message) : Prop :=
  match m with
  | MDumpHeader h =>
      fits 7 (DumpHeader.Channel h) /\ fits 14 (DumpHeader.Number h) /\
      8 <= DumpHeader.BitDepth h <= 28 /\
      fits 20 (DumpHeader.Period h) /\ fits 20 (DumpHeader.Length h) /\
      fits 20 (DumpHeader.LoopStart h) /\ fits 20 (DumpHeader.LoopEnd h) /\
      fits 7 (DumpHeader.LoopType h)
  | MDataPacket p =>
      fits 7 (DataPacket.Channel p) /\ fits 7 (DataPacket.PacketNumber p) /\
      length (DataPacket.Data p) = 120%nat /\ fits 7 (DataPacket.Checksum p)
  | MDumpRequest r =>
      fits 7 (DumpRequest.Channel r) /\ fits 14 (DumpRequest.Number r)
  | MControlPacket c =>
      fits 7 (ControlPacket.Type_ c) /\ fits 7 (ControlPacket.Channel c) /\
      fits 7 (ControlPacket.PacketNumber c)
  end.

(** The type of a control packet is one of [Wait], [Cancel], [Nak], [Ack]. *)
Definition control_type_known (m : Message) : Prop :=
  match m with
  | MControlPacket c => 0x7C <= ControlPacket.Type_ c <= 0x7F
  | _ => True
  end.

(** What [receive] hands to the loop: nil, or a message that [Decode]
    returned. *)
Definition from_wire (ev : option Message) : Prop :=
  match ev with
  | None => True
  | Some m => exists sysex : list Z, Decode sysex = Ret (Ok m)
  end.

(** A control packet of type [ty] on the channel of the transfer. *)
Definition control_on (cfg : sendConfig.t) (ty : Z) (ev : option Message) : Prop :=
  match ev with
  | Some (MControlPacket c) =>
      ControlPacket.Channel c = byte (sendConfig.Channel cfg) /\ ControlPacket.Type_ c = ty
  | _ => False
  end.

Definition resumes (cfg : sendConfig.t) (ev : option Message) : Prop :=
  control_on cfg Ack ev \/ control_on cfg Nak ev \/ control_on cfg Cancel ev.

(* ===================================================================== *)
(** ** Further code of the repository                                     *)
(* ===================================================================== *)

(** [samplerateToPeriod] (package main, and the same function of the
    tests): Go's integer division truncates towards zero and panics on a
    zero divisor. *)
Definition samplerateToPeriod (rate : Z) : exec Z :=
  if rate =? 0 then Panic "integer divide by zero"
  else Ret (uint (Z.quot 1000000000 rate)).

(** [isSysex] (package cmdutil), the filter of the MIDI listener; the
    conjunction short-circuits. *)
Definition isSysex (msg : list Z) : exec bool :=
  if negb (0 <? len msg) then Ret false
  else
    first <- index msg 0 ;;
    if negb (first =? 0xF0) then Ret false
    else last <- index msg (len msg - 1) ;; Ret (last =? 0xF7).

(** The fields of [audio.IntBuffer] that [doTransfer] reads
    ([Format.SampleRate], [SourceBitDepth], [Data]). *)
Module IntBuffer.
Record t : Type := mk {
  SampleRate : Z;       (* int *)
  SourceBitDepth : Z;   (* int *)
  Data : list Z         (* []int *)
}.
End IntBuffer.

(** How a run of [doTransfer] over the received events stands. *)
Inductive handshake_end : Type :=
| DataPhase (e : run_end)        (* transferData was entered and stands at [e] *)
| Handshaking (waiting : bool)   (* the events are used up before the data phase *)
| Denied (why : string).         (* log.Fatal *)

(** The [for] loop of [doTransfer]: one event per pass, as in
    [transferData_loop]; the events left over when the data phase is
    entered go to [transferData]. *)
Fixpoint handshake_loop (cfg : sendConfig.t) (transfer : SendOp.t)
    (evs : list (option Message)) (waiting : bool) : list (list Z) * handshake_end :=
  match evs with
  | [] => ([], Handshaking waiting)
  | ev :: evs' =>
      let enter := let '(sent, e) := transferData cfg transfer evs' in (sent, DataPhase e) in
      match ev with
      | None =>
          if negb waiting then enter
          else handshake_loop cfg transfer evs' waiting
      | Some (MControlPacket msg) =>
          if negb (ControlPacket.Channel msg =? byte (sendConfig.Channel cfg))
          then handshake_loop cfg transfer evs' waiting   (* continue *)
          else
            let ty := ControlPacket.Type_ msg in
            if ty =? Ack then
              if negb (ControlPacket.PacketNumber msg =? 0)
              then handshake_loop cfg transfer evs' false   (* continue *)
              else enter
            else if ty =? Nak then ([], Denied "transfer denied: NAK response")
            else if ty =? Cancel then ([], Denied "transfer denied: CANCEL response")
            else if ty =? Wait then handshake_loop cfg transfer evs' true
            else handshake_loop cfg transfer evs' false
      | Some _ => handshake_loop cfg transfer evs' waiting   (* ignoring message *)
      end
  end.

(** [doTransfer]: [header] is a pointer, so the header that is sent is the
    one [NewSendOp] has written the length to. *)
Definition doTransfer (cfg : sendConfig.t) (waveform : IntBuffer.t)
    (evs : list (option Message)) : exec (list (list Z) * handshake_end) :=
  period <- samplerateToPeriod (IntBuffer.SampleRate waveform) ;;
  let header :=
    DumpHeader.mk (byte (sendConfig.Channel cfg)) (uint16 (sendConfig.WaveformNumber cfg))
      (byte (IntBuffer.SourceBitDepth waveform)) period 0 0 0 0 in
  let '(transfer, header) := NewSendOp (IntBuffer.Data waveform) header in
  let '(sent, e) := handshake_loop cfg transfer evs false in
  Ret (Encode (MDumpHeader header) [] :: sent, e).

(** [encodeSDS] (tests): the header, then every packet of the session.
    Each pass of the loop takes at least one sample, so the number of
    samples, plus one for the last test of [Done], is fuel enough. *)
Fixpoint encodeSDS_loop (fuel : nat) (send : SendOp.t) (output : list Z)
    : exec (list Z) :=
  match fuel with
  | O => Ret output
  | S fuel' =>
      if Done send then Ret output
      else
        r <- NextMessage send ;;
        match snd r with
        | Some m => encodeSDS_loop fuel' (fst r) (Encode m output)
        | None => Panic "nil pointer dereference"
        end
  end.

Definition encodeSDS (samples : list Z) (sampleRate bitDepth : Z) : exec (list Z) :=
  period <- samplerateToPeriod sampleRate ;;
  let h := DumpHeader.mk 0 0 (byte bitDepth) period 0 0 0 0 in
  let '(send, h) := NewSendOp samples h in
  encodeSDS_loop (S (length samples)) send (Encode (MDumpHeader h) []).

(** [bufio.Reader.ReadBytes(delim)] on the input that is left: the bytes
    up to and including the first [delim] and the rest, or [None] (io.EOF)
    when there is no [delim]. *)
Fixpoint ReadBytes (delim : Z) (input : list Z) : option (list Z * list Z) :=
  match input with
  | [] => None
  | b :: rest =>
      if b =? delim then Some ([b], rest)
      else
        match ReadBytes delim rest with
        | Some (line, rest') => Some (b :: line, rest')
        | None => None
        end
  end.

Module sdsFile.
Record t : Type := mk {
  header : option DumpHeader.t;   (* *DumpHeader, nil at first *)
  samples : list Z;               (* decoded sample data *)
  raw : list Z                    (* content of the file *)
}.
End sdsFile.

(** The errors of [loadSDS]. *)
Inductive load_error : Type :=
| errAtMsg (i : Z) (e : error)          (* "at msg %d: %v" *)
| errExtraHeader (i : Z)                (* "msg %d: extra header" *)
| errDataBeforeHeader                   (* "data packet before header" *)
| errChecksum (i cs ck : Z).            (* "msg %d: checksum %x != %x" *)

(** [loadSDS] (tests) on the content [raw] of the file, with [readMessage]
    inlined.  Every message read takes at least one byte, so the length of
    the input plus one is fuel enough. *)
Fixpoint loadSDS_loop (fuel : nat) (input : list Z) (i : Z) (r : sdsFile.t)
    : exec (sdsFile.t * option load_error) :=
  match fuel with
  | O => Ret (r, None)
  | S fuel' =>
      match ReadBytes 0xF7 input with
      | None => Ret (r, None)   (* io.EOF *)
      | Some (rawmsg, rest) =>
          dec <- Decode rawmsg ;;
          match dec with
          | Err e => Ret (r, Some (errAtMsg i e))
          | Ok (MDumpHeader msg) =>
              match sdsFile.header r with
              | Some _ => Ret (r, Some (errExtraHeader i))
              | None =>
                  loadSDS_loop fuel' rest (int (i + 1))
                    (sdsFile.mk (Some msg) (sdsFile.samples r) (sdsFile.raw r))
              end
          | Ok (MDataPacket msg) =>
              match sdsFile.header r with
              | None => Ret (r, Some errDataBeforeHeader)
              | Some h =>
                  let cs := ComputeChecksum msg in
                  if negb (cs =? DataPacket.Checksum msg)
                  then Ret (r, Some (errChecksum i cs (DataPacket.Checksum msg)))
                  else
                    s <- GetSamples msg (sdsFile.samples r) (int (DumpHeader.BitDepth h)) ;;
                    loadSDS_loop fuel' rest (int (i + 1))
                      (sdsFile.mk (sdsFile.header r) s (sdsFile.raw r))
              end
          | Ok _ => loadSDS_loop fuel' rest (int (i + 1)) r
          end
      end
  end.

Definition loadSDS (raw : list Z) : exec (sdsFile.t * option load_error) :=
  loadSDS_loop (S (length raw)) raw 0 (sdsFile.mk None [] raw).

(** ** Further reference definitions *)

(** Size in bytes of the encoding of a message. *)
Definition wire_size (m : Message) : nat :=
  match m with
  | MDumpHeader _ => 21
  | MDataPacket p => 7 + length (DataPacket.Data p)
  | MDumpRequest _ => 7
  | MControlPacket _ => 6
  end.

(** The message with every field reduced to the bits that are encoded. *)
Definition masked (m : Message) : Message :=
  match m with
  | MDumpHeader h =>
      MDumpHeader
        (DumpHeader.mk (Z.land (DumpHeader.Channel h) 0x7F)
           (DumpHeader.Number h mod 2 ^ 14)
           (Z.land (DumpHeader.BitDepth h) 0x7F)
           (DumpHeader.Period h mod 2 ^ 20) (DumpHeader.Length h mod 2 ^ 20)
           (DumpHeader.LoopStart h mod 2 ^ 20) (DumpHeader.LoopEnd h mod 2 ^ 20)
           (Z.land (DumpHeader.LoopType h) 0x7F))
  | MDataPacket p =>
      MDataPacket
        (DataPacket.mk (Z.land (DataPacket.Channel p) 0x7F)
           (Z.land (DataPacket.PacketNumber p) 0x7F) (DataPacket.Data p)
           (Z.land (DataPacket.Checksum p) 0x7F))
  | MDumpRequest r =>
      MDumpRequest
        (DumpRequest.mk (Z.land (DumpRequest.Channel r) 0x7F)
           (DumpRequest.Number r mod 2 ^ 14))
  | MControlPacket c =>
      MControlPacket
        (ControlPacket.mk (Z.land (byte (ControlPacket.Type_ c)) 0x7F)
           (Z.land (ControlPacket.Channel c) 0x7F)
           (Z.land (ControlPacket.PacketNumber c) 0x7F))
  end.

(** What [Decode] needs of a message to take its encoding back. *)
Definition decodable (m : Message) : Prop :=
  match m with
  | MDumpHeader h => 8 <= Z.land (DumpHeader.BitDepth h) 0x7F <= 28
  | MDataPacket p => length (DataPacket.Data p) = 120%nat
  | MDumpRequest _ => True
  | MControlPacket c => 0x7C <= Z.land (byte (ControlPacket.Type_ c)) 0x7F
  end.

(** A byte that is safe inside a system-exclusive message. *)
Definition seven_bit (b : Z) : Prop := 0 <= b < 128.

(** The bytes of a frame between its first and its last. *)
Definition interior (sysex : list Z) : list Z := drop 1 (take (length sysex - 1) sysex).

(** The payload of a data packet is the only part of a message that
    [Encode] copies without a mask. *)
Definition payload_seven_bit (m : Message) : Prop :=
  match m with
  | MDataPacket p => Forall seven_bit (DataPacket.Data p)
  | _ => True
  end.

(** What holds of every message that [Decode] returns. *)
Definition well_formed (m : Message) : Prop :=
  match m with
  | MDumpHeader h =>
      8 <= DumpHeader.BitDepth h <= 28 /\ fits 14 (DumpHeader.Number h) /\
      fits 20 (DumpHeader.Period h) /\ fits 20 (DumpHeader.Length h) /\
      fits 20 (DumpHeader.LoopStart h) /\ fits 20 (DumpHeader.LoopEnd h)
  | MDataPacket p => length (DataPacket.Data p) = 120%nat
  | MDumpRequest r => fits 14 (DumpRequest.Number r)
  | MControlPacket c => 0x7C <= ControlPacket.Type_ c <= 0x7F
  end.

(** The message that [Decode] returns for the frame [sysex]. *)
Inductive decoded (sysex : list Z) : Message -> Prop :=
| decoded_header :
    length sysex = 21%nat -> nth 3 sysex 0 = 0x01 -> 8 <= nth 6 sysex 0 <= 28 ->
    decoded sysex
      (MDumpHeader
         (DumpHeader.mk (nth 2 sysex 0) (dec14bit (nth 4 sysex 0) (nth 5 sysex 0))
            (nth 6 sysex 0)
            (dec20bit (nth 7 sysex 0) (nth 8 sysex 0) (nth 9 sysex 0))
            (dec20bit (nth 10 sysex 0) (nth 11 sysex 0) (nth 12 sysex 0))
            (dec20bit (nth 13 sysex 0) (nth 14 sysex 0) (nth 15 sysex 0))
            (dec20bit (nth 16 sysex 0) (nth 17 sysex 0) (nth 18 sysex 0))
            (nth 19 sysex 0)))
| decoded_packet :
    length sysex = 127%nat -> nth 3 sysex 0 = 0x02 ->
    decoded sysex
      (MDataPacket
         (DataPacket.mk (nth 2 sysex 0) (nth 4 sysex 0) (take 120 (drop 5 sysex))
            (nth 125 sysex 0)))
| decoded_request :
    length sysex = 7%nat -> nth 3 sysex 0 = 0x03 ->
    decoded sysex
      (MDumpRequest
         (DumpRequest.mk (nth 2 sysex 0) (dec14bit (nth 4 sysex 0) (nth 5 sysex 0))))
| decoded_control :
    length sysex = 6%nat -> 0x7C <= nth 3 sysex 0 <= 0x7F ->
    decoded sysex
      (MControlPacket (ControlPacket.mk (nth 3 sysex 0) (nth 2 sysex 0) (nth 4 sysex 0))).

(** A frame as [Encode] writes it: seven-bit bytes inside, and six bits in
    the last byte of each 20-bit field of a header. *)
Definition canonical (sysex : list Z) : Prop :=
  Forall seven_bit (interior sysex) /\
  (nth 3 sysex 0 = 0x01 -> Forall (fun i : nat => nth i sysex 0 < 64) [9; 12; 15; 18]%nat).

(** A sample taken into the signed range of depth [d] modulo [2^d]. *)
Definition wrap_sample (d x : Z) : Z := (x + 2 ^ (d - 1)) mod 2 ^ d - 2 ^ (d - 1).

(** Packet number [k] of a session over the waveform [orig] on channel
    [ch] at depth [d]. *)
Definition packet_at (ch : Z) (orig : list Z) (d : Z) (k : nat) : DataPacket.t :=
  let body :=
    DataPacket.mk ch (Z.of_nat k mod 128)
      (pack d (take (capacity d) (drop (k * capacity d) orig))) 0 in
  DataPacket.mk ch (Z.of_nat k mod 128) (DataPacket.Data body) (ComputeChecksum body).

(** The packets of the whole waveform, and their encodings. *)
Definition packets_of (ch : Z) (orig : list Z) (d : Z) : list DataPacket.t :=
  map (packet_at ch orig d) (seq 0 (packets_needed d (length orig))).

Definition wire (p : DataPacket.t) : list Z := Encode (MDataPacket p) [].

Definition session_on (ch : Z) (orig : list Z) (d : Z) (k : nat) (s : SendOp.t) : Prop :=
  session_at orig d k s /\ DataPacket.Channel (SendOp.data s) = ch.

(** An event that neither holds nor ends the data phase: anything but a
    [Wait], [Nak] or [Cancel] on the channel of the transfer. *)
Definition lets_through (cfg : sendConfig.t) (ev : option Message) : Prop :=
  ~ control_on cfg Wait ev /\ ~ control_on cfg Nak ev /\ ~ control_on cfg Cancel ev.

(** A message that is not an answer to this sender: a control packet on
    another channel, or a message of another variant. *)
Definition foreign (cfg : sendConfig.t) (ev : option Message) : Prop :=
  match ev with
  | Some (MControlPacket c) => ControlPacket.Channel c <> byte (sendConfig.Channel cfg)
  | Some _ => True
  | None => False
  end.

(** The header that [doTransfer] sends for a waveform. *)
Definition transfer_header (cfg : sendConfig.t) (waveform : IntBuffer.t) (period : Z)
    : DumpHeader.t :=
  DumpHeader.mk (byte (sendConfig.Channel cfg)) (uint16 (sendConfig.WaveformNumber cfg))
    (byte (IntBuffer.SourceBitDepth waveform)) period
    (uint (len (IntBuffer.Data waveform))) 0 0 0.

(** The packets that [doTransfer] has to send for a waveform. *)
Definition transfer_packets (cfg : sendConfig.t) (waveform : IntBuffer.t) : list (list Z) :=
  map wire
    (packets_of (byte (sendConfig.Channel cfg)) (IntBuffer.Data waveform)
       (byte (IntBuffer.SourceBitDepth waveform))).

(** What holds of the file that [loadSDS] has read so far: samples only
    after a header, and every sample within the range of its bit depth. *)
Definition loaded_ok (r : sdsFile.t) : Prop :=
  match sdsFile.header r with
  | Some h =>
      8 <= DumpHeader.BitDepth h <= 28 /\
      Forall (in_range (DumpHeader.BitDepth h)) (sdsFile.samples r)
  | None => sdsFile.samples r = []
  end.

(* ===================================================================== *)
(** * Properties                                                          *)
(* ===================================================================== *)

(** ** The Go run-time model *)

Lemma index_ok (s : list Z) (i : Z) :
  0 <= i < len s -> index s i = Ret (nth (Z.to_nat i) s 0).
Proof.
  intros Hi. unfold index.
  destruct (i <? 0) eqn:E1; [apply Z.ltb_lt in E1; lia|].
  destruct (len s <=? i) eqn:E2; [apply Z.leb_le in E2; lia|].
  reflexivity.
Qed.

Lemma nth_last (s : list Z) :
  s <> [] -> last s = Some (nth (length s - 1) s 0).
Proof.
  intros Hs. rewrite last_lookup, nth_lookup.
  replace (pred (length s)) with (length s - 1)%nat by lia.
  destruct (s !! (length s - 1)%nat) eqn:E; [reflexivity|].
  apply lookup_ge_None in E. destruct s; [congruence|simpl in E; lia].
Qed.

Lemma int_small (x : Z) : - 2 ^ 63 <= x < 2 ^ 63 -> int x = x.
Proof.
  unfold int. change (2 ^ 63) with 9223372036854775808.
  change (2 ^ 64) with 18446744073709551616. intros H.
  Z.div_mod_to_equations. lia.
Qed.

Lemma uint_small (x : Z) : 0 <= x < 2 ^ 64 -> uint x = x.
Proof. intros H. apply Z.mod_small. assumption. Qed.

Lemma int_uint (x : Z) : - 2 ^ 63 <= x < 2 ^ 63 -> int (uint x) = x.
Proof.
  unfold int, uint. change (2 ^ 63) with 9223372036854775808.
  change (2 ^ 64) with 18446744073709551616. intros H.
  Z.div_mod_to_equations. lia.
Qed.

(** ** Decode: framing, dispatch, sizes *)

Lemma HasPrefix_nil (s : list Z) : HasPrefix s [] = true.
Proof. destruct s; reflexivity. Qed.

Lemma HasPrefix_take (s : list Z) :
  HasPrefix s prefix = bool_decide (take 2 s = [0xF0; 0x7E]).
Proof.
  unfold prefix.
  destruct s as [|a [|b s]]; simpl.
  - reflexivity.
  - rewrite andb_false_r. symmetry. apply bool_decide_eq_false_2. congruence.
  - rewrite HasPrefix_nil, andb_true_r, take_0.
    destruct (Z.eqb_spec a 240), (Z.eqb_spec b 126); subst; simpl.
    all: first [reflexivity
               |symmetry; apply bool_decide_eq_false_2; intros [=]; congruence].
Qed.

Lemma Decode_frame (sysex : list Z) :
  Decode sysex =
    if negb (framed sysex) then Ret (Err errNotSysex)
    else if len sysex <? 4 then Ret (Err errTooShort)
    else
      let id := nth 3 sysex 0 in
      if id =? 0x01 then decodeDumpHeader sysex
      else if id =? 0x02 then decodeDataPacket sysex
      else if id =? 0x03 then decodeDumpRequest sysex
      else if (id =? 0x7C) || (id =? 0x7D) || (id =? 0x7E) || (id =? 0x7F)
      then decodeControlPacket sysex
      else Ret (Err (errInvalidMessageId id)).
Proof.
  unfold Decode, framed. rewrite HasPrefix_take.
  destruct (bool_decide (take 2 sysex = [240; 126])) eqn:Hp; simpl; [|reflexivity].
  apply bool_decide_eq_true in Hp.
  assert (Hne : sysex <> []) by (intros ->; discriminate).
  assert (Hlen : 0 < len sysex) by (unfold len; destruct sysex; [congruence|simpl; lia]).
  rewrite index_ok by lia. simpl.
  rewrite (nth_last sysex Hne).
  replace (Z.to_nat (len sysex - 1)) with (length sysex - 1)%nat by (unfold len; lia).
  destruct (Z.eqb_spec (nth (length sysex - 1) sysex 0) 247) as [E|E].
  - rewrite E. rewrite bool_decide_eq_true_2 by reflexivity. simpl.
    destruct (len sysex <? 4) eqn:E4; [reflexivity|].
    apply Z.ltb_ge in E4. rewrite index_ok by lia. reflexivity.
  - rewrite bool_decide_eq_false_2 by congruence. reflexivity.
Qed.

Ltac index_all :=
  repeat (rewrite index_ok by lia; cbn [bind]).

Lemma decodeDumpHeader_verdict (msg : list Z) :
  verdict (decodeDumpHeader msg) =
    Some (sized msg 21
            (if bool_decide (8 <= nth 6 msg 0 <= 28) then inr Header
             else inl UnsupportedBitDepth)).
Proof.
  unfold decodeDumpHeader, sized, dumpHeaderSize.
  destruct (Z.eqb_spec (len msg) 21) as [E|E]; simpl.
  - rewrite bool_decide_eq_true_2 by (unfold len in E; lia).
    index_all. cbn [DumpHeader.BitDepth]. change (Z.to_nat 6) with 6%nat.
    destruct (Z.ltb_spec (nth 6 msg 0) 8), (Z.ltb_spec 28 (nth 6 msg 0)); simpl.
    all: case_bool_decide; first [reflexivity | lia].
  - rewrite bool_decide_eq_false_2 by (unfold len in E; lia). reflexivity.
Qed.

Lemma decodeDataPacket_verdict (msg : list Z) :
  verdict (decodeDataPacket msg) = Some (sized msg 127 (inr Packet)).
Proof.
  unfold decodeDataPacket, sized, dataPacketSize.
  destruct (Z.eqb_spec (len msg) 127) as [E|E]; simpl.
  - rewrite bool_decide_eq_true_2 by (unfold len in E; lia).
    index_all. unfold slice.
    destruct (Z.ltb_spec (len msg) 125); [lia|]. reflexivity.
  - rewrite bool_decide_eq_false_2 by (unfold len in E; lia). reflexivity.
Qed.

Lemma decodeDumpRequest_verdict (msg : list Z) :
  verdict (decodeDumpRequest msg) = Some (sized msg 7 (inr Request)).
Proof.
  unfold decodeDumpRequest, sized, dumpRequestSize.
  destruct (Z.eqb_spec (len msg) 7) as [E|E]; simpl.
  - rewrite bool_decide_eq_true_2 by (unfold len in E; lia).
    index_all. reflexivity.
  - rewrite bool_decide_eq_false_2 by (unfold len in E; lia). reflexivity.
Qed.

Lemma decodeControlPacket_verdict (msg : list Z) :
  verdict (decodeControlPacket msg) = Some (sized msg 6 (inr Control)).
Proof.
  unfold decodeControlPacket, sized, controlPacketSize.
  destruct (Z.eqb_spec (len msg) 6) as [E|E]; simpl.
  - rewrite bool_decide_eq_true_2 by (unfold len in E; lia).
    index_all. reflexivity.
  - rewrite bool_decide_eq_false_2 by (unfold len in E; lia). reflexivity.
Qed.

Lemma Decode_verdict (sysex : list Z) :
  verdict (Decode sysex) = Some (Decode_checks sysex).
Proof.
  rewrite Decode_frame. unfold Decode_checks.
  destruct (framed sysex); simpl; [|reflexivity].
  destruct (Z.ltb_spec (len sysex) 4) as [E4|E4].
  - rewrite bool_decide_eq_true_2 by (unfold len in E4; lia). reflexivity.
  - rewrite bool_decide_eq_false_2 by (unfold len in E4; lia).
    set (id := nth 3 sysex 0).
    destruct (Z.eqb_spec id 1) as [E|E].
    { rewrite bool_decide_eq_true_2 by assumption. apply decodeDumpHeader_verdict. }
    rewrite bool_decide_eq_false_2 by assumption.
    destruct (Z.eqb_spec id 2) as [E2|E2].
    { rewrite bool_decide_eq_true_2 by assumption. apply decodeDataPacket_verdict. }
    rewrite bool_decide_eq_false_2 by assumption.
    destruct (Z.eqb_spec id 3) as [E3|E3].
    { rewrite bool_decide_eq_true_2 by assumption. apply decodeDumpRequest_verdict. }
    rewrite bool_decide_eq_false_2 by assumption.
    destruct (Z.eqb_spec id 124), (Z.eqb_spec id 125), (Z.eqb_spec id 126),
      (Z.eqb_spec id 127); simpl;
      first [rewrite bool_decide_eq_true_2 by lia; apply decodeControlPacket_verdict
            |rewrite bool_decide_eq_false_2 by lia; reflexivity].
Qed.

(** Claim C6.  For every byte sequence, [Decode] runs the checks in the
    order of [Decode_checks]: [NotSysex] unless the prefix [F0 7E] and the
    trailing [F7] are there, then [TooShort] below four bytes, then the
    dispatch on the sub-ID ([UnknownMessageType] for any other), then
    [BadSize] unless the length is 21, 127, 7 or 6, then
    [UnsupportedBitDepth] unless the bit depth of a header lies in 8..28. *)
Theorem Decode_validation_order (sysex : list Z) :
  verdict (Decode sysex) = Some (Decode_checks sysex).
Proof. apply Decode_verdict. Qed.

(** Claim C10.  [Decode] is total: on every byte sequence, the empty one
    and those of one to three bytes included, it returns a message or an
    error and does not panic. *)
Theorem Decode_total (sysex : list Z) :
  exists r : result Message, Decode sysex = Ret r.
Proof.
  pose proof (Decode_verdict sysex) as H.
  destruct (Decode sysex) as [r|reason]; [eauto|discriminate H].
Qed.

Lemma copy_full (dst src : list Z) :
  length dst = length src -> copy dst src = src.
Proof.
  intros H. unfold copy. rewrite H, Nat.min_id, firstn_all.
  rewrite <- H, drop_all. apply app_nil_r.
Qed.

Lemma Decode_DataPacket (sysex : list Z) :
  framed sysex = true -> length sysex = 127%nat -> nth 3 sysex 0 = 0x02 ->
  Decode sysex =
    Ret (Ok (MDataPacket
      (DataPacket.mk (nth 2 sysex 0) (nth 4 sysex 0) (take 120 (drop 5 sysex))
         (nth 125 sysex 0)))).
Proof.
  intros Hf Hl Hid. rewrite Decode_frame, Hf. simpl negb. cbv iota.
  assert (Hlen : len sysex = 127) by (unfold len; lia).
  rewrite Hlen. simpl (127 <? 4). cbv iota zeta. rewrite Hid. simpl.
  unfold decodeDataPacket, dataPacketSize. rewrite Hlen. simpl.
  index_all. unfold slice. rewrite Hlen.
  change ((5 <? 0) || (125 <? 5) || (127 <? 125)) with false. cbv iota. cbn [bind].
  cbn [DataPacket.Channel DataPacket.PacketNumber DataPacket.Data DataPacket.Checksum].
  change (Z.to_nat (125 - 5)) with 120%nat. change (Z.to_nat 5) with 5%nat.
  change (Z.to_nat 2) with 2%nat. change (Z.to_nat 4) with 4%nat.
  change (Z.to_nat 125) with 125%nat.
  rewrite copy_full; [reflexivity|].
  rewrite length_take, length_drop, Hl. reflexivity.
Qed.

Lemma framed_insert_125 (sysex : list Z) (c : Z) :
  length sysex = 127%nat -> framed (<[125%nat := c]> sysex) = framed sysex.
Proof.
  intros Hl. unfold framed. f_equal.
  - f_equal. do 2 (destruct sysex as [|? sysex]; [discriminate Hl|]). reflexivity.
  - rewrite !last_lookup, length_insert, Hl. simpl.
    rewrite list_lookup_insert_ne by lia. reflexivity.
Qed.

Lemma nth_insert_ne (l : list Z) (i j : nat) (x : Z) :
  i <> j -> nth j (<[i := x]> l) 0 = nth j l 0.
Proof. intros H. rewrite !nth_lookup, list_lookup_insert_ne by assumption. reflexivity. Qed.

Lemma nth_insert_eq (l : list Z) (i : nat) (x : Z) :
  (i < length l)%nat -> nth i (<[i := x]> l) 0 = x.
Proof. intros H. rewrite nth_lookup, list_lookup_insert_eq by assumption. reflexivity. Qed.

(** Claim C7.  A framed data packet of 127 bytes decodes whatever its
    checksum byte: replacing byte 125 by any [c] still decodes, to the same
    packet carrying [c] as its checksum. *)
Theorem Decode_ignores_checksum (sysex : list Z) (c : Z) :
  framed sysex = true -> length sysex = 127%nat -> nth 3 sysex 0 = 0x02 ->
  exists p : DataPacket.t,
    Decode sysex = Ret (Ok (MDataPacket p)) /\
    DataPacket.Checksum p = nth 125 sysex 0 /\
    Decode (<[125%nat := c]> sysex) =
      Ret (Ok (MDataPacket
        (DataPacket.mk (DataPacket.Channel p) (DataPacket.PacketNumber p)
           (DataPacket.Data p) c))).
Proof.
  intros Hf Hl Hid. eexists. split; [apply Decode_DataPacket; assumption|].
  split; [reflexivity|]. cbn [DataPacket.Channel DataPacket.PacketNumber DataPacket.Data].
  rewrite Decode_DataPacket.
  - rewrite !nth_insert_ne by lia. rewrite nth_insert_eq by lia.
    rewrite drop_insert_ge by lia. rewrite take_insert_ge by lia. reflexivity.
  - rewrite framed_insert_125; assumption.
  - rewrite length_insert. assumption.
  - rewrite nth_insert_ne by lia. assumption.
Qed.

Lemma Decode_ignores_checksum_witness :
  framed (DataPacket_Encode DataPacket.zero []) = true /\
  length (DataPacket_Encode DataPacket.zero []) = 127%nat /\
  nth 3 (DataPacket_Encode DataPacket.zero []) 0 = 0x02 /\
  exists p : DataPacket.t,
    Decode (DataPacket_Encode DataPacket.zero []) = Ret (Ok (MDataPacket p)) /\
    DataPacket.Checksum p = nth 125 (DataPacket_Encode DataPacket.zero []) 0 /\
    Decode (<[125%nat := 0x55]> (DataPacket_Encode DataPacket.zero [])) =
      Ret (Ok (MDataPacket
        (DataPacket.mk (DataPacket.Channel p) (DataPacket.PacketNumber p)
           (DataPacket.Data p) 0x55))).
Proof.
  split; [reflexivity|]. split; [reflexivity|]. split; [reflexivity|].
  apply (Decode_ignores_checksum (DataPacket_Encode DataPacket.zero []) 0x55);
    reflexivity.
Defined.

(** ** Encode and Decode: round trip *)

Lemma testbit_high (n k i : Z) :
  0 <= n < 2 ^ k -> k <= i -> Z.testbit n i = false.
Proof.
  intros Hn Hi.
  destruct (Z.eq_dec n 0) as [->|Hne]; [apply Z.testbit_0_l|].
  apply Z.bits_above_log2; [lia|].
  assert (Z.log2 n < k); [|lia].
  apply Z.log2_lt_pow2; lia.
Qed.

Lemma dec14bit_append14bit (n : Z) :
  0 <= n < 2 ^ 14 ->
  dec14bit (Z.land (byte n) 0x7F) (Z.land (byte (Z.shiftr n 7)) 0x7F) = n.
Proof.
  intros Hn. unfold dec14bit, uint16, byte.
  change 127 with (Z.ones 7).
  rewrite <- !Z.land_ones by lia.
  Z.bitblast.
  all: rewrite ?(testbit_high n 14) by lia; reflexivity.
Qed.

Lemma dec20bit_append20bit (n : Z) :
  0 <= n < 2 ^ 20 ->
  dec20bit (Z.land (byte n) 0x7F) (Z.land (byte (Z.shiftr n 7)) 0x7F)
           (Z.land (byte (Z.shiftr n 14)) 0x3F) = n.
Proof.
  intros Hn. unfold dec20bit, uint, byte.
  change 127 with (Z.ones 7). change 63 with (Z.ones 6).
  rewrite <- !Z.land_ones by lia.
  Z.bitblast.
  all: rewrite ?(testbit_high n 20) by lia; reflexivity.
Qed.

Lemma land_0x7F_fits (x : Z) : fits 7 x -> Z.land x 0x7F = x.
Proof.
  unfold fits. intros H. change 127 with (Z.ones 7).
  rewrite Z.land_ones by lia. apply Z.mod_small. lia.
Qed.

Lemma byte_fits7 (x : Z) : fits 7 x -> byte x = x.
Proof. unfold fits, byte. intros H. apply Z.mod_small. lia. Qed.

Ltac to_nat_consts :=
  repeat match goal with
  | |- context [Z.to_nat (Zpos ?p)] =>
      let n := eval vm_compute in (Z.to_nat (Zpos p)) in
      change (Z.to_nat (Zpos p)) with n
  end.

Lemma Decode_DumpHeader (sysex : list Z) :
  framed sysex = true -> length sysex = 21%nat -> nth 3 sysex 0 = 0x01 ->
  8 <= nth 6 sysex 0 <= 28 ->
  Decode sysex =
    Ret (Ok (MDumpHeader
      (DumpHeader.mk (nth 2 sysex 0) (dec14bit (nth 4 sysex 0) (nth 5 sysex 0))
         (nth 6 sysex 0)
         (dec20bit (nth 7 sysex 0) (nth 8 sysex 0) (nth 9 sysex 0))
         (dec20bit (nth 10 sysex 0) (nth 11 sysex 0) (nth 12 sysex 0))
         (dec20bit (nth 13 sysex 0) (nth 14 sysex 0) (nth 15 sysex 0))
         (dec20bit (nth 16 sysex 0) (nth 17 sysex 0) (nth 18 sysex 0))
         (nth 19 sysex 0)))).
Proof.
  intros Hf Hl Hid Hbd. rewrite Decode_frame, Hf. simpl negb. cbv iota.
  assert (Hlen : len sysex = 21) by (unfold len; lia).
  rewrite Hlen. change (21 <? 4) with false. cbv iota zeta. rewrite Hid.
  change (1 =? 1) with true. cbv iota.
  unfold decodeDumpHeader, dumpHeaderSize. rewrite Hlen.
  change (negb (21 =? 21)) with false. cbv iota.
  index_all. to_nat_consts. cbn [DumpHeader.BitDepth].
  destruct (Z.ltb_spec (nth 6 sysex 0) 8); [lia|].
  destruct (Z.ltb_spec 28 (nth 6 sysex 0)); [lia|]. reflexivity.
Qed.

Lemma Decode_DumpRequest (sysex : list Z) :
  framed sysex = true -> length sysex = 7%nat -> nth 3 sysex 0 = 0x03 ->
  Decode sysex =
    Ret (Ok (MDumpRequest
      (DumpRequest.mk (nth 2 sysex 0) (dec14bit (nth 4 sysex 0) (nth 5 sysex 0))))).
Proof.
  intros Hf Hl Hid. rewrite Decode_frame, Hf. simpl negb. cbv iota.
  assert (Hlen : len sysex = 7) by (unfold len; lia).
  rewrite Hlen. change (7 <? 4) with false. cbv iota zeta. rewrite Hid.
  change (3 =? 1) with false. change (3 =? 2) with false. change (3 =? 3) with true.
  cbv iota.
  unfold decodeDumpRequest, dumpRequestSize. rewrite Hlen.
  change (negb (7 =? 7)) with false. cbv iota.
  index_all. to_nat_consts. reflexivity.
Qed.

Lemma Decode_ControlPacket (sysex : list Z) :
  framed sysex = true -> length sysex = 6%nat -> 0x7C <= nth 3 sysex 0 <= 0x7F ->
  Decode sysex =
    Ret (Ok (MControlPacket
      (ControlPacket.mk (nth 3 sysex 0) (nth 2 sysex 0) (nth 4 sysex 0)))).
Proof.
  intros Hf Hl Hid. rewrite Decode_frame, Hf. simpl negb. cbv iota.
  assert (Hlen : len sysex = 6) by (unfold len; lia).
  rewrite Hlen. change (6 <? 4) with false. cbv iota zeta.
  destruct (Z.eqb_spec (nth 3 sysex 0) 1); [lia|].
  destruct (Z.eqb_spec (nth 3 sysex 0) 2); [lia|].
  destruct (Z.eqb_spec (nth 3 sysex 0) 3); [lia|].
  replace ((nth 3 sysex 0 =? 124) || (nth 3 sysex 0 =? 125) || (nth 3 sysex 0 =? 126)
           || (nth 3 sysex 0 =? 127)) with true
    by (symmetry; rewrite !orb_true_iff, !Z.eqb_eq; lia).
  unfold decodeControlPacket, controlPacketSize. rewrite Hlen.
  change (negb (6 =? 6)) with false. cbv iota.
  index_all. to_nat_consts. reflexivity.
Qed.

Lemma framed_cons2_snoc (x : Z) (l : list Z) :
  framed (0xF0 :: 0x7E :: x :: l ++ [0xF7]) = true.
Proof.
  unfold framed. cbn [take].
  rewrite bool_decide_eq_true_2 by reflexivity.
  change (240 :: 126 :: x :: l ++ [247]) with ([240; 126; x] ++ l ++ [247]).
  rewrite app_assoc, last_snoc. reflexivity.
Qed.

Lemma Decode_Encode_DumpHeader (h : DumpHeader.t) :
  within_widths (MDumpHeader h) -> Decode (Encode (MDumpHeader h) []) = Ret (Ok (MDumpHeader h)).
Proof.
  destruct h as [ch num bd per len_ ls le lt]. simpl.
  intros (Hch & Hnum & Hbd & Hper & Hlen & Hls & Hle & Hlt).
  assert (Hbd7 : fits 7 bd) by (unfold fits; lia).
  unfold DumpHeader_Encode, append14bit, append20bit.
  cbn [DumpHeader.Channel DumpHeader.Number DumpHeader.BitDepth DumpHeader.Period
       DumpHeader.Length DumpHeader.LoopStart DumpHeader.LoopEnd DumpHeader.LoopType app].
  rewrite (land_0x7F_fits ch), (land_0x7F_fits bd), (land_0x7F_fits lt) by assumption.
  rewrite Decode_DumpHeader.
  - cbn [nth]. rewrite dec14bit_append14bit by assumption.
    rewrite !dec20bit_append20bit by assumption. reflexivity.
  - apply (framed_cons2_snoc ch
      [1; Z.land (byte num) 127; Z.land (byte (num ≫ 7)) 127; bd;
       Z.land (byte per) 127; Z.land (byte (per ≫ 7)) 127; Z.land (byte (per ≫ 14)) 63;
       Z.land (byte len_) 127; Z.land (byte (len_ ≫ 7)) 127; Z.land (byte (len_ ≫ 14)) 63;
       Z.land (byte ls) 127; Z.land (byte (ls ≫ 7)) 127; Z.land (byte (ls ≫ 14)) 63;
       Z.land (byte le) 127; Z.land (byte (le ≫ 7)) 127; Z.land (byte (le ≫ 14)) 63;
       lt]).
  - reflexivity.
  - reflexivity.
  - cbn [nth]. assumption.
Qed.

Lemma Decode_Encode_DumpRequest (r : DumpRequest.t) :
  within_widths (MDumpRequest r) -> Decode (Encode (MDumpRequest r) []) = Ret (Ok (MDumpRequest r)).
Proof.
  destruct r as [ch num]. simpl. intros (Hch & Hnum).
  unfold DumpRequest_Encode, append14bit.
  cbn [DumpRequest.Channel DumpRequest.Number app].
  rewrite (land_0x7F_fits ch) by assumption.
  rewrite Decode_DumpRequest.
  - cbn [nth]. rewrite dec14bit_append14bit by assumption. reflexivity.
  - apply (framed_cons2_snoc ch
      [3; Z.land (byte num) 127; Z.land (byte (num ≫ 7)) 127]).
  - reflexivity.
  - reflexivity.
Qed.

Lemma Decode_Encode_ControlPacket (c : ControlPacket.t) :
  within_widths (MControlPacket c) -> control_type_known (MControlPacket c) ->
  Decode (Encode (MControlPacket c) []) = Ret (Ok (MControlPacket c)).
Proof.
  destruct c as [ty ch pn]. simpl. intros (Hty & Hch & Hpn) Hk.
  unfold ControlPacket_Encode.
  cbn [ControlPacket.Channel ControlPacket.Type_ ControlPacket.PacketNumber app].
  rewrite (byte_fits7 ty) by assumption.
  rewrite (land_0x7F_fits ch), (land_0x7F_fits ty), (land_0x7F_fits pn) by assumption.
  rewrite Decode_ControlPacket.
  - reflexivity.
  - apply (framed_cons2_snoc ch [ty; pn]).
  - reflexivity.
  - cbn [nth]. assumption.
Qed.

Lemma Decode_Encode_DataPacket (p : DataPacket.t) :
  within_widths (MDataPacket p) -> Decode (Encode (MDataPacket p) []) = Ret (Ok (MDataPacket p)).
Proof.
  destruct p as [ch pn data ck]. simpl. intros (Hch & Hpn & Hdata & Hck).
  unfold DataPacket_Encode.
  cbn [DataPacket.Channel DataPacket.PacketNumber DataPacket.Data DataPacket.Checksum].
  rewrite (land_0x7F_fits ch), (land_0x7F_fits ck), (land_0x7F_fits pn) by assumption.
  rewrite <- !app_assoc. cbn [app].
  rewrite Decode_DataPacket.
  - cbn [nth drop]. rewrite drop_0.
    rewrite take_app_length' by (symmetry; assumption).
    replace 120%nat with (length data) by assumption.
    rewrite app_nth2 by lia. rewrite Nat.sub_diag. reflexivity.
  - pose proof (framed_cons2_snoc ch (2 :: pn :: data ++ [ck])) as H.
    cbn [app] in H. rewrite <- app_assoc in H. exact H.
  - cbn [length]. rewrite length_app, Hdata. reflexivity.
  - reflexivity.
Qed.

(** Claim C5 as stated fails: a control packet whose type 0x01 fits seven
    bits is encoded with sub-ID 0x01 and decoded as a header of the wrong
    size. *)
Lemma Decode_Encode_any_type_counterexample :
  within_widths (MControlPacket (ControlPacket.mk 0x01 0 0)) /\
  Decode (Encode (MControlPacket (ControlPacket.mk 0x01 0 0)) []) =
    Ret (Err (errBadSize 6 "DumpHeader")) /\
  Decode (Encode (MControlPacket (ControlPacket.mk 0x01 0 0)) []) <>
    Ret (Ok (MControlPacket (ControlPacket.mk 0x01 0 0))).
Proof.
  split; [unfold within_widths, fits; simpl; lia|].
  split; [reflexivity|discriminate].
Qed.

(** Claim C5, amended.  For every message of the four variants whose
    numeric fields lie within their widths and, for a control packet, whose
    type is one of 0x7C..0x7F, decoding its encoding returns the message. *)
Theorem Decode_Encode (m : Message) :
  within_widths m -> control_type_known m -> Decode (Encode m []) = Ret (Ok m).
Proof.
  intros Hw Hk. destruct m.
  - apply Decode_Encode_DumpHeader; assumption.
  - apply Decode_Encode_DataPacket; assumption.
  - apply Decode_Encode_DumpRequest; assumption.
  - apply Decode_Encode_ControlPacket; assumption.
Qed.

Lemma Decode_Encode_witness :
  within_widths (MDumpHeader (DumpHeader.mk 1 2 16 4 5 6 7 8)) /\
  control_type_known (MDumpHeader (DumpHeader.mk 1 2 16 4 5 6 7 8)) /\
  Decode (Encode (MDumpHeader (DumpHeader.mk 1 2 16 4 5 6 7 8)) []) =
    Ret (Ok (MDumpHeader (DumpHeader.mk 1 2 16 4 5 6 7 8))).
Proof.
  assert (Hw : within_widths (MDumpHeader (DumpHeader.mk 1 2 16 4 5 6 7 8)))
    by (unfold within_widths, fits; simpl; lia).
  split; [exact Hw|]. split; [exact I|].
  apply (Decode_Encode (MDumpHeader (DumpHeader.mk 1 2 16 4 5 6 7 8)) Hw I).
Defined.

(** ** Sample packing: the loops *)

Lemma zero_loop_spec (fuel : nat) (pre rest : list Z) :
  (length rest <= fuel)%nat ->
  zero_loop fuel (pre ++ rest) (length pre) = pre ++ replicate (length rest) 0.
Proof.
  revert pre rest. induction fuel as [|fuel IH]; intros pre rest Hf.
  - destruct rest; [cbn; rewrite !app_nil_r; reflexivity|simpl in Hf; lia].
  - cbn [zero_loop]. destruct rest as [|a rest].
    + rewrite app_nil_r. rewrite Nat.ltb_irrefl. cbn. rewrite app_nil_r. reflexivity.
    + rewrite length_app. cbn [length].
      destruct (Nat.ltb_spec (length pre) (length pre + S (length rest))) as [_|H]; [|lia].
      rewrite insert_app_r_alt by lia. rewrite Nat.sub_diag. cbn [insert list_insert].
      replace (pre ++ 0 :: rest) with ((pre ++ [0]) ++ rest) by (rewrite <- app_assoc; reflexivity).
      replace (S (length pre)) with (length (pre ++ [0])) by (rewrite length_app; simpl; lia).
      rewrite IH by (simpl in Hf; lia).
      rewrite <- app_assoc. reflexivity.
Qed.

Lemma drop_nth (l : list Z) (i : nat) :
  (i < length l)%nat -> drop i l = nth i l 0 :: drop (S i) l.
Proof.
  intros H. destruct (lookup_lt_is_Some_2 l i H) as [x Hx].
  rewrite (drop_S l x i Hx). rewrite nth_lookup, Hx. reflexivity.
Qed.

Lemma write2_loop_spec (fuel : nat) (samples : list Z) (shiftH shiftL zero : Z)
    (pre rest : list Z) (si m : nat) :
  length rest = (2 * m)%nat -> (m <= fuel)%nat ->
  write2_loop fuel samples shiftH shiftL zero (pre ++ rest) si (length pre) =
    let n := Nat.min m (length samples - si) in
    (pre ++ flat_map (enc2 shiftH shiftL zero) (take n (drop si samples))
         ++ drop (2 * n) rest,
     (si + n)%nat, (length pre + 2 * n)%nat).
Proof.
  revert pre rest si m. induction fuel as [|fuel IH]; intros pre rest si m Hr Hf.
  - assert (m = 0)%nat as -> by lia. destruct rest; [|discriminate Hr].
    cbn. rewrite !Nat.add_0_r. reflexivity.
  - cbn [write2_loop].
    destruct (Nat.ltb_spec si (length samples)) as [Hsi|Hsi]; cbn [andb].
    2:{ replace (length samples - si)%nat with 0%nat by lia.
        rewrite Nat.min_0_r. cbn. rewrite !Nat.add_0_r. reflexivity. }
    destruct m as [|m].
    { destruct rest; [|discriminate Hr]. rewrite app_nil_r, Nat.ltb_irrefl.
      cbn. rewrite !Nat.add_0_r, app_nil_r. reflexivity. }
    destruct rest as [|a [|b rest]]; try (simpl in Hr; lia).
    rewrite length_app. cbn [length].
    destruct (Nat.ltb_spec (length pre) (length pre + S (S (length rest)))) as [_|H]; [|lia].
    rewrite (insert_app_r_alt pre) by lia. rewrite Nat.sub_diag. cbn [insert list_insert].
    rewrite (insert_app_r_alt pre) by lia.
    replace (length pre + 1 - length pre)%nat with 1%nat by lia. cbn [insert list_insert].
    set (s := uint (uint (nth si samples 0) + zero)).
    set (x := Z.land (byte (Z.shiftr s shiftH)) 127).
    set (y := Z.land (byte (uint (Z.shiftl s shiftL))) 127).
    replace (pre ++ x :: y :: rest) with ((pre ++ [x; y]) ++ rest)
      by (rewrite <- app_assoc; reflexivity).
    replace (length pre + 2)%nat with (length (pre ++ [x; y]))
      by (rewrite length_app; reflexivity).
    rewrite (IH _ _ _ m) by (simpl in Hr; lia).
    cbv zeta.
    replace (Nat.min (S m) (length samples - si)) with (S (Nat.min m (length samples - (si + 1)))) by lia.
    rewrite (drop_nth samples si Hsi). cbn [take flat_map].
    replace (S si) with (si + 1)%nat by lia.
    rewrite length_app. cbn [length].
    rewrite <- !app_assoc. cbn [app enc2]. fold s. fold x. fold y.
    replace (2 * S (Nat.min m (length samples - (si + 1))))%nat
      with (S (S (2 * Nat.min m (length samples - (si + 1))))) by lia.
    cbn [drop].
    f_equal; [f_equal; lia | lia].
Qed.

Lemma write3_loop_spec (fuel : nat) (samples : list Z) (shiftH shiftM shiftL zero : Z)
    (pre rest : list Z) (si m : nat) :
  length rest = (3 * m)%nat -> (m <= fuel)%nat ->
  write3_loop fuel samples shiftH shiftM shiftL zero (pre ++ rest) si (length pre) =
    let n := Nat.min m (length samples - si) in
    (pre ++ flat_map (enc3 shiftH shiftM shiftL zero) (take n (drop si samples))
         ++ drop (3 * n) rest,
     (si + n)%nat, (length pre + 3 * n)%nat).
Proof.
  revert pre rest si m. induction fuel as [|fuel IH]; intros pre rest si m Hr Hf.
  - assert (m = 0)%nat as -> by lia. destruct rest; [|discriminate Hr].
    cbn. rewrite !Nat.add_0_r. reflexivity.
  - cbn [write3_loop].
    destruct (Nat.ltb_spec si (length samples)) as [Hsi|Hsi]; cbn [andb].
    2:{ replace (length samples - si)%nat with 0%nat by lia.
        rewrite Nat.min_0_r. cbn. rewrite !Nat.add_0_r. reflexivity. }
    destruct m as [|m].
    { destruct rest; [|discriminate Hr]. rewrite app_nil_r, Nat.ltb_irrefl.
      cbn. rewrite !Nat.add_0_r, app_nil_r. reflexivity. }
    destruct rest as [|a [|b [|c rest]]]; try (simpl in Hr; lia).
    rewrite length_app. cbn [length].
    destruct (Nat.ltb_spec (length pre) (length pre + S (S (S (length rest))))) as [_|H]; [|lia].
    rewrite (insert_app_r_alt pre) by lia. rewrite Nat.sub_diag. cbn [insert list_insert].
    rewrite (insert_app_r_alt pre) by lia.
    replace (length pre + 1 - length pre)%nat with 1%nat by lia. cbn [insert list_insert].
    rewrite (insert_app_r_alt pre) by lia.
    replace (length pre + 2 - length pre)%nat with 2%nat by lia. cbn [insert list_insert].
    set (s := uint (uint (nth si samples 0) + zero)).
    set (x := Z.land (byte (Z.shiftr s shiftH)) 127).
    set (y := Z.land (byte (Z.shiftr s shiftM)) 127).
    set (z := Z.land (byte (uint (Z.shiftl s shiftL))) 127).
    replace (pre ++ x :: y :: z :: rest) with ((pre ++ [x; y; z]) ++ rest)
      by (rewrite <- app_assoc; reflexivity).
    replace (length pre + 3)%nat with (length (pre ++ [x; y; z]))
      by (rewrite length_app; reflexivity).
    rewrite (IH _ _ _ m) by (simpl in Hr; lia).
    cbv zeta.
    replace (Nat.min (S m) (length samples - si)) with (S (Nat.min m (length samples - (si + 1)))) by lia.
    rewrite (drop_nth samples si Hsi). cbn [take flat_map].
    replace (S si) with (si + 1)%nat by lia.
    rewrite length_app. cbn [length].
    rewrite <- !app_assoc. cbn [app enc3]. fold s. fold x. fold y. fold z.
    replace (3 * S (Nat.min m (length samples - (si + 1))))%nat
      with (S (S (S (3 * Nat.min m (length samples - (si + 1)))))) by lia.
    cbn [drop].
    f_equal; [f_equal; lia | lia].
Qed.

Lemma write4_loop_spec (fuel : nat) (samples : list Z)
    (shiftH shiftM1 shiftM2 shiftL zero : Z) (pre rest : list Z) (si m : nat) :
  length rest = (4 * m)%nat -> (m <= fuel)%nat ->
  write4_loop fuel samples shiftH shiftM1 shiftM2 shiftL zero (pre ++ rest) si (length pre) =
    let n := Nat.min m (length samples - si) in
    (pre ++ flat_map (enc4 shiftH shiftM1 shiftM2 shiftL zero) (take n (drop si samples))
         ++ drop (4 * n) rest,
     (si + n)%nat, (length pre + 4 * n)%nat).
Proof.
  revert pre rest si m. induction fuel as [|fuel IH]; intros pre rest si m Hr Hf.
  - assert (m = 0)%nat as -> by lia. destruct rest; [|discriminate Hr].
    cbn. rewrite !Nat.add_0_r. reflexivity.
  - cbn [write4_loop].
    destruct (Nat.ltb_spec si (length samples)) as [Hsi|Hsi]; cbn [andb].
    2:{ replace (length samples - si)%nat with 0%nat by lia.
        rewrite Nat.min_0_r. cbn. rewrite !Nat.add_0_r. reflexivity. }
    destruct m as [|m].
    { destruct rest; [|discriminate Hr]. rewrite app_nil_r, Nat.ltb_irrefl.
      cbn. rewrite !Nat.add_0_r, app_nil_r. reflexivity. }
    destruct rest as [|a [|b [|c [|e rest]]]]; try (simpl in Hr; lia).
    rewrite length_app. cbn [length].
    destruct (Nat.ltb_spec (length pre) (length pre + S (S (S (S (length rest)))))) as [_|H]; [|lia].
    rewrite (insert_app_r_alt pre) by lia. rewrite Nat.sub_diag. cbn [insert list_insert].
    rewrite (insert_app_r_alt pre) by lia.
    replace (length pre + 1 - length pre)%nat with 1%nat by lia. cbn [insert list_insert].
    rewrite (insert_app_r_alt pre) by lia.
    replace (length pre + 2 - length pre)%nat with 2%nat by lia. cbn [insert list_insert].
    rewrite (insert_app_r_alt pre) by lia.
    replace (length pre + 3 - length pre)%nat with 3%nat by lia. cbn [insert list_insert].
    set (s := uint (uint (nth si samples 0) + zero)).
    set (x := Z.land (byte (Z.shiftr s shiftH)) 127).
    set (y := Z.land (byte (Z.shiftr s shiftM1)) 127).
    set (z := Z.land (byte (Z.shiftr s shiftM2)) 127).
    set (w := Z.land (byte (uint (Z.shiftl s shiftL))) 127).
    replace (pre ++ x :: y :: z :: w :: rest) with ((pre ++ [x; y; z; w]) ++ rest)
      by (rewrite <- app_assoc; reflexivity).
    replace (length pre + 4)%nat with (length (pre ++ [x; y; z; w]))
      by (rewrite length_app; reflexivity).
    rewrite (IH _ _ _ m) by (simpl in Hr; lia).
    cbv zeta.
    replace (Nat.min (S m) (length samples - si)) with (S (Nat.min m (length samples - (si + 1)))) by lia.
    rewrite (drop_nth samples si Hsi). cbn [take flat_map].
    replace (S si) with (si + 1)%nat by lia.
    rewrite length_app. cbn [length].
    rewrite <- !app_assoc. cbn [app enc4]. fold s. fold x. fold y. fold z. fold w.
    replace (4 * S (Nat.min m (length samples - (si + 1))))%nat
      with (S (S (S (S (4 * Nat.min m (length samples - (si + 1))))))) by lia.
    cbn [drop].
    f_equal; [f_equal; lia | lia].
Qed.

Lemma length_flat_map_const {A B : Type} (f : A -> list B) (k : nat) (l : list A) :
  (forall x, length (f x) = k) -> length (flat_map f l) = (k * length l)%nat.
Proof.
  intros Hf. induction l as [|x l IH]; simpl; [lia|].
  rewrite length_app, Hf, IH. lia.
Qed.

Lemma take_drop_min (l : list Z) (c : nat) :
  take (Nat.min c (length l)) l = take c l /\ drop (Nat.min c (length l)) l = drop c l.
Proof.
  destruct (Nat.le_ge_cases c (length l)) as [H|H].
  - rewrite Nat.min_l by assumption. split; reflexivity.
  - rewrite Nat.min_r by assumption.
    rewrite firstn_all, drop_all, take_ge, drop_ge by lia. split; reflexivity.
Qed.

Lemma zero_loop_at (fuel : nat) (pre rest : list Z) (di : nat) :
  di = length pre -> (length rest <= fuel)%nat ->
  zero_loop fuel (pre ++ rest) di = pre ++ replicate (length rest) 0.
Proof. intros ->. apply zero_loop_spec. Qed.

Ltac write_spec loop_spec samples HD g c :=
  rewrite HD;
  let H := fresh "H" in
  pose proof loop_spec as H; cbn [app length] in H; rewrite H by lia; clear H;
  cbv zeta; rewrite Nat.sub_0_r, drop_0, !Nat.add_0_l;
  let Ht := fresh "Ht" in let Hd := fresh "Hd" in
  destruct (take_drop_min samples c) as [Ht Hd]; rewrite Ht, Hd;
  match goal with
  | |- context [zero_loop _ (?pre ++ _) _] =>
      assert (length pre = (g * Nat.min c (length samples))%nat)
        by (rewrite (length_flat_map_const _ g) by reflexivity;
            rewrite length_take; reflexivity)
  end;
  rewrite zero_loop_at by (rewrite ?length_app, ?length_drop, ?HD; lia);
  rewrite length_drop, HD, length_take; reflexivity.

Lemma write2_spec (msg : DataPacket.t) (samples : list Z) (bits : Z) :
  length (DataPacket.Data msg) = 120%nat ->
  write2 msg samples bits =
    (DataPacket.mk (DataPacket.Channel msg) (DataPacket.PacketNumber msg)
       (flat_map (enc2 (bits - 7) (14 - bits) (uint (Z.shiftl (uint 1) (bits - 1))))
          (take 60 samples)
        ++ replicate (120 - 2 * length (take 60 samples)) 0)
       (DataPacket.Checksum msg),
     drop 60 samples).
Proof.
  intros HD. unfold write2.
  write_spec (write2_loop_spec 120 samples (bits - 7) (14 - bits)
                (uint (Z.shiftl (uint 1) (bits - 1))) [] (DataPacket.Data msg) 0 60)
             samples HD 2%nat 60%nat.
Qed.

Lemma write3_spec (msg : DataPacket.t) (samples : list Z) (bits : Z) :
  length (DataPacket.Data msg) = 120%nat ->
  write3 msg samples bits =
    (DataPacket.mk (DataPacket.Channel msg) (DataPacket.PacketNumber msg)
       (flat_map (enc3 (bits - 7) (bits - 14) (21 - bits)
                    (uint (Z.shiftl (uint 1) (bits - 1))))
          (take 40 samples)
        ++ replicate (120 - 3 * length (take 40 samples)) 0)
       (DataPacket.Checksum msg),
     drop 40 samples).
Proof.
  intros HD. unfold write3.
  write_spec (write3_loop_spec 120 samples (bits - 7) (bits - 14) (21 - bits)
                (uint (Z.shiftl (uint 1) (bits - 1))) [] (DataPacket.Data msg) 0 40)
             samples HD 3%nat 40%nat.
Qed.

Lemma write4_spec (msg : DataPacket.t) (samples : list Z) (bits : Z) :
  length (DataPacket.Data msg) = 120%nat ->
  write4 msg samples bits =
    (DataPacket.mk (DataPacket.Channel msg) (DataPacket.PacketNumber msg)
       (flat_map (enc4 (bits - 7) (bits - 14) (bits - 21) (28 - bits)
                    (uint (Z.shiftl (uint 1) (bits - 1))))
          (take 30 samples)
        ++ replicate (120 - 4 * length (take 30 samples)) 0)
       (DataPacket.Checksum msg),
     drop 30 samples).
Proof.
  intros HD. unfold write4.
  write_spec (write4_loop_spec 120 samples (bits - 7) (bits - 14) (bits - 21) (28 - bits)
                (uint (Z.shiftl (uint 1) (bits - 1))) [] (DataPacket.Data msg) 0 30)
             samples HD 4%nat 30%nat.
Qed.

Lemma SetSamples_spec (msg : DataPacket.t) (samples : list Z) (d : Z) :
  8 <= d <= 28 -> length (DataPacket.Data msg) = 120%nat ->
  SetSamples msg samples d =
    Ret (DataPacket.mk (DataPacket.Channel msg) (DataPacket.PacketNumber msg)
           (pack d (take (capacity d) samples)) (DataPacket.Checksum msg),
         drop (capacity d) samples).
Proof.
  intros Hd HD. unfold SetSamples, pack, capacity, group, encode_sample.
  destruct (Z.ltb_spec d 8); [lia|].
  destruct (Z.leb_spec d 14); [rewrite write2_spec by assumption; reflexivity|].
  destruct (Z.leb_spec d 21); [rewrite write3_spec by assumption; reflexivity|].
  destruct (Z.leb_spec d 28); [rewrite write4_spec by assumption; reflexivity|lia].
Qed.

Lemma nth_app_at (pre rest : list Z) (k : nat) :
  nth (length pre + k) (pre ++ rest) 0 = nth k rest 0.
Proof. rewrite app_nth2 by lia. f_equal. lia. Qed.

Lemma read2_loop_spec (fuel : nat) (shiftH shiftL zero : Z)
    (dpre drest bpre brest : list Z) (m : nat) :
  length drest = (2 * m)%nat -> length brest = m -> (m <= fuel)%nat ->
  read2_loop fuel (dpre ++ drest) shiftH shiftL zero (bpre ++ brest)
    (length bpre) (length dpre) =
  bpre ++ unpack2 shiftH shiftL zero drest.
Proof.
  revert dpre drest bpre brest m.
  induction fuel as [|fuel IH]; intros dpre drest bpre brest m Hd Hb Hf.
  - assert (m = 0)%nat as -> by lia.
    destruct drest; [|discriminate Hd]. destruct brest; [|discriminate Hb]. reflexivity.
  - cbn [read2_loop]. destruct m as [|m].
    { destruct drest; [|discriminate Hd]. destruct brest; [|discriminate Hb].
      rewrite app_nil_r, Nat.ltb_irrefl. reflexivity. }
    destruct drest as [|a [|b drest]]; try (simpl in Hd; lia).
    destruct brest as [|c brest]; [discriminate Hb|].
    rewrite length_app. cbn [length].
    destruct (Nat.ltb_spec (length dpre) (length dpre + S (S (length drest)))) as [_|H]; [|lia].
    rewrite <- (Nat.add_0_r (length dpre)) at 1.
    rewrite !nth_app_at. cbn [nth].
    rewrite (insert_app_r_alt bpre) by lia. rewrite Nat.sub_diag. cbn [insert list_insert].
    fold (dec2 shiftH shiftL zero a b).
    replace (dpre ++ a :: b :: drest) with ((dpre ++ [a; b]) ++ drest)
      by (rewrite <- app_assoc; reflexivity).
    replace (length dpre + 2)%nat with (length (dpre ++ [a; b]))
      by (rewrite length_app; reflexivity).
    replace (bpre ++ dec2 shiftH shiftL zero a b :: brest)
      with ((bpre ++ [dec2 shiftH shiftL zero a b]) ++ brest)
      by (rewrite <- app_assoc; reflexivity).
    replace (length bpre + 1)%nat with (length (bpre ++ [dec2 shiftH shiftL zero a b]))
      by (rewrite length_app; reflexivity).
    rewrite (IH _ _ _ _ m) by (simpl in Hd, Hb; lia).
    rewrite <- app_assoc. reflexivity.
Qed.

Lemma read3_loop_spec (fuel : nat) (shiftH shiftM shiftL zero : Z)
    (dpre drest bpre brest : list Z) (m : nat) :
  length drest = (3 * m)%nat -> length brest = m -> (m <= fuel)%nat ->
  read3_loop fuel (dpre ++ drest) shiftH shiftM shiftL zero (bpre ++ brest)
    (length bpre) (length dpre) =
  bpre ++ unpack3 shiftH shiftM shiftL zero drest.
Proof.
  revert dpre drest bpre brest m.
  induction fuel as [|fuel IH]; intros dpre drest bpre brest m Hd Hb Hf.
  - assert (m = 0)%nat as -> by lia.
    destruct drest; [|discriminate Hd]. destruct brest; [|discriminate Hb]. reflexivity.
  - cbn [read3_loop]. destruct m as [|m].
    { destruct drest; [|discriminate Hd]. destruct brest; [|discriminate Hb].
      rewrite app_nil_r, Nat.ltb_irrefl. reflexivity. }
    destruct drest as [|a [|b [|c drest]]]; try (simpl in Hd; lia).
    destruct brest as [|x brest]; [discriminate Hb|].
    rewrite length_app. cbn [length].
    destruct (Nat.ltb_spec (length dpre) (length dpre + S (S (S (length drest)))))
      as [_|H]; [|lia].
    rewrite <- (Nat.add_0_r (length dpre)) at 1.
    rewrite !nth_app_at. cbn [nth].
    rewrite (insert_app_r_alt bpre) by lia. rewrite Nat.sub_diag. cbn [insert list_insert].
    fold (dec3 shiftH shiftM shiftL zero a b c).
    replace (dpre ++ a :: b :: c :: drest) with ((dpre ++ [a; b; c]) ++ drest)
      by (rewrite <- app_assoc; reflexivity).
    replace (length dpre + 3)%nat with (length (dpre ++ [a; b; c]))
      by (rewrite length_app; reflexivity).
    replace (bpre ++ dec3 shiftH shiftM shiftL zero a b c :: brest)
      with ((bpre ++ [dec3 shiftH shiftM shiftL zero a b c]) ++ brest)
      by (rewrite <- app_assoc; reflexivity).
    replace (length bpre + 1)%nat
      with (length (bpre ++ [dec3 shiftH shiftM shiftL zero a b c]))
      by (rewrite length_app; reflexivity).
    rewrite (IH _ _ _ _ m) by (simpl in Hd, Hb; lia).
    rewrite <- app_assoc. reflexivity.
Qed.

Lemma read4_loop_spec (fuel : nat) (shiftH shiftM1 shiftM2 shiftL zero : Z)
    (dpre drest bpre brest : list Z) (m : nat) :
  length drest = (4 * m)%nat -> length brest = m -> (m <= fuel)%nat ->
  read4_loop fuel (dpre ++ drest) shiftH shiftM1 shiftM2 shiftL zero (bpre ++ brest)
    (length bpre) (length dpre) =
  bpre ++ unpack4 shiftH shiftM1 shiftM2 shiftL zero drest.
Proof.
  revert dpre drest bpre brest m.
  induction fuel as [|fuel IH]; intros dpre drest bpre brest m Hd Hb Hf.
  - assert (m = 0)%nat as -> by lia.
    destruct drest; [|discriminate Hd]. destruct brest; [|discriminate Hb]. reflexivity.
  - cbn [read4_loop]. destruct m as [|m].
    { destruct drest; [|discriminate Hd]. destruct brest; [|discriminate Hb].
      rewrite app_nil_r, Nat.ltb_irrefl. reflexivity. }
    destruct drest as [|a [|b [|c [|e drest]]]]; try (simpl in Hd; lia).
    destruct brest as [|x brest]; [discriminate Hb|].
    rewrite length_app. cbn [length].
    destruct (Nat.ltb_spec (length dpre) (length dpre + S (S (S (S (length drest))))))
      as [_|H]; [|lia].
    rewrite <- (Nat.add_0_r (length dpre)) at 1.
    rewrite !nth_app_at. cbn [nth].
    rewrite (insert_app_r_alt bpre) by lia. rewrite Nat.sub_diag. cbn [insert list_insert].
    fold (dec4 shiftH shiftM1 shiftM2 shiftL zero a b c e).
    replace (dpre ++ a :: b :: c :: e :: drest) with ((dpre ++ [a; b; c; e]) ++ drest)
      by (rewrite <- app_assoc; reflexivity).
    replace (length dpre + 4)%nat with (length (dpre ++ [a; b; c; e]))
      by (rewrite length_app; reflexivity).
    replace (bpre ++ dec4 shiftH shiftM1 shiftM2 shiftL zero a b c e :: brest)
      with ((bpre ++ [dec4 shiftH shiftM1 shiftM2 shiftL zero a b c e]) ++ brest)
      by (rewrite <- app_assoc; reflexivity).
    replace (length bpre + 1)%nat
      with (length (bpre ++ [dec4 shiftH shiftM1 shiftM2 shiftL zero a b c e]))
      by (rewrite length_app; reflexivity).
    rewrite (IH _ _ _ _ m) by (simpl in Hd, Hb; lia).
    rewrite <- app_assoc. reflexivity.
Qed.

Lemma GetSamples_spec (msg : DataPacket.t) (out : list Z) (d : Z) :
  8 <= d <= 28 -> length (DataPacket.Data msg) = 120%nat ->
  GetSamples msg out d = Ret (out ++ unpack d (DataPacket.Data msg)).
Proof.
  intros Hd HD. unfold GetSamples, unpack.
  destruct (Z.ltb_spec d 8); [lia|].
  destruct (Z.leb_spec d 14).
  { unfold read2. rewrite HD. change (120 / 2)%nat with 60%nat.
    rewrite (read2_loop_spec 120 _ _ _ [] (DataPacket.Data msg) [] (replicate 60 0) 60)
      by (rewrite ?length_replicate; lia).
    reflexivity. }
  destruct (Z.leb_spec d 21).
  { unfold read3. rewrite HD. change (120 / 3)%nat with 40%nat.
    rewrite (read3_loop_spec 120 _ _ _ _ [] (DataPacket.Data msg) [] (replicate 40 0) 40)
      by (rewrite ?length_replicate; lia).
    reflexivity. }
  destruct (Z.leb_spec d 28); [|lia].
  unfold read4. rewrite HD. change (120 / 4)%nat with 30%nat.
  rewrite (read4_loop_spec 120 _ _ _ _ _ [] (DataPacket.Data msg) [] (replicate 30 0) 30)
    by (rewrite ?length_replicate; lia).
  reflexivity.
Qed.



(** ** Sample packing: the bits of one sample *)

Lemma land_byte_7F (x : Z) : Z.land (byte x) 0x7F = Z.land x 0x7F.
Proof.
  unfold byte. rewrite <- Z.land_ones by lia. change 127 with (Z.ones 7).
  Z.bitblast.
Qed.

Lemma land_uint_7F (x : Z) : Z.land (uint x) 0x7F = Z.land x 0x7F.
Proof.
  unfold uint. rewrite <- Z.land_ones by lia. change 127 with (Z.ones 7).
  Z.bitblast.
Qed.

Lemma land_7F_idem (x : Z) : Z.land (Z.land x 0x7F) 0x7F = Z.land x 0x7F.
Proof. rewrite <- Z.land_assoc. reflexivity. Qed.

Lemma land_7F_range (x : Z) : 0 <= Z.land x 0x7F < 128.
Proof.
  change 127 with (Z.ones 7). rewrite Z.land_ones by lia.
  apply Z.mod_pos_bound. lia.
Qed.

Lemma uint_land_7F (x : Z) : uint (Z.land x 0x7F) = Z.land x 0x7F.
Proof. apply uint_small. pose proof (land_7F_range x). lia. Qed.

Lemma uint_shiftl_7F (x k : Z) :
  0 <= k <= 21 -> uint (Z.shiftl (Z.land x 0x7F) k) = Z.shiftl (Z.land x 0x7F) k.
Proof.
  intros Hk. apply uint_small. rewrite Z.shiftl_mul_pow2 by lia.
  pose proof (land_7F_range x) as Hr.
  assert (0 < 2 ^ k <= 2 ^ 21) as Hp
    by (split; [apply Z.pow_pos_nonneg; lia | apply Z.pow_le_mono_r; lia]).
  change (2 ^ 21) with 2097152 in Hp. change (2 ^ 64) with 18446744073709551616. nia.
Qed.

(** The offset [zero] and the biased sample. *)
Lemma zero_value (d : Z) : 8 <= d <= 28 -> uint (Z.shiftl (uint 1) (d - 1)) = 2 ^ (d - 1).
Proof.
  intros Hd. change (uint 1) with 1. rewrite Z.shiftl_1_l.
  apply uint_small. split; [apply Z.pow_nonneg; lia|].
  apply Z.pow_lt_mono_r; lia.
Qed.

Lemma pow2_bounds (d : Z) : 8 <= d <= 28 -> 0 < 2 ^ (d - 1) /\ 2 ^ d = 2 * 2 ^ (d - 1) /\ 2 ^ d <= 2 ^ 28.
Proof.
  intros Hd. split; [apply Z.pow_pos_nonneg; lia|]. split.
  - replace d with (1 + (d - 1)) at 1 by lia. rewrite Z.pow_add_r by lia. reflexivity.
  - apply Z.pow_le_mono_r; lia.
Qed.

Lemma biased (d x : Z) :
  8 <= d <= 28 -> - 2 ^ (d - 1) <= x < 2 ^ (d - 1) ->
  uint (uint x + 2 ^ (d - 1)) = x + 2 ^ (d - 1) /\ 0 <= x + 2 ^ (d - 1) < 2 ^ d.
Proof.
  intros Hd Hx. destruct (pow2_bounds d Hd) as (Hp & Hpp & Hle).
  change (2 ^ 28) with 268435456 in Hle.
  split; [|lia]. unfold uint. rewrite Zplus_mod_idemp_l.
  apply Z.mod_small. change (2 ^ 64) with 18446744073709551616. lia.
Qed.

Lemma unbiased (d u : Z) :
  8 <= d <= 28 -> 0 <= u < 2 ^ d -> int (uint (u - 2 ^ (d - 1))) = u - 2 ^ (d - 1).
Proof.
  intros Hd Hu. destruct (pow2_bounds d Hd) as (Hp & Hpp & Hle).
  change (2 ^ 28) with 268435456 in Hle.
  apply int_uint. change (2 ^ 63) with 9223372036854775808. lia.
Qed.

Ltac bits_done u d :=
  rewrite ?(testbit_high u d) by lia; try reflexivity; try btauto.

Ltac normalise_groups :=
  rewrite ?land_byte_7F, ?land_uint_7F, ?land_7F_idem, ?uint_land_7F;
  rewrite ?uint_shiftl_7F by lia.

Lemma join2 (d u : Z) :
  8 <= d <= 14 -> 0 <= u < 2 ^ d ->
  Z.lor (uint (Z.shiftl (uint (Z.land (Z.land (byte (Z.shiftr u (d - 7))) 0x7F) 0x7F)) (d - 7)))
        (Z.shiftr (uint (Z.land (Z.land (byte (uint (Z.shiftl u (14 - d)))) 0x7F) 0x7F)) (14 - d))
  = u.
Proof.
  intros Hd Hu. normalise_groups. change 127 with (Z.ones 7).
  Z.bitblast. all: bits_done u d.
Qed.

Lemma join3 (d u : Z) :
  15 <= d <= 21 -> 0 <= u < 2 ^ d ->
  Z.lor (Z.lor
    (uint (Z.shiftl (uint (Z.land (Z.land (byte (Z.shiftr u (d - 7))) 0x7F) 0x7F)) (d - 7)))
    (uint (Z.shiftl (uint (Z.land (Z.land (byte (Z.shiftr u (d - 14))) 0x7F) 0x7F)) (d - 14))))
    (Z.shiftr (uint (Z.land (Z.land (byte (uint (Z.shiftl u (21 - d)))) 0x7F) 0x7F)) (21 - d))
  = u.
Proof.
  intros Hd Hu. normalise_groups. change 127 with (Z.ones 7).
  Z.bitblast. all: bits_done u d.
Qed.

Lemma join4 (d u : Z) :
  22 <= d <= 28 -> 0 <= u < 2 ^ d ->
  Z.lor (Z.lor (Z.lor
    (uint (Z.shiftl (uint (Z.land (Z.land (byte (Z.shiftr u (d - 7))) 0x7F) 0x7F)) (d - 7)))
    (uint (Z.shiftl (uint (Z.land (Z.land (byte (Z.shiftr u (d - 14))) 0x7F) 0x7F)) (d - 14))))
    (uint (Z.shiftl (uint (Z.land (Z.land (byte (Z.shiftr u (d - 21))) 0x7F) 0x7F)) (d - 21))))
    (Z.shiftr (uint (Z.land (Z.land (byte (uint (Z.shiftl u (28 - d)))) 0x7F) 0x7F)) (28 - d))
  = u.
Proof.
  intros Hd Hu. normalise_groups. change 127 with (Z.ones 7).
  Z.bitblast. all: bits_done u d.
Qed.

Lemma unpack2_pack (d : Z) (xs rest : list Z) :
  8 <= d <= 14 -> Forall (in_range d) xs ->
  unpack2 (d - 7) (14 - d) (uint (Z.shiftl (uint 1) (d - 1)))
    (flat_map (enc2 (d - 7) (14 - d) (uint (Z.shiftl (uint 1) (d - 1)))) xs ++ rest) =
  xs ++ unpack2 (d - 7) (14 - d) (uint (Z.shiftl (uint 1) (d - 1))) rest.
Proof.
  intros Hd Hxs. induction Hxs as [|x xs Hx _ IH]; [reflexivity|].
  cbn [flat_map enc2 app unpack2]. rewrite IH. f_equal.
  unfold dec2. rewrite zero_value by lia.
  destruct (biased d x) as [-> Hu]; [lia|exact Hx|].
  rewrite join2 by assumption. rewrite unbiased by (assumption || lia). lia.
Qed.

Lemma unpack3_pack (d : Z) (xs rest : list Z) :
  15 <= d <= 21 -> Forall (in_range d) xs ->
  unpack3 (d - 7) (d - 14) (21 - d) (uint (Z.shiftl (uint 1) (d - 1)))
    (flat_map (enc3 (d - 7) (d - 14) (21 - d) (uint (Z.shiftl (uint 1) (d - 1)))) xs ++ rest) =
  xs ++ unpack3 (d - 7) (d - 14) (21 - d) (uint (Z.shiftl (uint 1) (d - 1))) rest.
Proof.
  intros Hd Hxs. induction Hxs as [|x xs Hx _ IH]; [reflexivity|].
  cbn [flat_map enc3 app unpack3]. rewrite IH. f_equal.
  unfold dec3. rewrite zero_value by lia.
  destruct (biased d x) as [-> Hu]; [lia|exact Hx|].
  rewrite join3 by assumption. rewrite unbiased by (assumption || lia). lia.
Qed.

Lemma unpack4_pack (d : Z) (xs rest : list Z) :
  22 <= d <= 28 -> Forall (in_range d) xs ->
  unpack4 (d - 7) (d - 14) (d - 21) (28 - d) (uint (Z.shiftl (uint 1) (d - 1)))
    (flat_map (enc4 (d - 7) (d - 14) (d - 21) (28 - d) (uint (Z.shiftl (uint 1) (d - 1)))) xs
     ++ rest) =
  xs ++ unpack4 (d - 7) (d - 14) (d - 21) (28 - d) (uint (Z.shiftl (uint 1) (d - 1))) rest.
Proof.
  intros Hd Hxs. induction Hxs as [|x xs Hx _ IH]; [reflexivity|].
  cbn [flat_map enc4 app unpack4]. rewrite IH. f_equal.
  unfold dec4. rewrite zero_value by lia.
  destruct (biased d x) as [-> Hu]; [lia|exact Hx|].
  rewrite join4 by assumption. rewrite unbiased by (assumption || lia). lia.
Qed.



(** ** Sessions *)

Lemma group_capacity (d : Z) : (group d * capacity d = 120)%nat.
Proof.
  unfold group, capacity.
  destruct (d <=? 14); [reflexivity|]. destruct (d <=? 21); reflexivity.
Qed.

Lemma capacity_pos (d : Z) : (0 < capacity d)%nat.
Proof.
  unfold capacity. destruct (d <=? 14); [lia|]. destruct (d <=? 21); lia.
Qed.

Lemma length_encode_sample (d x : Z) : length (encode_sample d x) = group d.
Proof.
  unfold encode_sample, group.
  destruct (d <=? 14); [reflexivity|]. destruct (d <=? 21); reflexivity.
Qed.

Lemma length_pack (d : Z) (xs : list Z) :
  (length xs <= capacity d)%nat -> length (pack d xs) = 120%nat.
Proof.
  intros H. unfold pack. rewrite length_app, length_replicate.
  rewrite (length_flat_map_const _ (group d)) by apply length_encode_sample.
  pose proof (group_capacity d). nia.
Qed.

Lemma NewSendOp_session (samples : list Z) (h : DumpHeader.t) :
  8 <= DumpHeader.BitDepth h <= 28 ->
  session_at samples (DumpHeader.BitDepth h) 0 (fst (NewSendOp samples h)).
Proof.
  intros Hd. unfold session_at, NewSendOp. cbn.
  rewrite int_small by (change (2 ^ 63) with 9223372036854775808; lia).
  repeat split; reflexivity.
Qed.

Lemma Done_iff (s : SendOp.t) : Done s = true <-> SendOp.samples s = [].
Proof.
  unfold Done, len. destruct (SendOp.samples s); simpl; split; intros H;
    first [reflexivity | discriminate | lia].
Qed.

Lemma session_Done (orig : list Z) (d : Z) (k : nat) (s : SendOp.t) :
  session_at orig d k s ->
  Done s = true <-> (length orig <= k * capacity d)%nat.
Proof.
  intros (_ & _ & _ & Hs & _). rewrite Done_iff, Hs. split.
  - intros H. apply (f_equal length) in H. rewrite length_drop in H. simpl in H. lia.
  - intros H. apply drop_ge. assumption.
Qed.

Lemma NextMessage_done (orig : list Z) (d : Z) (k : nat) (s : SendOp.t) :
  session_at orig d k s -> (length orig <= k * capacity d)%nat ->
  NextMessage s = Ret (s, None).
Proof.
  intros Hs Hk. unfold NextMessage.
  rewrite (proj2 (session_Done orig d k s Hs) Hk). reflexivity.
Qed.

Lemma NextMessage_packet (orig : list Z) (d : Z) (k : nat) (s : SendOp.t) :
  8 <= d <= 28 -> session_at orig d k s -> (k * capacity d < length orig)%nat ->
  exists (s' : SendOp.t) (p : DataPacket.t),
    NextMessage s = Ret (s', Some (MDataPacket p)) /\
    DataPacket.PacketNumber p = Z.of_nat k mod 128 /\
    DataPacket.Data p = pack d (take (capacity d) (drop (k * capacity d) orig)) /\
    session_at orig d (S k) s'.
Proof.
  intros Hd Hs Hk. pose proof Hs as (Hlen & Hbd & HD & Hsm & Hnum).
  unfold NextMessage.
  destruct (Done s) eqn:E.
  { apply (session_Done orig d k s Hs) in E. lia. }
  rewrite Hbd, int_small by (change (2 ^ 63) with 9223372036854775808; lia).
  rewrite SetSamples_spec by assumption. cbn [bind].
  unfold nextNumber. cbn.
  eexists _, _. split; [reflexivity|]. cbn.
  split; [assumption|]. split; [rewrite Hsm; reflexivity|].
  unfold session_at. cbn. repeat split.
  - assumption.
  - apply length_pack. rewrite length_take. lia.
  - rewrite Hsm, drop_drop. f_equal. lia.
  - rewrite Hnum.
    pose proof (Z.mod_pos_bound (Z.of_nat k) 128 ltac:(lia)) as Hm.
    assert (Hsucc : Z.of_nat (S k) mod 128 = (Z.of_nat k mod 128 + 1) mod 128)
      by (rewrite Nat2Z.inj_succ, <- Z.add_1_r, Zplus_mod_idemp_l; reflexivity).
    rewrite Hsucc.
    destruct (Z.leb_spec 127 (Z.of_nat k mod 128)) as [H|H].
    + replace (Z.of_nat k mod 128) with 127 by lia. reflexivity.
    + unfold byte. change (2 ^ 8) with 256.
      rewrite (Z.mod_small (Z.of_nat k mod 128 + 1) 256) by lia.
      rewrite (Z.mod_small (Z.of_nat k mod 128 + 1) 128) by lia. reflexivity.
Qed.

Lemma NextMessages_packets (orig : list Z) (d : Z) (n k : nat) (s : SendOp.t) :
  8 <= d <= 28 -> session_at orig d k s ->
  (n = 0 \/ (k + n - 1) * capacity d < length orig)%nat ->
  exists (s' : SendOp.t) (packets : list DataPacket.t),
    NextMessages n s = Ret (s', map packet_message packets) /\
    session_at orig d (k + n) s' /\
    map DataPacket.PacketNumber packets = map (fun i => Z.of_nat i mod 128) (seq k n) /\
    map DataPacket.Data packets =
      map (fun i => pack d (take (capacity d) (drop (i * capacity d) orig))) (seq k n).
Proof.
  intros Hd. revert k s. induction n as [|n IH]; intros k s Hs Hn.
  - exists s, []. rewrite Nat.add_0_r.
    split; [reflexivity|]. split; [assumption|]. split; reflexivity.
  - assert (Hk : (k * capacity d < length orig)%nat).
    { destruct Hn as [Hn|Hn]; [discriminate Hn|].
      eapply Nat.le_lt_trans; [|exact Hn]. apply Nat.mul_le_mono_r. lia. }
    destruct (NextMessage_packet orig d k s Hd Hs Hk) as (s1 & p & Hcall & Hpn & Hdata & Hs1).
    destruct (IH (S k) s1 Hs1) as (s' & packets & Hrun & Hs' & Hnums & Hdatas).
    { destruct n; [left; reflexivity|right].
      destruct Hn as [Hn|Hn]; [discriminate Hn|].
      replace (S k + S n - 1)%nat with (k + S (S n) - 1)%nat by lia. exact Hn. }
    exists s', (p :: packets). cbn [NextMessages map seq].
    rewrite Hcall. cbn [bind fst snd]. rewrite Hrun. cbn [bind fst snd].
    split; [reflexivity|].
    split; [replace (k + S n)%nat with (S k + n)%nat by lia; exact Hs'|].
    split; [rewrite Hpn, Hnums|rewrite Hdata, Hdatas]; reflexivity.
Qed.


(** ** Sample packing: round trip *)

Lemma dec_zero (d : Z) :
  8 <= d <= 28 -> int (uint (0 - uint (Z.shiftl (uint 1) (d - 1)))) = - 2 ^ (d - 1).
Proof.
  intros Hd. rewrite zero_value by assumption.
  destruct (pow2_bounds d Hd) as (Hp & Hpp & Hle).
  rewrite (unbiased d 0) by lia. lia.
Qed.

Lemma unpack2_zeros (shiftH shiftL zero : Z) (k : nat) :
  unpack2 shiftH shiftL zero (replicate (2 * k) 0) = replicate k (int (uint (0 - zero))).
Proof.
  induction k as [|k IH]; [reflexivity|].
  replace (2 * S k)%nat with (S (S (2 * k))) by lia.
  cbn [replicate unpack2]. rewrite IH. f_equal.
  unfold dec2. change (Z.land 0 127) with 0. change (uint 0) with 0.
  rewrite Z.shiftl_0_l, Z.shiftr_0_l. reflexivity.
Qed.

Lemma unpack3_zeros (shiftH shiftM shiftL zero : Z) (k : nat) :
  unpack3 shiftH shiftM shiftL zero (replicate (3 * k) 0) =
    replicate k (int (uint (0 - zero))).
Proof.
  induction k as [|k IH]; [reflexivity|].
  replace (3 * S k)%nat with (S (S (S (3 * k)))) by lia.
  cbn [replicate unpack3]. rewrite IH. f_equal.
  unfold dec3. change (Z.land 0 127) with 0. change (uint 0) with 0.
  rewrite !Z.shiftl_0_l, Z.shiftr_0_l. reflexivity.
Qed.

Lemma unpack4_zeros (shiftH shiftM1 shiftM2 shiftL zero : Z) (k : nat) :
  unpack4 shiftH shiftM1 shiftM2 shiftL zero (replicate (4 * k) 0) =
    replicate k (int (uint (0 - zero))).
Proof.
  induction k as [|k IH]; [reflexivity|].
  replace (4 * S k)%nat with (S (S (S (S (4 * k))))) by lia.
  cbn [replicate unpack4]. rewrite IH. f_equal.
  unfold dec4. change (Z.land 0 127) with 0. change (uint 0) with 0.
  rewrite !Z.shiftl_0_l, Z.shiftr_0_l. reflexivity.
Qed.

Lemma unpack_pack (d : Z) (xs : list Z) :
  8 <= d <= 28 -> Forall (in_range d) xs -> (length xs <= capacity d)%nat ->
  unpack d (pack d xs) = xs ++ replicate (capacity d - length xs) (- 2 ^ (d - 1)).
Proof.
  intros Hd Hxs Hlen. rewrite <- (dec_zero d Hd).
  unfold unpack, pack, encode_sample, group, capacity in *.
  destruct (Z.leb_spec d 14).
  { rewrite unpack2_pack by (assumption || lia).
    replace (120 - 2 * length xs)%nat with (2 * (60 - length xs))%nat by lia.
    rewrite unpack2_zeros. reflexivity. }
  destruct (Z.leb_spec d 21).
  { rewrite unpack3_pack by (assumption || lia).
    replace (120 - 3 * length xs)%nat with (3 * (40 - length xs))%nat by lia.
    rewrite unpack3_zeros. reflexivity. }
  rewrite unpack4_pack by (assumption || lia).
  replace (120 - 4 * length xs)%nat with (4 * (30 - length xs))%nat by lia.
  rewrite unpack4_zeros. reflexivity.
Qed.

Lemma pack_tail_zero (d : Z) (xs : list Z) (i : nat) :
  (length xs <= capacity d)%nat -> (group d * length xs <= i < 120)%nat ->
  pack d xs !! i = Some 0.
Proof.
  intros Hlen Hi. unfold pack.
  assert (Hl : length (flat_map (encode_sample d) xs) = (group d * length xs)%nat)
    by (apply length_flat_map_const, length_encode_sample).
  rewrite lookup_app_r by lia. rewrite Hl.
  apply lookup_replicate_2. lia.
Qed.

Lemma GetSamples_all_spec (d : Z) (orig : list Z) (n k : nat)
    (packets : list DataPacket.t) (out : list Z) :
  8 <= d <= 28 -> Forall (in_range d) orig ->
  map DataPacket.Data packets =
    map (fun i => pack d (take (capacity d) (drop (i * capacity d) orig))) (seq k n) ->
  (length orig <= (k + n) * capacity d)%nat ->
  exists tail : list Z,
    GetSamples_all packets out d = Ret (out ++ tail) /\
    take (length (drop (k * capacity d) orig)) tail = drop (k * capacity d) orig.
Proof.
  intros Hd Hin. revert k packets out.
  induction n as [|n IH]; intros k packets out Hdata Hlen.
  - destruct packets; [|discriminate Hdata]. exists []. rewrite app_nil_r.
    split; [reflexivity|]. rewrite drop_ge by lia. reflexivity.
  - destruct packets as [|p packets]; [discriminate Hdata|].
    cbn [map seq] in Hdata. injection Hdata as Hp Hdata.
    set (chunk := take (capacity d) (drop (k * capacity d) orig)) in *.
    assert (Hclen : (length chunk <= capacity d)%nat)
      by (unfold chunk; rewrite length_take; lia).
    assert (Hcin : Forall (in_range d) chunk)
      by (unfold chunk; apply Forall_take, Forall_drop; assumption).
    cbn [GetSamples_all].
    rewrite GetSamples_spec
      by first [assumption | rewrite Hp; apply length_pack; assumption].
    cbn [bind]. rewrite Hp, unpack_pack by assumption.
    destruct (IH (S k) packets
                (out ++ chunk ++ replicate (capacity d - length chunk) (- 2 ^ (d - 1)))
                Hdata ltac:(lia)) as (tail & Hrun & Htail).
    exists (chunk ++ replicate (capacity d - length chunk) (- 2 ^ (d - 1)) ++ tail).
    split; [rewrite Hrun, <- !app_assoc; reflexivity|].
    set (l := drop (k * capacity d) orig) in *.
    assert (Hnext : drop (S k * capacity d) orig = drop (capacity d) l).
    { unfold l. rewrite drop_drop. f_equal. lia. }
    rewrite Hnext in Htail.
    destruct (Nat.le_gt_cases (capacity d) (length l)) as [Hfull|Hpart].
    + assert (length chunk = capacity d) as Hc by (unfold chunk; rewrite length_take; lia).
      rewrite Hc, Nat.sub_diag. cbn [replicate app].
      rewrite take_app, Hc. rewrite (take_ge chunk) by lia.
      rewrite length_drop in Htail. rewrite Htail.
      unfold chunk. apply take_drop.
    + assert (chunk = l) as Hc by (unfold chunk; apply take_ge; lia).
      rewrite Hc. rewrite take_app_length. reflexivity.
Qed.

Lemma packets_needed_spec (d : Z) (count : nat) :
  let n := packets_needed d count in
  (count <= n * capacity d)%nat /\ (n = 0 \/ (n - 1) * capacity d < count)%nat.
Proof.
  cbv zeta. unfold packets_needed. pose proof (capacity_pos d) as Hc.
  set (c := capacity d) in *.
  pose proof (Nat.div_mod_eq (count + c - 1) c) as E.
  pose proof (Nat.mod_upper_bound (count + c - 1) c ltac:(lia)) as Hr.
  set (n := ((count + c - 1) / c)%nat) in *.
  split; [nia|]. destruct n; [left; reflexivity|right]. nia.
Qed.

Lemma one_packet (d : Z) (samples : list Z) (msg : DataPacket.t) :
  8 <= d <= 28 -> length (DataPacket.Data msg) = 120%nat -> Forall (in_range d) samples ->
  exists (msg' : DataPacket.t) (decoded : list Z),
    SetSamples msg samples d = Ret (msg', drop (capacity d) samples) /\
    GetSamples msg' [] d = Ret decoded /\
    length decoded = capacity d /\
    take (length samples) decoded = take (capacity d) samples /\
    (forall i : nat,
       (group d * Nat.min (length samples) (capacity d) <= i < 120)%nat ->
       DataPacket.Data msg' !! i = Some 0).
Proof.
  intros Hd HD Hin.
  set (xs := take (capacity d) samples).
  assert (Hxl : length xs = Nat.min (capacity d) (length samples))
    by (unfold xs; apply length_take).
  assert (Hxin : Forall (in_range d) xs) by (apply Forall_take; assumption).
  eexists _, _. split; [apply SetSamples_spec; assumption|]. fold xs.
  cbn [DataPacket.Data].
  split.
  { rewrite GetSamples_spec by (cbn; rewrite ?length_pack; lia).
    cbn [DataPacket.Data app]. rewrite unpack_pack by (assumption || lia). reflexivity. }
  split; [rewrite length_app, length_replicate; lia|].
  split.
  - destruct (Nat.le_gt_cases (length samples) (capacity d)) as [H|H].
    + assert (xs = samples) as E by (apply take_ge; assumption).
      rewrite E. apply take_app_length.
    + rewrite Hxl, Nat.min_l, Nat.sub_diag by lia. cbn [replicate].
      rewrite app_nil_r. apply take_ge. lia.
  - intros i Hi. apply pack_tail_zero; rewrite Hxl, Nat.min_comm;
      [apply Nat.le_min_r|exact Hi].
Qed.

Lemma lookup_map_seq {A : Type} (f : nat -> A) (n k : nat) :
  (k < n)%nat -> map f (seq 0 n) !! k = Some (f k).
Proof.
  intros H. change (map f (seq 0 n)) with (f <$> seq 0 n).
  rewrite list_lookup_fmap, lookup_seq_lt by assumption. reflexivity.
Qed.

(** Claim C4.  For every bit depth in 8..28 and samples in the signed
    range of that depth, whatever their number: one [SetSamples] packs the
    first [capacity d] samples (60, 40 or 30) and returns the others,
    [GetSamples] of that packet truncated to the sample count gives those
    samples back, and the payload past the samples written is zero; over a
    whole waveform, the packets of a session decoded one after the other
    and truncated to the sample count give the waveform back, each packet
    zero past its samples. *)
Theorem SetSamples_GetSamples_round_trip (d : Z) (samples : list Z)
    (msg : DataPacket.t) (h : DumpHeader.t) :
  8 <= d <= 28 -> length (DataPacket.Data msg) = 120%nat ->
  Forall (in_range d) samples -> DumpHeader.BitDepth h = d ->
  (exists (msg' : DataPacket.t) (decoded : list Z),
     SetSamples msg samples d = Ret (msg', drop (capacity d) samples) /\
     GetSamples msg' [] d = Ret decoded /\
     length decoded = capacity d /\
     take (length samples) decoded = take (capacity d) samples /\
     (forall i : nat,
        (group d * Nat.min (length samples) (capacity d) <= i < 120)%nat ->
        DataPacket.Data msg' !! i = Some 0)) /\
  (exists (s' : SendOp.t) (packets : list DataPacket.t) (decoded : list Z),
     NextMessages (packets_needed d (length samples)) (fst (NewSendOp samples h)) =
       Ret (s', map packet_message packets) /\
     Done s' = true /\
     GetSamples_all packets [] d = Ret decoded /\
     take (length samples) decoded = samples /\
     (forall (k : nat) (p : DataPacket.t) (i : nat),
        packets !! k = Some p ->
        (group d * Nat.min (length samples - k * capacity d) (capacity d) <= i < 120)%nat ->
        DataPacket.Data p !! i = Some 0)).
Proof.
  intros Hd HD Hin Hh. split; [apply one_packet; assumption|].
  destruct (packets_needed_spec d (length samples)) as [Hall Hlast].
  set (n := packets_needed d (length samples)) in *.
  assert (Hs0 : session_at samples d 0 (fst (NewSendOp samples h)))
    by (rewrite <- Hh; apply NewSendOp_session; rewrite Hh; assumption).
  destruct (NextMessages_packets samples d n 0 _ Hd Hs0 Hlast)
    as (s' & packets & Hrun & Hs' & _ & Hdata).
  destruct (GetSamples_all_spec d samples n 0 packets [] Hd Hin Hdata Hall)
    as (tail & Hdec & Htail).
  exists s', packets, tail. split; [exact Hrun|].
  split; [apply (session_Done samples d (0 + n) s' Hs'); exact Hall|].
  split; [exact Hdec|]. split; [exact Htail|].
  intros k p i Hp Hi.
  assert (Hk : (k < n)%nat).
  { apply lookup_lt_Some in Hp.
    apply (f_equal length) in Hdata. rewrite !length_map, length_seq in Hdata. lia. }
  assert (HDp : DataPacket.Data p =
                pack d (take (capacity d) (drop (k * capacity d) samples))).
  { apply (f_equal (fun l => l !! k)) in Hdata.
    rewrite lookup_map_seq in Hdata by assumption.
    change (map DataPacket.Data packets) with (DataPacket.Data <$> packets) in Hdata.
    rewrite list_lookup_fmap, Hp in Hdata. cbn in Hdata. congruence. }
  rewrite HDp. apply pack_tail_zero; rewrite length_take, length_drop;
    [apply Nat.le_min_l|rewrite Nat.min_comm; exact Hi].
Qed.

Lemma SetSamples_GetSamples_round_trip_witness :
  8 <= 8 <= 28 /\
  length (DataPacket.Data DataPacket.zero) = 120%nat /\
  Forall (in_range 8) [-127; -126; -125] /\
  DumpHeader.BitDepth (DumpHeader.mk 0 0 8 0 0 0 0 0) = 8 /\
  (exists (msg' : DataPacket.t) (decoded : list Z),
     SetSamples DataPacket.zero [-127; -126; -125] 8 =
       Ret (msg', drop (capacity 8) [-127; -126; -125]) /\
     GetSamples msg' [] 8 = Ret decoded /\
     length decoded = capacity 8 /\
     take (length [-127; -126; -125]) decoded = take (capacity 8) [-127; -126; -125] /\
     (forall i : nat,
        (group 8 * Nat.min (length [-127; -126; -125]%Z) (capacity 8) <= i < 120)%nat ->
        DataPacket.Data msg' !! i = Some 0)) /\
  (exists (s' : SendOp.t) (packets : list DataPacket.t) (decoded : list Z),
     NextMessages (packets_needed 8 (length [-127; -126; -125]))
       (fst (NewSendOp [-127; -126; -125] (DumpHeader.mk 0 0 8 0 0 0 0 0))) =
       Ret (s', map packet_message packets) /\
     Done s' = true /\
     GetSamples_all packets [] 8 = Ret decoded /\
     take (length [-127; -126; -125]) decoded = [-127; -126; -125] /\
     (forall (k : nat) (p : DataPacket.t) (i : nat),
        packets !! k = Some p ->
        (group 8 * Nat.min (length [-127; -126; -125]%Z - k * capacity 8) (capacity 8)
         <= i < 120)%nat ->
        DataPacket.Data p !! i = Some 0)).
Proof.
  assert (H1 : 8 <= 8 <= 28) by lia.
  assert (H2 : length (DataPacket.Data DataPacket.zero) = 120%nat) by reflexivity.
  assert (H3 : Forall (in_range 8) [-127; -126; -125])
    by (repeat (constructor; [unfold in_range; simpl; lia|]); constructor).
  assert (H4 : DumpHeader.BitDepth (DumpHeader.mk 0 0 8 0 0 0 0 0) = 8) by reflexivity.
  split; [exact H1|]. split; [exact H2|]. split; [exact H3|]. split; [exact H4|].
  apply (SetSamples_GetSamples_round_trip 8 [-127; -126; -125] DataPacket.zero
           (DumpHeader.mk 0 0 8 0 0 0 0 0) H1 H2 H3 H4).
Defined.


(** ** Packet numbers *)

(** Claim C8.  When the waveform has samples for [n] packets, [n]
    successive calls of [NextMessage] on a new session return data packets
    numbered [0 mod 128, 1 mod 128, ..]: the call number [i+1] returns
    packet number [i mod 128].  For [n = 200] the numbers are
    [0..127] followed by [0..71]. *)
Theorem NextMessage_packet_numbers (samples : list Z) (h : DumpHeader.t) (n : nat) :
  8 <= DumpHeader.BitDepth h <= 28 ->
  ((n - 1) * capacity (DumpHeader.BitDepth h) < length samples)%nat ->
  exists (s' : SendOp.t) (msgs : list (option Message)),
    NextMessages n (fst (NewSendOp samples h)) = Ret (s', msgs) /\
    map packetNumber msgs = map (fun i => Some (Z.of_nat i mod 128)) (seq 0 n) /\
    (n = 200%nat ->
     map packetNumber msgs =
       map (fun i => Some (Z.of_nat i)) (seq 0 128 ++ seq 0 72)).
Proof.
  intros Hd Hn.
  destruct (NextMessages_packets samples (DumpHeader.BitDepth h) n 0
              (fst (NewSendOp samples h)) Hd (NewSendOp_session samples h Hd))
    as (s' & packets & Hrun & _ & Hnums & _).
  { right. exact Hn. }
  exists s', (map packet_message packets). split; [exact Hrun|].
  assert (Hmap : map packetNumber (map packet_message packets) =
                 map (fun i => Some (Z.of_nat i mod 128)) (seq 0 n)).
  { rewrite map_map. cbn [packetNumber packet_message].
    rewrite <- (map_map DataPacket.PacketNumber Some), Hnums, map_map. reflexivity. }
  split; [exact Hmap|].
  intros ->. rewrite Hmap. reflexivity.
Qed.

Lemma NextMessage_packet_numbers_witness :
  8 <= DumpHeader.BitDepth (DumpHeader.mk 0 0 8 0 0 0 0 0) <= 28 /\
  ((200 - 1) * capacity (DumpHeader.BitDepth (DumpHeader.mk 0 0 8 0 0 0 0 0))
   < length (replicate (200 * 60) 0))%nat /\
  exists (s' : SendOp.t) (msgs : list (option Message)),
    NextMessages 200 (fst (NewSendOp (replicate (200 * 60) 0) (DumpHeader.mk 0 0 8 0 0 0 0 0)))
      = Ret (s', msgs) /\
    map packetNumber msgs = map (fun i => Some (Z.of_nat i mod 128)) (seq 0 200) /\
    (200%nat = 200%nat ->
     map packetNumber msgs =
       map (fun i => Some (Z.of_nat i)) (seq 0 128 ++ seq 0 72)).
Proof.
  assert (H1 : 8 <= DumpHeader.BitDepth (DumpHeader.mk 0 0 8 0 0 0 0 0) <= 28)
    by (simpl; lia).
  assert (H2 : ((200 - 1) * capacity (DumpHeader.BitDepth (DumpHeader.mk 0 0 8 0 0 0 0 0))
                < length (replicate (200 * 60) 0))%nat)
    by (apply Nat.ltb_lt; vm_compute; reflexivity).
  split; [exact H1|]. split; [exact H2|].
  apply (NextMessage_packet_numbers (replicate (200 * 60) 0)
           (DumpHeader.mk 0 0 8 0 0 0 0 0) 200 H1 H2).
Defined.


(** ** float64 rounding and the progress *)

Module F64Facts.
Import F64.
Local Open Scope Q_scope.

Lemma two_pow_pos (k : Z) : 0 < 2 ^ k.
Proof. apply Qpower_0_lt. reflexivity. Qed.

Lemma two_pow_add (a b : Z) : 2 ^ (a + b) == 2 ^ a * 2 ^ b.
Proof. apply Qpower_plus. discriminate. Qed.

Lemma two_pow_le (a b : Z) : (a <= b)%Z -> 2 ^ a <= 2 ^ b.
Proof. intros H. apply Qpower_le_compat_l; [assumption|discriminate]. Qed.

Lemma two_pow_Z (a : Z) : (0 <= a)%Z -> inject_Z (2 ^ a) == 2 ^ a.
Proof. intros H. rewrite Zpower_Qpower by assumption. reflexivity. Qed.

Lemma Qnum_pos (x : Q) : 0 < x -> (0 < Qnum x)%Z.
Proof. destruct x as [n d]. unfold Qlt. simpl. lia. Qed.

Lemma Q_num_den (x : Q) : x * inject_Z (Zpos (Qden x)) == inject_Z (Qnum x).
Proof. destruct x as [n d]. unfold Qeq. simpl. lia. Qed.

Lemma ex_spec (x : Q) : 0 < x -> 2 ^ (ex x) <= x /\ x < 2 ^ (ex x + 1).
Proof.
  intros Hx. pose proof (Qnum_pos x Hx) as Hn.
  pose proof (Q_num_den x) as Hxd.
  set (n := Qnum x) in *. set (d := Zpos (Qden x)) in *.
  assert (Hd : (0 < d)%Z) by (unfold d; lia).
  destruct (Z.log2_spec n Hn) as [Hn1 Hn2]. destruct (Z.log2_spec d Hd) as [Hd1 Hd2].
  pose proof (Z.log2_nonneg n) as Hln. pose proof (Z.log2_nonneg d) as Hld.
  rewrite <- Z.add_1_r in Hn2, Hd2.
  rewrite Zle_Qle, two_pow_Z in Hn1, Hd1 by lia.
  rewrite Zlt_Qlt, two_pow_Z in Hn2, Hd2 by lia.
  set (ln := Z.log2 n) in *. set (ld := Z.log2 d) in *.
  assert (Hlo : 2 ^ (ln - ld - 1) <= x).
  { pose proof (two_pow_add (ln - ld - 1) (ld + 1)) as E.
    replace (ln - ld - 1 + (ld + 1))%Z with ln in E by lia.
    pose proof (two_pow_pos (ln - ld - 1)). pose proof (two_pow_pos (ld + 1)).
    nra. }
  assert (Hhi : x < 2 ^ (ln - ld + 1)).
  { pose proof (two_pow_add (ln - ld + 1) ld) as E.
    replace (ln - ld + 1 + ld)%Z with (ln + 1)%Z in E by lia.
    pose proof (two_pow_pos (ln - ld + 1)). pose proof (two_pow_pos ld).
    nra. }
  unfold ex. fold n. fold d. fold ln. fold ld.
  destruct (Qle_bool (2 ^ (ln - ld)) x) eqn:E.
  - apply Qle_bool_iff in E. split; assumption.
  - assert (~ 2 ^ (ln - ld) <= x) as Hnle
      by (intros H; apply Qle_bool_iff in H; congruence).
    apply Qnot_le_lt in Hnle. split; [assumption|].
    replace (ln - ld - 1 + 1)%Z with (ln - ld)%Z by lia. assumption.
Qed.

Lemma ex_mono (x y : Q) : 0 < x -> x <= y -> (ex x <= ex y)%Z.
Proof.
  intros Hx Hxy. assert (Hy : 0 < y) by lra.
  destruct (ex_spec x Hx) as [Hx1 _]. destruct (ex_spec y Hy) as [_ Hy2].
  assert (H : 2 ^ (ex x) < 2 ^ (ex y + 1)) by lra.
  apply Qpower_lt_compat_l_inv in H; [lia|reflexivity].
Qed.

Lemma rne_floor (x : Q) : (Qfloor x <= rne x <= Qfloor x + 1)%Z.
Proof.
  unfold rne. destruct (Qcompare _ _); [destruct (Z.even _)| |]; lia.
Qed.

Lemma rne_ge (x : Q) (a : Z) : inject_Z a <= x -> (a <= rne x)%Z.
Proof.
  intros H. apply Qfloor_resp_le in H. rewrite Qfloor_Z in H.
  pose proof (rne_floor x). lia.
Qed.

Lemma rne_le (x : Q) (b : Z) : x <= inject_Z b -> (rne x <= b)%Z.
Proof.
  intros H. pose proof (Qfloor_resp_le _ _ H) as Hf. rewrite Qfloor_Z in Hf.
  pose proof (rne_floor x) as Hr.
  destruct (Z.eq_dec (Qfloor x) b) as [E|E]; [|lia].
  unfold rne. pose proof (Qfloor_le x) as Hfl. rewrite E in *.
  destruct (Qcompare_spec (x - inject_Z b) (1 # 2)) as [H1|H1|H1]; [lra|lia|lra].
Qed.

Lemma rne_mono (x y : Q) : x <= y -> (rne x <= rne y)%Z.
Proof.
  intros H. pose proof (Qfloor_resp_le _ _ H) as Hf.
  pose proof (rne_floor x) as Hx. pose proof (rne_floor y) as Hy.
  destruct (Z.eq_dec (Qfloor x) (Qfloor y)) as [E|E]; [|lia].
  unfold rne. rewrite <- E.
  destruct (Qcompare_spec (x - inject_Z (Qfloor x)) (1 # 2)) as [H1|H1|H1];
    destruct (Qcompare_spec (y - inject_Z (Qfloor x)) (1 # 2)) as [H2|H2|H2];
    try destruct (Z.even (Qfloor x)); try lia; lra.
Qed.

Lemma rnd_pos_eq (x : Q) :
  0 < x -> rnd x = inject_Z (rne (x / 2 ^ scale x)) * 2 ^ scale x.
Proof.
  intros Hx. unfold rnd.
  destruct (Qle_bool x 0) eqn:E; [apply Qle_bool_iff in E; lra|reflexivity].
Qed.

Lemma rnd_nonpos (x : Q) : x <= 0 -> rnd x = 0.
Proof. intros Hx. unfold rnd. apply Qle_bool_iff in Hx. rewrite Hx. reflexivity. Qed.

Lemma div_pow_le (x y : Q) (s : Z) : x <= y -> x / 2 ^ s <= y / 2 ^ s.
Proof.
  intros H. unfold Qdiv. apply Qmult_le_compat_r; [assumption|].
  apply Qinv_le_0_compat. apply Qlt_le_weak, two_pow_pos.
Qed.

Lemma rnd_nonneg (x : Q) : 0 <= rnd x.
Proof.
  destruct (Qlt_le_dec 0 x) as [Hx|Hx]; [|rewrite rnd_nonpos by assumption; lra].
  rewrite rnd_pos_eq by assumption.
  apply Qmult_le_0_compat; [|apply Qlt_le_weak, two_pow_pos].
  change 0 with (inject_Z 0). rewrite <- Zle_Qle. apply rne_ge.
  apply Qle_shift_div_l; [apply two_pow_pos|]. change (inject_Z 0) with 0. lra.
Qed.

Lemma scaled_upper (x : Q) : 0 < x -> x / 2 ^ scale x <= inject_Z (2 ^ 53).
Proof.
  intros Hx. destruct (ex_spec x Hx) as [_ H].
  apply Qle_shift_div_r; [apply two_pow_pos|].
  rewrite two_pow_Z by lia. rewrite <- two_pow_add.
  assert (2 ^ (ex x + 1) <= 2 ^ (53 + scale x)) by (apply two_pow_le; unfold scale; lia).
  lra.
Qed.

Lemma scaled_lower (x : Q) :
  0 < x -> (-1074 < scale x)%Z -> inject_Z (2 ^ 52) <= x / 2 ^ scale x.
Proof.
  intros Hx Hs. destruct (ex_spec x Hx) as [H _].
  apply Qle_shift_div_l; [apply two_pow_pos|].
  rewrite two_pow_Z by lia. rewrite <- two_pow_add.
  replace (52 + scale x)%Z with (ex x) by (unfold scale in *; lia). assumption.
Qed.

Lemma rnd_mono (x y : Q) : x <= y -> rnd x <= rnd y.
Proof.
  intros Hxy.
  destruct (Qlt_le_dec 0 x) as [Hx|Hx];
    [|rewrite (rnd_nonpos x) by assumption; apply rnd_nonneg].
  assert (Hy : 0 < y) by lra.
  rewrite !rnd_pos_eq by assumption.
  assert (Hs : (scale x <= scale y)%Z)
    by (pose proof (ex_mono x y Hx Hxy); unfold scale; lia).
  destruct (Z.eq_dec (scale x) (scale y)) as [E|E].
  - rewrite E. apply Qmult_le_compat_r; [|apply Qlt_le_weak, two_pow_pos].
    rewrite <- Zle_Qle. apply rne_mono. apply div_pow_le. assumption.
  - pose proof (rne_le _ _ (scaled_upper x Hx)) as Hu.
    assert (Hsy : (-1074 < scale y)%Z) by (unfold scale in *; lia).
    pose proof (rne_ge _ _ (scaled_lower y Hy Hsy)) as Hl.
    rewrite Zle_Qle in Hu, Hl. rewrite two_pow_Z in Hu, Hl by lia.
    pose proof (two_pow_pos (scale x)). pose proof (two_pow_pos (scale y)).
    assert (H53 : 2 ^ 53 * 2 ^ scale x <= 2 ^ 52 * 2 ^ scale y).
    { rewrite <- !two_pow_add. apply two_pow_le. lia. }
    assert (0 < 2 ^ 52) by apply two_pow_pos.
    assert (0 < 2 ^ 53) by apply two_pow_pos.
    nra.
Qed.

Lemma rnd_proper (x y : Q) : x == y -> rnd x == rnd y.
Proof.
  intros H. apply Qle_antisym; apply rnd_mono; rewrite H; apply Qle_refl.
Qed.

(** On these counts the model and the binary64 arithmetic of the machine
    give the same number. *)
Lemma percent_matches_machine :
  SF2Q (Prim2SF (machine_percent 690 1200)) == percent 690 1200 /\
  SF2Q (Prim2SF (machine_percent 240 241)) == percent 240 241 /\
  SF2Q (Prim2SF (machine_percent 1 3)) == percent 1 3 /\
  SF2Q (Prim2SF (machine_percent 599 600)) == percent 599 600.
Proof. repeat split; vm_compute; reflexivity. Qed.

Lemma rnd_1 : rnd 1 == 1.
Proof. vm_compute. reflexivity. Qed.

Lemma rnd_100 : rnd (inject_Z 100) == inject_Z 100.
Proof. vm_compute. reflexivity. Qed.

Lemma of_int_mono (a b : Z) : (a <= b)%Z -> of_int a <= of_int b.
Proof. intros H. apply rnd_mono. rewrite <- Zle_Qle. assumption. Qed.

Lemma of_int_0 : of_int 0 = 0.
Proof. reflexivity. Qed.

Lemma of_int_pos (a : Z) : (1 <= a)%Z -> 1 <= of_int a.
Proof. intros H. rewrite <- rnd_1. apply (of_int_mono 1 a H). Qed.

Lemma div_mono (x1 x2 y : Q) : 0 <= y -> x1 <= x2 -> div x1 y <= div x2 y.
Proof.
  intros Hy H. apply rnd_mono. unfold Qdiv.
  apply Qmult_le_compat_r; [assumption|]. apply Qinv_le_0_compat. assumption.
Qed.

Lemma mul_mono (x1 x2 y : Q) : 0 <= y -> x1 <= x2 -> mul x1 y <= mul x2 y.
Proof.
  intros Hy H. apply rnd_mono. apply Qmult_le_compat_r; assumption.
Qed.

Lemma div_0 (y : Q) : div 0 y = 0.
Proof. apply rnd_nonpos. unfold Qdiv. rewrite Qmult_0_l. apply Qle_refl. Qed.

Lemma mul_0 (y : Q) : mul 0 y = 0.
Proof. apply rnd_nonpos. rewrite Qmult_0_l. apply Qle_refl. Qed.

Lemma div_self (x : Q) : 0 < x -> div x x == 1.
Proof.
  intros Hx. unfold div.
  transitivity (rnd 1); [apply rnd_proper|apply rnd_1].
  field. lra.
Qed.

Lemma percent_mono (d1 d2 total : Z) :
  (d1 <= d2)%Z -> percent d1 total <= percent d2 total.
Proof.
  intros H. unfold percent. apply mul_mono; [discriminate|].
  apply div_mono; [apply rnd_nonneg|]. apply of_int_mono. assumption.
Qed.

Lemma percent_0 (total : Z) : percent 0 total = 0.
Proof. unfold percent. rewrite of_int_0, div_0, mul_0. reflexivity. Qed.

Lemma percent_full (total : Z) : (1 <= total)%Z -> percent total total == inject_Z 100.
Proof.
  intros H. unfold percent, mul.
  transitivity (rnd (inject_Z 100)); [apply rnd_proper|apply rnd_100].
  rewrite div_self; [ring|]. pose proof (of_int_pos total H). lra.
Qed.

Lemma rounded_mono (d1 d2 total : Z) :
  (d1 <= d2)%Z -> (rounded d1 total <= rounded d2 total)%Z.
Proof.
  intros H. unfold rounded. apply Qfloor_resp_le.
  pose proof (percent_mono d1 d2 total H). lra.
Qed.

Lemma rounded_0 (total : Z) : rounded 0 total = 0%Z.
Proof. unfold rounded. rewrite percent_0. reflexivity. Qed.

Lemma rounded_full (total : Z) : (1 <= total)%Z -> rounded total total = 100%Z.
Proof.
  intros H. unfold rounded.
  rewrite (Qfloor_comp _ (inject_Z 100 + (1 # 2))); [reflexivity|].
  rewrite (percent_full total H). reflexivity.
Qed.

Lemma rounded_range (done total : Z) :
  (0 <= done <= total)%Z -> (1 <= total)%Z -> (0 <= rounded done total <= 100)%Z.
Proof.
  intros Hd Ht. rewrite <- (rounded_0 total) at 1. rewrite <- (rounded_full total Ht).
  split; apply rounded_mono; lia.
Qed.

End F64Facts.



Import F64Facts.

Lemma Progress_rounded (s : SendOp.t) :
  Progress s =
    int (F64.rounded (int (SendOp.length s - len (SendOp.samples s))) (SendOp.length s)).
Proof.
  unfold Progress, F64.to_int, F64.Round. rewrite Qfloor_Z. reflexivity.
Qed.

Lemma session_Progress (orig : list Z) (d : Z) (k : nat) (s : SendOp.t) :
  session_at orig d k s -> orig <> [] -> len orig < 2 ^ 63 ->
  Progress s = F64.rounded (len orig - len (SendOp.samples s)) (len orig) /\
  0 <= len orig - len (SendOp.samples s) <= len orig /\
  0 <= Progress s <= 100.
Proof.
  intros (Hlen & _ & _ & Hsm & _) Hne Hmax.
  assert (Hpos : 1 <= len orig) by (unfold len; destruct orig; [congruence|simpl; lia]).
  assert (Hdone : 0 <= len orig - len (SendOp.samples s) <= len orig).
  { rewrite Hsm. unfold len. rewrite length_drop. lia. }
  change (2 ^ 63) with 9223372036854775808 in Hmax.
  rewrite Progress_rounded, Hlen.
  rewrite (int_small (len orig - _)) by (change (2 ^ 63) with 9223372036854775808; lia).
  pose proof (rounded_range _ _ Hdone Hpos) as Hr.
  rewrite int_small by (change (2 ^ 63) with 9223372036854775808; lia).
  split; [reflexivity|]. split; assumption.
Qed.

Lemma NextMessage_any (orig : list Z) (d : Z) (k : nat) (s : SendOp.t) :
  8 <= d <= 28 -> session_at orig d k s ->
  exists (s' : SendOp.t) (m : option Message) (k' : nat),
    NextMessage s = Ret (s', m) /\ session_at orig d k' s' /\
    len (SendOp.samples s') <= len (SendOp.samples s).
Proof.
  intros Hd Hs.
  destruct (Nat.lt_ge_cases (k * capacity d) (length orig)) as [Hk|Hk].
  - destruct (NextMessage_packet orig d k s Hd Hs Hk) as (s' & p & Hcall & _ & _ & Hs').
    exists s', (Some (MDataPacket p)), (S k). split; [assumption|]. split; [assumption|].
    destruct Hs as (_ & _ & _ & Hsm & _). destruct Hs' as (_ & _ & _ & Hsm' & _).
    rewrite Hsm, Hsm'. unfold len. rewrite !length_drop. lia.
  - exists s, None, k. split; [apply (NextMessage_done orig d k); assumption|].
    split; [assumption|lia].
Qed.

Lemma NextMessages_any (orig : list Z) (d : Z) (n k : nat) (s : SendOp.t) :
  8 <= d <= 28 -> session_at orig d k s ->
  exists (s' : SendOp.t) (msgs : list (option Message)) (k' : nat),
    NextMessages n s = Ret (s', msgs) /\ session_at orig d k' s'.
Proof.
  intros Hd. revert k s. induction n as [|n IH]; intros k s Hs.
  - exists s, [], k. split; [reflexivity|assumption].
  - destruct (NextMessage_any orig d k s Hd Hs) as (s1 & m & k1 & Hcall & Hs1 & _).
    destruct (IH k1 s1 Hs1) as (s' & msgs & k' & Hrun & Hs').
    exists s', (m :: msgs), k'. cbn [NextMessages].
    rewrite Hcall. cbn [bind fst snd]. rewrite Hrun. cbn [bind fst snd].
    split; [reflexivity|assumption].
Qed.

(** Claim C3 as stated fails: with a waveform of 241 samples at 8 bits,
    after four packets 240 samples are sent and one is left, so [Done] is
    false, and [Progress] is already 100. *)
Lemma Progress_100_before_Done :
  exists (s : SendOp.t) (msgs : list (option Message)),
    NextMessages 4 (fst (NewSendOp (replicate 241 0) (DumpHeader.mk 0 0 8 0 0 0 0 0)))
      = Ret (s, msgs) /\
    Progress s = 100 /\ Done s = false.
Proof.
  eexists _, _. split; [vm_compute; reflexivity|]. split; vm_compute; reflexivity.
Qed.

(** The float64 value is not always the exact quotient: 690 samples out of
    1200 (23 packets at 24 bits) are 57.5 percent, which rounds to 58, while
    the float64 product is below 57.5 and [Progress] is 57. *)
Lemma Progress_float_rounding :
  exists (s : SendOp.t) (msgs : list (option Message)),
    NextMessages 23 (fst (NewSendOp (replicate 1200 0) (DumpHeader.mk 0 0 24 0 0 0 0 0)))
      = Ret (s, msgs) /\
    len (replicate 1200 0) - len (SendOp.samples s) = 690 /\
    Progress s = 57 /\
    Qfloor (inject_Z 100 * (690 # 1200) + (1 # 2)) = 58.
Proof.
  eexists _, _. split; [vm_compute; reflexivity|].
  repeat split; vm_compute; reflexivity.
Qed.

(** Claim C3, amended.  For a non-empty waveform at a supported bit depth,
    after any number of [NextMessage] calls: [Progress] is the float64
    value [(done / total) * 100] rounded by [math.Round] ([F64.rounded]);
    it is 0 on the new session, lies between 0 and 100, does not decrease
    with the next call, and is 100 whenever [Done] is true. *)
Theorem Progress_monotone (samples : list Z) (h : DumpHeader.t) (n : nat) :
  samples <> [] -> 8 <= DumpHeader.BitDepth h <= 28 -> len samples < 2 ^ 63 ->
  exists (s1 s2 : SendOp.t) (msgs : list (option Message)) (msg : option Message),
    NextMessages n (fst (NewSendOp samples h)) = Ret (s1, msgs) /\
    NextMessage s1 = Ret (s2, msg) /\
    Progress (fst (NewSendOp samples h)) = 0 /\
    Progress s1 = F64.rounded (len samples - len (SendOp.samples s1)) (len samples) /\
    Progress s1 <= Progress s2 /\
    0 <= Progress s1 <= 100 /\
    (Done s1 = true -> Progress s1 = 100).
Proof.
  intros Hne Hd Hmax. set (d := DumpHeader.BitDepth h) in *.
  pose proof (NewSendOp_session samples h Hd) as Hs0. fold d in Hs0.
  destruct (NextMessages_any samples d n 0 _ Hd Hs0) as (s1 & msgs & k1 & Hrun & Hs1).
  destruct (NextMessage_any samples d k1 s1 Hd Hs1) as (s2 & msg & k2 & Hcall & Hs2 & Hle).
  exists s1, s2, msgs, msg.
  destruct (session_Progress samples d 0 _ Hs0 Hne Hmax) as (P0 & _ & _).
  destruct (session_Progress samples d k1 s1 Hs1 Hne Hmax) as (P1 & D1 & R1).
  destruct (session_Progress samples d k2 s2 Hs2 Hne Hmax) as (P2 & D2 & R2).
  assert (Hpos : 1 <= len samples)
    by (unfold len; destruct samples; [congruence|simpl; lia]).
  repeat split; try assumption; try lia.
  - rewrite P0. cbn [NewSendOp fst SendOp.samples]. rewrite Z.sub_diag. apply rounded_0.
  - rewrite P1, P2. apply rounded_mono. lia.
  - intros HD. apply Done_iff in HD. rewrite P1, HD. change (len []) with 0.
    rewrite Z.sub_0_r. apply rounded_full. assumption.
Qed.

Lemma Progress_monotone_witness :
  replicate 241 0 <> [] /\
  8 <= DumpHeader.BitDepth (DumpHeader.mk 0 0 8 0 0 0 0 0) <= 28 /\
  len (replicate 241 0) < 2 ^ 63 /\
  exists (s1 s2 : SendOp.t) (msgs : list (option Message)) (msg : option Message),
    NextMessages 4 (fst (NewSendOp (replicate 241 0) (DumpHeader.mk 0 0 8 0 0 0 0 0)))
      = Ret (s1, msgs) /\
    NextMessage s1 = Ret (s2, msg) /\
    Progress (fst (NewSendOp (replicate 241 0) (DumpHeader.mk 0 0 8 0 0 0 0 0))) = 0 /\
    Progress s1 =
      F64.rounded (len (replicate 241 0) - len (SendOp.samples s1)) (len (replicate 241 0)) /\
    Progress s1 <= Progress s2 /\
    0 <= Progress s1 <= 100 /\
    (Done s1 = true -> Progress s1 = 100).
Proof.
  assert (H1 : replicate 241 0 <> []) by (vm_compute; discriminate).
  assert (H2 : 8 <= DumpHeader.BitDepth (DumpHeader.mk 0 0 8 0 0 0 0 0) <= 28)
    by (simpl; lia).
  assert (H3 : len (replicate 241 0) < 2 ^ 63) by (vm_compute; reflexivity).
  split; [exact H1|]. split; [exact H2|]. split; [exact H3|].
  apply (Progress_monotone (replicate 241 0) (DumpHeader.mk 0 0 8 0 0 0 0 0) 4 H1 H2 H3).
Defined.


(** ** Checksum *)

Lemma fold_nth_take (f : Z -> Z -> Z) (l : list Z) (n : nat) (c : Z) :
  (n <= length l)%nat ->
  fold_left (fun c i => f c (nth i l 0)) (seq 0 n) c = fold_left f (take n l) c.
Proof.
  induction n as [|n IH]; intros Hn; [reflexivity|].
  rewrite seq_S, fold_left_app, IH by lia. cbn [fold_left Nat.add].
  destruct (lookup_lt_is_Some_2 l n ltac:(lia)) as [x Hx].
  rewrite (take_S_r l n x Hx), fold_left_app. cbn [fold_left].
  rewrite nth_lookup, Hx. reflexivity.
Qed.

Lemma DataPacket_Encode_eq (p : DataPacket.t) :
  DataPacket_Encode p [] =
    0xF0 :: 0x7E :: Z.land (DataPacket.Channel p) 0x7F :: 0x02 ::
    Z.land (DataPacket.PacketNumber p) 0x7F ::
    DataPacket.Data p ++ [Z.land (DataPacket.Checksum p) 0x7F; 0xF7].
Proof. unfold DataPacket_Encode. cbn [app]. rewrite <- !app_assoc. reflexivity. Qed.

Lemma ComputeChecksum_eq (p : DataPacket.t) :
  length (DataPacket.Data p) = 120%nat ->
  ComputeChecksum p =
    Z.land (xor_fold ([0x7E; Z.land (DataPacket.Channel p) 0x7F; 0x02;
                       Z.land (DataPacket.PacketNumber p) 0x7F] ++ DataPacket.Data p))
           0x7F.
Proof.
  intros HD. unfold ComputeChecksum.
  assert (Hlen : length (DataPacket_Encode p []) = 127%nat).
  { rewrite DataPacket_Encode_eq. cbn [length]. rewrite length_app, HD. reflexivity. }
  rewrite copy_full by (rewrite length_replicate, Hlen; reflexivity).
  rewrite length_take, length_drop, Hlen.
  change (Nat.min (Z.to_nat (dataPacketSize - 1 - 1)) (127 - 1)) with 125%nat.
  rewrite fold_nth_take by lia.
  rewrite DataPacket_Encode_eq. cbn [nth take fold_left].
  change (Z.lxor 240 240) with 0. unfold xor_fold. cbn [app fold_left].
  replace 120%nat with (length (DataPacket.Data p)) by assumption.
  rewrite take_app_length. reflexivity.
Qed.

(** Claim C1 as stated fails: on the zero packet the checksum is 0x7C,
    while the XOR of the first 125 encoded bytes, from 0xF0 through the
    last payload byte, masked to 7 bits, is 0x0C. *)
Lemma ComputeChecksum_from_F0_counterexample :
  ComputeChecksum DataPacket.zero = 0x7C /\
  Z.land (xor_fold (take 125 (DataPacket_Encode DataPacket.zero []))) 0x7F = 0x0C /\
  ComputeChecksum DataPacket.zero <>
    Z.land (xor_fold (take 125 (DataPacket_Encode DataPacket.zero []))) 0x7F.
Proof. split; [|split]; vm_compute; congruence. Qed.

(** Claim C1, amended.  For every data packet, [ComputeChecksum] is the
    XOR-fold, masked to 7 bits, of the 124 encoded bytes after the leading
    0xF0: 0x7E, the channel, the sub-ID 0x02, the packet number and the 120
    payload bytes; the leading 0xF0, the checksum byte and the trailing
    0xF7 are not part of it. *)
Theorem ComputeChecksum_xor_fold (p : DataPacket.t) :
  length (DataPacket.Data p) = 120%nat ->
  ComputeChecksum p =
    Z.land (xor_fold (take 124 (drop 1 (DataPacket_Encode p [])))) 0x7F /\
  take 124 (drop 1 (DataPacket_Encode p [])) =
    [0x7E; Z.land (DataPacket.Channel p) 0x7F; 0x02;
     Z.land (DataPacket.PacketNumber p) 0x7F] ++ DataPacket.Data p.
Proof.
  intros HD.
  assert (E : take 124 (drop 1 (DataPacket_Encode p [])) =
              [0x7E; Z.land (DataPacket.Channel p) 0x7F; 0x02;
               Z.land (DataPacket.PacketNumber p) 0x7F] ++ DataPacket.Data p).
  { rewrite DataPacket_Encode_eq. cbn [drop take app].
    replace 120%nat with (length (DataPacket.Data p)) by assumption.
    rewrite take_app_length. reflexivity. }
  split; [|exact E]. rewrite E. apply ComputeChecksum_eq. assumption.
Qed.

Lemma ComputeChecksum_xor_fold_witness :
  length (DataPacket.Data DataPacket.zero) = 120%nat /\
  ComputeChecksum DataPacket.zero =
    Z.land (xor_fold (take 124 (drop 1 (DataPacket_Encode DataPacket.zero [])))) 0x7F /\
  take 124 (drop 1 (DataPacket_Encode DataPacket.zero [])) =
    [0x7E; Z.land (DataPacket.Channel DataPacket.zero) 0x7F; 0x02;
     Z.land (DataPacket.PacketNumber DataPacket.zero) 0x7F]
    ++ DataPacket.Data DataPacket.zero.
Proof.
  split; [reflexivity|].
  apply (ComputeChecksum_xor_fold DataPacket.zero). reflexivity.
Defined.

(** ** Bit depth guard *)

(** Claim C2 as stated fails: at the bit depths 7 and 29 both functions
    panic, they do not return a failure. *)
Lemma SetSamples_depth_7_panics :
  SetSamples DataPacket.zero [] 7 = Panic "bit depth < 8 is not supported" /\
  GetSamples DataPacket.zero [] 7 = Panic "bit depth < 8 is not supported" /\
  SetSamples DataPacket.zero [] 29 = Panic "bit depth > 28 is not supported" /\
  GetSamples DataPacket.zero [] 29 = Panic "bit depth > 28 is not supported".
Proof. repeat split. Qed.

(** Claim C2, amended.  For every bit depth below 8 or above 28,
    [SetSamples] and [GetSamples] panic, with the message that names the
    bound; they return nothing. *)
Theorem unsupported_depth_panics (msg : DataPacket.t) (s : list Z) (d : Z) :
  d < 8 \/ 28 < d ->
  panics (SetSamples msg s d) /\ panics (GetSamples msg s d) /\
  SetSamples msg s d =
    Panic (if d <? 8 then "bit depth < 8 is not supported"
           else "bit depth > 28 is not supported") /\
  GetSamples msg s d =
    Panic (if d <? 8 then "bit depth < 8 is not supported"
           else "bit depth > 28 is not supported").
Proof.
  intros Hd. unfold SetSamples, GetSamples.
  destruct (Z.ltb_spec d 8); [repeat split|].
  destruct (Z.leb_spec d 14); [lia|]. destruct (Z.leb_spec d 21); [lia|].
  destruct (Z.leb_spec d 28); [lia|]. repeat split.
Qed.

Lemma unsupported_depth_panics_witness :
  (7 < 8 \/ 28 < 7) /\
  panics (SetSamples DataPacket.zero [] 7) /\ panics (GetSamples DataPacket.zero [] 7) /\
  SetSamples DataPacket.zero [] 7 =
    Panic (if 7 <? 8 then "bit depth < 8 is not supported"
           else "bit depth > 28 is not supported") /\
  GetSamples DataPacket.zero [] 7 =
    Panic (if 7 <? 8 then "bit depth < 8 is not supported"
           else "bit depth > 28 is not supported").
Proof.
  assert (H : 7 < 8 \/ 28 < 7) by (left; lia).
  split; [exact H|]. apply (unsupported_depth_panics DataPacket.zero [] 7 H).
Defined.

(** ** The data loop *)

Lemma Decode_control_type (sysex : list Z) (c : ControlPacket.t) :
  Decode sysex = Ret (Ok (MControlPacket c)) -> 0x7C <= ControlPacket.Type_ c <= 0x7F.
Proof.
  rewrite Decode_frame. destruct (framed sysex); [|discriminate]. cbn [negb].
  destruct (len sysex <? 4); [discriminate|]. cbv zeta.
  unfold decodeDumpHeader, decodeDataPacket, decodeDumpRequest, decodeControlPacket.
  destruct (Z.eqb_spec (nth 3 sysex 0) 1).
  { destruct (negb _); [discriminate|].
    repeat (match goal with |- context [index ?s ?i] => destruct (index s i) end;
            cbn [bind]; [|discriminate]).
    destruct (_ || _); discriminate. }
  destruct (Z.eqb_spec (nth 3 sysex 0) 2).
  { destruct (negb _); [discriminate|].
    repeat (match goal with |- context [index ?s ?i] => destruct (index s i) end;
            cbn [bind]; [|discriminate]).
    destruct (slice _ _ _); discriminate. }
  destruct (Z.eqb_spec (nth 3 sysex 0) 3).
  { destruct (negb _); [discriminate|].
    repeat (match goal with |- context [index ?s ?i] => destruct (index s i) end;
            cbn [bind]; [|discriminate]).
    discriminate. }
  destruct (_ || _) eqn:E; [|discriminate].
  destruct (Z.eqb_spec (len sysex) controlPacketSize) as [Hl|Hl]; [|discriminate].
  cbn [negb]. unfold controlPacketSize in Hl.
  rewrite !index_ok by lia. cbn [bind]. intros [= <-]. cbn.
  change (Z.to_nat 3) with 3%nat.
  rewrite !orb_true_iff, !Z.eqb_eq in E. lia.
Qed.

Lemma report_keeps (t : SendOp.t) (p : Z) (w : bool) :
  transfer (report t p w) = t /\ waiting (report t p w) = w.
Proof. unfold report. destruct (_ || _); split; reflexivity. Qed.

Lemma iteration_waiting (cfg : sendConfig.t) (st : loop_state) (ev : option Message) :
  waiting st = true -> from_wire ev -> ~ resumes cfg ev ->
  exists st' : loop_state,
    iteration cfg st ev = Next st' [] /\
    waiting st' = true /\ transfer st' = transfer st.
Proof.
  intros Hw Hev Hres. unfold iteration. rewrite Hw. cbn [negb].
  destruct ev as [[m|m|m|c]|];
    try (eexists; split; [reflexivity|];
         destruct (report_keeps (transfer st) (progress st) true) as [-> ->];
         split; reflexivity).
  destruct (Z.eqb_spec (ControlPacket.Channel c) (byte (sendConfig.Channel cfg))) as [Hc|Hc];
    cbn [negb].
  2:{ eexists. split; [reflexivity|]. split; reflexivity. }
  destruct Hev as [sysex Hdec]. apply Decode_control_type in Hdec.
  unfold resumes, control_on in Hres. unfold Ack, Nak, Cancel, Wait in *.
  destruct (Z.eqb_spec (ControlPacket.Type_ c) 127); [tauto|].
  destruct (Z.eqb_spec (ControlPacket.Type_ c) 126); [tauto|].
  destruct (Z.eqb_spec (ControlPacket.Type_ c) 125); [tauto|].
  destruct (Z.eqb_spec (ControlPacket.Type_ c) 124); [|lia].
  eexists. split; [reflexivity|].
  destruct (report_keeps (transfer st) (progress st) true) as [-> ->].
  split; reflexivity.
Qed.

Lemma loop_waiting (cfg : sendConfig.t) (evs : list (option Message)) (st : loop_state) :
  waiting st = true -> Forall from_wire evs -> Forall (fun ev => ~ resumes cfg ev) evs ->
  exists st' : loop_state,
    (transferData_loop cfg evs st = ([], Finished st') \/
     transferData_loop cfg evs st = ([], Receiving st')) /\
    waiting st' = true /\ transfer st' = transfer st.
Proof.
  revert st. induction evs as [|ev evs IH]; intros st Hw Hwire Hres.
  - exists st. cbn. destruct (Done (transfer st)); auto.
  - cbn [transferData_loop]. destruct (Done (transfer st)) eqn:HD.
    { exists st. auto. }
    inversion Hwire as [|? ? Hev Hwire']; subst.
    inversion Hres as [|? ? Hr Hres']; subst.
    destruct (iteration_waiting cfg st ev Hw Hev Hr) as (st1 & Hit & Hw1 & Ht1).
    rewrite Hit.
    destruct (IH st1 Hw1 Hwire' Hres') as (st' & Hrun & Hw' & Ht').
    exists st'. split; [|split; [assumption|congruence]].
    destruct Hrun as [-> | ->]; cbn; auto.
Qed.

(** Claim C9.  In the data loop, once a [Wait] on the channel of the
    transfer has been received in a pass that goes on, the loop is waiting,
    and over any further events received that are not an [Ack], [Nak] or
    [Cancel] on that channel (timeouts, messages on other channels, other
    messages, further [Wait]s) it sends nothing, keeps the session as it is
    and is still waiting. *)
Theorem Wait_holds_the_transfer (cfg : sendConfig.t) (st st1 : loop_state)
    (ev : option Message) (sent : list (list Z)) (evs : list (option Message)) :
  control_on cfg Wait ev -> iteration cfg st ev = Next st1 sent ->
  Forall from_wire evs -> Forall (fun e => ~ resumes cfg e) evs ->
  waiting st1 = true /\
  exists st' : loop_state,
    (transferData_loop cfg evs st1 = ([], Finished st') \/
     transferData_loop cfg evs st1 = ([], Receiving st')) /\
    waiting st' = true /\ transfer st' = transfer st1.
Proof.
  intros Hev Hit Hwire Hres.
  assert (Hw1 : waiting st1 = true).
  { unfold iteration in Hit. destruct (if negb (waiting st) then _ else _) as [[t s]|];
      [|discriminate].
    destruct ev as [[m|m|m|c]|]; try contradiction.
    destruct Hev as [Hc Hty]. rewrite Hc, Z.eqb_refl, Hty in Hit. cbn in Hit.
    injection Hit as <- _. apply report_keeps. }
  split; [assumption|]. apply loop_waiting; assumption.
Qed.

Lemma Wait_holds_the_transfer_witness :
  exists (st1 : loop_state) (sent : list (list Z)),
    control_on (sendConfig.mk 0 0) Wait (Some (MControlPacket (ControlPacket.mk Wait 0 0))) /\
    iteration (sendConfig.mk 0 0)
      (mk_loop_state (fst (NewSendOp (replicate 100 0) (DumpHeader.mk 0 0 8 0 0 0 0 0)))
         0 false)
      (Some (MControlPacket (ControlPacket.mk Wait 0 0))) = Next st1 sent /\
    Forall from_wire
      [None; Some (MControlPacket (ControlPacket.mk Ack 5 0));
       Some (MControlPacket (ControlPacket.mk Wait 0 0))] /\
    Forall (fun e => ~ resumes (sendConfig.mk 0 0) e)
      [None; Some (MControlPacket (ControlPacket.mk Ack 5 0));
       Some (MControlPacket (ControlPacket.mk Wait 0 0))] /\
    waiting st1 = true /\
    exists st' : loop_state,
      (transferData_loop (sendConfig.mk 0 0)
         [None; Some (MControlPacket (ControlPacket.mk Ack 5 0));
          Some (MControlPacket (ControlPacket.mk Wait 0 0))] st1 = ([], Finished st') \/
       transferData_loop (sendConfig.mk 0 0)
         [None; Some (MControlPacket (ControlPacket.mk Ack 5 0));
          Some (MControlPacket (ControlPacket.mk Wait 0 0))] st1 = ([], Receiving st')) /\
      waiting st' = true /\ transfer st' = transfer st1.
Proof.
  assert (H1 : control_on (sendConfig.mk 0 0) Wait
                 (Some (MControlPacket (ControlPacket.mk Wait 0 0))))
    by (split; reflexivity).
  assert (H3 : Forall from_wire
                 [None; Some (MControlPacket (ControlPacket.mk Ack 5 0));
                  Some (MControlPacket (ControlPacket.mk Wait 0 0))]).
  { constructor; [exact I|]. constructor.
    { exists (Encode (MControlPacket (ControlPacket.mk Ack 5 0)) []). reflexivity. }
    constructor; [|constructor].
    exists (Encode (MControlPacket (ControlPacket.mk Wait 0 0)) []). reflexivity. }
  assert (H4 : Forall (fun e => ~ resumes (sendConfig.mk 0 0) e)
                 [None; Some (MControlPacket (ControlPacket.mk Ack 5 0));
                  Some (MControlPacket (ControlPacket.mk Wait 0 0))]).
  { repeat constructor; unfold resumes, control_on; vm_compute;
      intuition discriminate. }
  eexists _, _. split; [exact H1|].
  split; [vm_compute; reflexivity|]. split; [exact H3|]. split; [exact H4|].
  eapply (Wait_holds_the_transfer (sendConfig.mk 0 0)
            (mk_loop_state
               (fst (NewSendOp (replicate 100 0) (DumpHeader.mk 0 0 8 0 0 0 0 0))) 0 false)
            _ _ _ _ H1);
    [vm_compute; reflexivity|exact H3|exact H4].
Defined.

(* ===================================================================== *)
(** * Further properties of the code                                    *)
(* ===================================================================== *)

(** ** Encode: buffers, framing and the bits that are read *)

Lemma Encode_app (m : Message) (b : list Z) : Encode m b = b ++ Encode m [].
Proof.
  destruct m as [h|p|r|c]; simpl;
    unfold DumpHeader_Encode, DataPacket_Encode, DumpRequest_Encode, ControlPacket_Encode,
      append14bit, append20bit; cbn [app]; rewrite <- ?app_assoc; reflexivity.
Qed.

Lemma length_Encode (m : Message) : length (Encode m []) = wire_size m.
Proof.
  destruct m as [h|p|r|c]; cbn [Encode wire_size]; try reflexivity.
  rewrite DataPacket_Encode_eq. cbn [length]. rewrite length_app. simpl. lia.
Qed.

(** Property X1.  [Encode] appends to the buffer it is given and leaves that
    buffer's bytes as they are: the result is the buffer followed by the
    encoding into an empty buffer, and it is longer by 21, 7 + len(Data), 7
    or 6 bytes for a header, a data packet, a request or a control packet. *)
Theorem Encode_appends (m : Message) (b : list Z) :
  Encode m b = b ++ Encode m [] /\
  length (Encode m b) = (length b + wire_size m)%nat.
Proof.
  split; [apply Encode_app|].
  rewrite Encode_app, length_app, length_Encode. reflexivity.
Qed.

Lemma mask14_lo (n : Z) : Z.land (byte (n mod 2 ^ 14)) 0x7F = Z.land (byte n) 0x7F.
Proof.
  unfold byte. change 127 with (Z.ones 7). rewrite <- !Z.land_ones by lia. Z.bitblast.
Qed.

Lemma mask14_hi (n : Z) :
  Z.land (byte (Z.shiftr (n mod 2 ^ 14) 7)) 0x7F = Z.land (byte (Z.shiftr n 7)) 0x7F.
Proof.
  unfold byte. change 127 with (Z.ones 7). rewrite <- !Z.land_ones by lia. Z.bitblast.
Qed.

Lemma mask20_lo (n : Z) : Z.land (byte (n mod 2 ^ 20)) 0x7F = Z.land (byte n) 0x7F.
Proof.
  unfold byte. change 127 with (Z.ones 7). rewrite <- !Z.land_ones by lia. Z.bitblast.
Qed.

Lemma mask20_mid (n : Z) :
  Z.land (byte (Z.shiftr (n mod 2 ^ 20) 7)) 0x7F = Z.land (byte (Z.shiftr n 7)) 0x7F.
Proof.
  unfold byte. change 127 with (Z.ones 7). rewrite <- !Z.land_ones by lia. Z.bitblast.
Qed.

Lemma mask20_hi (n : Z) :
  Z.land (byte (Z.shiftr (n mod 2 ^ 20) 14)) 0x3F = Z.land (byte (Z.shiftr n 14)) 0x3F.
Proof.
  unfold byte. change 63 with (Z.ones 6). rewrite <- !Z.land_ones by lia. Z.bitblast.
Qed.

Lemma append14bit_mod (b : list Z) (n : Z) : append14bit b (n mod 2 ^ 14) = append14bit b n.
Proof. unfold append14bit. rewrite mask14_lo, mask14_hi. reflexivity. Qed.

Lemma append20bit_mod (b : list Z) (n : Z) : append20bit b (n mod 2 ^ 20) = append20bit b n.
Proof. unfold append20bit. rewrite mask20_lo, mask20_mid, mask20_hi. reflexivity. Qed.

Lemma Encode_of_masked (m : Message) (b : list Z) : Encode (masked m) b = Encode m b.
Proof.
  destruct m as [h|p|r|c]; simpl.
  - unfold DumpHeader_Encode. cbn [DumpHeader.Channel DumpHeader.Number DumpHeader.BitDepth
      DumpHeader.Period DumpHeader.Length DumpHeader.LoopStart DumpHeader.LoopEnd
      DumpHeader.LoopType].
    rewrite !land_7F_idem, append14bit_mod, !append20bit_mod. reflexivity.
  - unfold DataPacket_Encode. cbn [DataPacket.Channel DataPacket.PacketNumber DataPacket.Data
      DataPacket.Checksum].
    rewrite !land_7F_idem. reflexivity.
  - unfold DumpRequest_Encode. cbn [DumpRequest.Channel DumpRequest.Number].
    rewrite !land_7F_idem, append14bit_mod. reflexivity.
  - unfold ControlPacket_Encode. cbn [ControlPacket.Channel ControlPacket.Type_
      ControlPacket.PacketNumber].
    rewrite !land_7F_idem, (land_byte_7F (Z.land _ _)), land_7F_idem. reflexivity.
Qed.

Lemma fits_land_7F (x : Z) : fits 7 (Z.land x 0x7F).
Proof. unfold fits. pose proof (land_7F_range x). lia. Qed.

Lemma fits_mod (w x : Z) : 0 <= w -> fits w (x mod 2 ^ w).
Proof. intros Hw. unfold fits. apply Z.mod_pos_bound. lia. Qed.

Lemma masked_within_widths (m : Message) :
  decodable m -> within_widths (masked m) /\ control_type_known (masked m).
Proof.
  destruct m as [h|p|r|c];
    cbn [masked decodable within_widths control_type_known DumpHeader.Channel
         DumpHeader.Number DumpHeader.BitDepth DumpHeader.Period DumpHeader.Length
         DumpHeader.LoopStart DumpHeader.LoopEnd DumpHeader.LoopType DataPacket.Channel
         DataPacket.PacketNumber DataPacket.Data DataPacket.Checksum DumpRequest.Channel
         DumpRequest.Number ControlPacket.Channel ControlPacket.Type_
         ControlPacket.PacketNumber]; intros H.
  - split; [|exact I].
    repeat (split; [first [apply fits_land_7F | apply fits_mod; lia | exact H]|]).
    apply fits_land_7F.
  - split; [|exact I].
    repeat (split; [first [apply fits_land_7F | exact H]|]). apply fits_land_7F.
  - split; [|exact I]. split; [apply fits_land_7F|apply fits_mod; lia].
  - split; [repeat (split; [apply fits_land_7F|]); apply fits_land_7F|].
    pose proof (land_7F_range (byte (ControlPacket.Type_ c))). lia.
Qed.

Lemma Decode_Encode_widths (m : Message) :
  within_widths m -> control_type_known m -> Decode (Encode m []) = Ret (Ok m).
Proof.
  intros Hw Hk. destruct m.
  - apply Decode_Encode_DumpHeader; assumption.
  - apply Decode_Encode_DataPacket; assumption.
  - apply Decode_Encode_DumpRequest; assumption.
  - apply Decode_Encode_ControlPacket; assumption.
Qed.

Lemma Decode_Encode_decodable (m : Message) :
  decodable m -> Decode (Encode m []) = Ret (Ok (masked m)).
Proof.
  intros H. rewrite <- Encode_of_masked.
  destruct (masked_within_widths m H) as [Hw Hk].
  apply Decode_Encode_widths; assumption.
Qed.

(** Property X2.  [Encode] reads only the low 7 bits of a channel, bit
    depth, loop type, packet number, checksum and control type, the low 14
    bits of a waveform number and the low 20 bits of a period, length or
    loop point: a message and its masked form have the same encoding. *)
Theorem Encode_masked (m : Message) (b : list Z) : Encode (masked m) b = Encode m b.
Proof. apply Encode_of_masked. Qed.

(** Property X3.  For any field values, decoding the encoding of a message
    returns the message with every field reduced to the bits that are
    encoded, provided the encoding can be decoded at all: the masked bit
    depth of a header lies in 8..28, a data packet has 120 bytes of data,
    the masked type of a control packet is at least 0x7C. *)
Theorem Decode_Encode_masked (m : Message) :
  decodable m -> Decode (Encode m []) = Ret (Ok (masked m)).
Proof. apply Decode_Encode_decodable. Qed.

Lemma Decode_Encode_masked_witness :
  decodable (MDumpHeader (DumpHeader.mk 0x81 0x12345 0x90 (2 ^ 20 + 7) 5 6 7 0xFF)) /\
  Decode (Encode (MDumpHeader (DumpHeader.mk 0x81 0x12345 0x90 (2 ^ 20 + 7) 5 6 7 0xFF)) []) =
    Ret (Ok (MDumpHeader (DumpHeader.mk 1 0x2345 0x10 7 5 6 7 0x7F))).
Proof.
  assert (H : decodable (MDumpHeader (DumpHeader.mk 0x81 0x12345 0x90 (2 ^ 20 + 7) 5 6 7 0xFF)))
    by (vm_compute; split; discriminate).
  split; [exact H|].
  exact (Decode_Encode_masked _ H).
Defined.

(** ** Encode: framing *)

Lemma interior_frame (x : Z) (l : list Z) (y : Z) : interior (x :: l ++ [y]) = l.
Proof.
  unfold interior. cbn [length]. rewrite length_app. cbn [length].
  replace (S (length l + 1) - 1)%nat with (S (length l)) by lia.
  cbn [take drop]. rewrite drop_0, take_app_length. reflexivity.
Qed.

Lemma seven_bit_land (x : Z) : seven_bit (Z.land x 0x7F).
Proof. apply land_7F_range. Qed.

Lemma seven_bit_land_3F (x : Z) : seven_bit (Z.land x 0x3F).
Proof.
  unfold seven_bit. change 63 with (Z.ones 6). rewrite Z.land_ones by lia.
  pose proof (Z.mod_pos_bound x (2 ^ 6)). lia.
Qed.

Lemma Encode_frame (m : Message) :
  framed (Encode m []) = true /\
  (Forall seven_bit (interior (Encode m [])) <-> payload_seven_bit m).
Proof.
  destruct m as [h|p|r|c]; cbn [Encode payload_seven_bit].
  - unfold DumpHeader_Encode, append14bit, append20bit. cbn [app]. split.
    + match goal with |- framed (_ :: _ :: ?x :: ?l) = true =>
        let l' := eval cbn [removelast] in (removelast l) in
        apply (framed_cons2_snoc x l') end.
    + split; [intros _; exact I|intros _].
      match goal with |- Forall _ (interior (?a :: ?l)) =>
        let l' := eval cbn [removelast] in (removelast l) in
        change (a :: l) with (a :: l' ++ [0xF7]) end.
      rewrite interior_frame.
      repeat (constructor; [first [apply seven_bit_land | apply seven_bit_land_3F
                                  | unfold seven_bit; lia]|]).
      constructor.
  - rewrite DataPacket_Encode_eq. split.
    + pose proof (framed_cons2_snoc (Z.land (DataPacket.Channel p) 127)
        (2 :: Z.land (DataPacket.PacketNumber p) 127 :: DataPacket.Data p
           ++ [Z.land (DataPacket.Checksum p) 127])) as H.
      cbn [app] in H. rewrite <- app_assoc in H. exact H.
    + change (Z.land (DataPacket.Checksum p) 127 :: [247])
        with ([Z.land (DataPacket.Checksum p) 127] ++ [247]).
      rewrite app_assoc.
      change (240 :: 126 :: ?a :: 2 :: ?b :: ?l ++ [247])
        with (240 :: (126 :: a :: 2 :: b :: l) ++ [247]).
      rewrite interior_frame.
      rewrite !Forall_cons_iff, Forall_app, Forall_cons_iff. split.
      * intros (_ & _ & _ & _ & Hd & _). exact Hd.
      * intros Hd. split; [unfold seven_bit; lia|]. split; [apply seven_bit_land|].
        split; [unfold seven_bit; lia|]. split; [apply seven_bit_land|].
        split; [exact Hd|]. split; [apply seven_bit_land|constructor].
  - unfold DumpRequest_Encode, append14bit. cbn [app]. split.
    + match goal with |- framed (_ :: _ :: ?x :: ?l) = true =>
        let l' := eval cbn [removelast] in (removelast l) in
        apply (framed_cons2_snoc x l') end.
    + split; [intros _; exact I|intros _].
      match goal with |- Forall _ (interior (?a :: ?l)) =>
        let l' := eval cbn [removelast] in (removelast l) in
        change (a :: l) with (a :: l' ++ [0xF7]) end.
      rewrite interior_frame.
      repeat (constructor; [first [apply seven_bit_land | unfold seven_bit; lia]|]).
      constructor.
  - unfold ControlPacket_Encode. cbn [app]. split.
    + match goal with |- framed (_ :: _ :: ?x :: ?l) = true =>
        let l' := eval cbn [removelast] in (removelast l) in
        apply (framed_cons2_snoc x l') end.
    + split; [intros _; exact I|intros _].
      match goal with |- Forall _ (interior (?a :: ?l)) =>
        let l' := eval cbn [removelast] in (removelast l) in
        change (a :: l) with (a :: l' ++ [0xF7]) end.
      rewrite interior_frame.
      repeat (constructor; [first [apply seven_bit_land | unfold seven_bit; lia]|]).
      constructor.
Qed.

(** Property X4.  Every encoding starts with F0 7E and ends with F7, and the
    bytes in between are all below 0x80 exactly when the payload of a data
    packet is: the payload is the one part that [Encode] copies without a
    mask. *)
Theorem Encode_framed (m : Message) :
  framed (Encode m []) = true /\
  (Forall seven_bit (interior (Encode m [])) <-> payload_seven_bit m).
Proof. apply Encode_frame. Qed.

(** ** Decode: what it returns *)

Lemma dec14bit_fits (l h : Z) : fits 14 (dec14bit l h).
Proof.
  assert (H : dec14bit l h = dec14bit l h mod 2 ^ 14).
  { unfold dec14bit, uint16. change 127 with (Z.ones 7).
    rewrite <- !Z.land_ones by lia. Z.bitblast. }
  rewrite H. apply fits_mod. lia.
Qed.

Lemma dec20bit_fits (l m h : Z) : fits 20 (dec20bit l m h).
Proof.
  assert (H : dec20bit l m h = dec20bit l m h mod 2 ^ 20).
  { unfold dec20bit, uint. change 127 with (Z.ones 7). change 63 with (Z.ones 6).
    rewrite <- !Z.land_ones by lia. Z.bitblast. }
  rewrite H. apply fits_mod. lia.
Qed.

Lemma Decode_checks_ok (sysex : list Z) (v : Variant) :
  Decode_checks sysex = inr v ->
  framed sysex = true /\
  match v with
  | Header => length sysex = 21%nat /\ nth 3 sysex 0 = 0x01 /\ 8 <= nth 6 sysex 0 <= 28
  | Packet => length sysex = 127%nat /\ nth 3 sysex 0 = 0x02
  | Request => length sysex = 7%nat /\ nth 3 sysex 0 = 0x03
  | Control => length sysex = 6%nat /\ 0x7C <= nth 3 sysex 0 <= 0x7F
  end.
Proof.
  unfold Decode_checks, sized.
  destruct (framed sysex); simpl; [|discriminate].
  repeat case_bool_decide; intros [= <-]; split; try reflexivity; repeat split;
    first [assumption | lia].
Qed.

Lemma Decode_Ok_inv (sysex : list Z) (m : Message) :
  Decode sysex = Ret (Ok m) -> framed sysex = true /\ decoded sysex m.
Proof.
  intros H. pose proof (Decode_verdict sysex) as Hv. rewrite H in Hv.
  cbn [verdict] in Hv. injection Hv as Hv. symmetry in Hv.
  apply Decode_checks_ok in Hv. destruct Hv as [Hf Hv]. split; [exact Hf|].
  destruct m as [h|p|r|c]; cbn [variant_of] in Hv.
  - destruct Hv as (Hl & Hid & Hbd).
    rewrite (Decode_DumpHeader sysex Hf Hl Hid Hbd) in H. injection H as <-.
    constructor; assumption.
  - destruct Hv as (Hl & Hid).
    rewrite (Decode_DataPacket sysex Hf Hl Hid) in H. injection H as <-.
    constructor; assumption.
  - destruct Hv as (Hl & Hid).
    rewrite (Decode_DumpRequest sysex Hf Hl Hid) in H. injection H as <-.
    constructor; assumption.
  - destruct Hv as (Hl & Hid).
    rewrite (Decode_ControlPacket sysex Hf Hl Hid) in H. injection H as <-.
    constructor; assumption.
Qed.

(** Property X5.  A message that [Decode] returns comes from a framed input
    of exactly the size of its variant, and is well formed: the bit depth of
    a header lies in 8..28, its number is below 2^14 and its period, length
    and loop points are below 2^20; a data packet has 120 bytes of data; the
    type of a control packet is one of 0x7C..0x7F. *)
Theorem Decode_well_formed (sysex : list Z) (m : Message) :
  Decode sysex = Ret (Ok m) ->
  framed sysex = true /\ length sysex = wire_size m /\ well_formed m.
Proof.
  intros H. apply Decode_Ok_inv in H. destruct H as [Hf Hd].
  split; [exact Hf|].
  destruct Hd as [Hl Hid Hbd|Hl Hid|Hl Hid|Hl Hid]; cbn [wire_size well_formed
    DumpHeader.BitDepth DumpHeader.Number DumpHeader.Period DumpHeader.Length
    DumpHeader.LoopStart DumpHeader.LoopEnd DataPacket.Data DumpRequest.Number
    ControlPacket.Type_].
  - split; [exact Hl|]. split; [exact Hbd|].
    split; [apply dec14bit_fits|]. repeat (split; [apply dec20bit_fits|]).
    apply dec20bit_fits.
  - rewrite length_take, length_drop, Hl. split; reflexivity.
  - split; [exact Hl|apply dec14bit_fits].
  - split; [exact Hl|exact Hid].
Qed.

Lemma Decode_well_formed_witness :
  Decode [0xF0; 0x7E; 0x05; 0x7F; 0x2A; 0xF7] =
    Ret (Ok (MControlPacket (ControlPacket.mk Ack 5 0x2A))) /\
  framed [0xF0; 0x7E; 0x05; 0x7F; 0x2A; 0xF7] = true /\
  length [0xF0; 0x7E; 0x05; 0x7F; 0x2A; 0xF7] =
    wire_size (MControlPacket (ControlPacket.mk Ack 5 0x2A)) /\
  well_formed (MControlPacket (ControlPacket.mk Ack 5 0x2A)).
Proof.
  split; [reflexivity|].
  apply (Decode_well_formed [0xF0; 0x7E; 0x05; 0x7F; 0x2A; 0xF7]). reflexivity.
Defined.

(** ** Encode after Decode *)

Lemma enc14_lo (l h : Z) :
  seven_bit l -> seven_bit h -> Z.land (byte (dec14bit l h)) 0x7F = l.
Proof.
  unfold seven_bit. intros Hl Hh. unfold dec14bit, uint16, byte.
  change 127 with (Z.ones 7). rewrite <- !Z.land_ones by lia. Z.bitblast.
  all: rewrite ?(testbit_high l 7), ?(testbit_high h 7) by lia; try reflexivity; btauto.
Qed.

Lemma enc14_hi (l h : Z) :
  seven_bit l -> seven_bit h -> Z.land (byte (Z.shiftr (dec14bit l h) 7)) 0x7F = h.
Proof.
  unfold seven_bit. intros Hl Hh. unfold dec14bit, uint16, byte.
  change 127 with (Z.ones 7). rewrite <- !Z.land_ones by lia. Z.bitblast.
  all: rewrite ?(testbit_high l 7), ?(testbit_high h 7) by lia; try reflexivity; btauto.
Qed.

Lemma enc20_lo (l m h : Z) :
  seven_bit l -> seven_bit m -> 0 <= h < 64 -> Z.land (byte (dec20bit l m h)) 0x7F = l.
Proof.
  unfold seven_bit. intros Hl Hm Hh. unfold dec20bit, uint, byte.
  change 127 with (Z.ones 7). change 63 with (Z.ones 6).
  rewrite <- !Z.land_ones by lia. Z.bitblast.
  all: rewrite ?(testbit_high l 7), ?(testbit_high m 7), ?(testbit_high h 6) by lia;
    try reflexivity; btauto.
Qed.

Lemma enc20_mid (l m h : Z) :
  seven_bit l -> seven_bit m -> 0 <= h < 64 ->
  Z.land (byte (Z.shiftr (dec20bit l m h) 7)) 0x7F = m.
Proof.
  unfold seven_bit. intros Hl Hm Hh. unfold dec20bit, uint, byte.
  change 127 with (Z.ones 7). change 63 with (Z.ones 6).
  rewrite <- !Z.land_ones by lia. Z.bitblast.
  all: rewrite ?(testbit_high l 7), ?(testbit_high m 7), ?(testbit_high h 6) by lia;
    try reflexivity; btauto.
Qed.

Lemma enc20_hi (l m h : Z) :
  seven_bit l -> seven_bit m -> 0 <= h < 64 ->
  Z.land (byte (Z.shiftr (dec20bit l m h) 14)) 0x3F = h.
Proof.
  unfold seven_bit. intros Hl Hm Hh. unfold dec20bit, uint, byte.
  change 127 with (Z.ones 7). change 63 with (Z.ones 6).
  rewrite <- !Z.land_ones by lia. Z.bitblast.
  all: rewrite ?(testbit_high l 7), ?(testbit_high m 7), ?(testbit_high h 6) by lia;
    try reflexivity; btauto.
Qed.

Lemma seven_bit_land_id (x : Z) : seven_bit x -> Z.land x 0x7F = x.
Proof. intros H. apply land_0x7F_fits. exact H. Qed.

Lemma seven_bit_byte (x : Z) : seven_bit x -> byte x = x.
Proof. intros H. apply byte_fits7. exact H. Qed.

Lemma framed_inv (s : list Z) :
  framed s = true -> take 2 s = [0xF0; 0x7E] /\ last s = Some 0xF7.
Proof.
  unfold framed. rewrite andb_true_iff, !bool_decide_eq_true. tauto.
Qed.

Lemma split_last2 (l : list Z) (n : nat) :
  length l = (n + 2)%nat ->
  exists (data : list Z) (a b : Z), l = data ++ [a; b] /\ length data = n.
Proof.
  intros Hl. exists (take n l), (nth n l 0), (nth (S n) l 0). split.
  - rewrite <- (take_drop n l) at 1. f_equal.
    rewrite (drop_nth l n) by lia. rewrite (drop_nth l (S n)) by lia.
    rewrite drop_ge by lia. reflexivity.
  - rewrite length_take. lia.
Qed.

Ltac forall_inv H :=
  repeat (let Hx := fresh "Hb" in apply Forall_cons in H; destruct H as [Hx H]).

(** Property X6.  [Encode] undoes [Decode] on the frames that [Encode] can
    write: if a frame decodes to a message, its bytes between the first and
    the last are below 0x80 and, in a header, the third byte of every 20-bit
    field is below 0x40, then encoding the message gives the frame back. *)
Theorem Encode_Decode (sysex : list Z) (m : Message) :
  Decode sysex = Ret (Ok m) -> canonical sysex -> Encode m [] = sysex.
Proof.
  intros H [Hint Htop]. apply Decode_Ok_inv in H. destruct H as [Hf Hd].
  apply framed_inv in Hf. destruct Hf as [Hpre Hlast].
  destruct Hd as [Hl Hid Hbd|Hl Hid|Hl Hid|Hl Hid].
  - specialize (Htop Hid).
    do 21 (destruct sysex as [|? sysex]; [discriminate Hl|]).
    destruct sysex; [|discriminate Hl].
    cbn [nth] in *. cbn [take] in Hpre. injection Hpre as -> ->.
    cbn [last] in Hlast. injection Hlast as ->.
    unfold interior in Hint. cbn [length Nat.sub take drop] in Hint.
    forall_inv Hint. forall_inv Htop. subst.
    cbn [Encode]. unfold DumpHeader_Encode, append14bit, append20bit.
    cbn [app DumpHeader.Channel DumpHeader.Number DumpHeader.BitDepth DumpHeader.Period
         DumpHeader.Length DumpHeader.LoopStart DumpHeader.LoopEnd DumpHeader.LoopType].
    unfold seven_bit in *.
    rewrite enc14_lo, enc14_hi by (unfold seven_bit; lia).
    rewrite !enc20_lo, !enc20_mid, !enc20_hi by (unfold seven_bit; lia).
    rewrite !seven_bit_land_id by (unfold seven_bit; lia). reflexivity.
  - do 5 (destruct sysex as [|? sysex]; [discriminate Hl|]).
    cbn [length] in Hl.
    destruct (split_last2 sysex 120) as (data & ck & e & -> & Hdata); [lia|].
    cbn [nth drop] in *. rewrite drop_0. cbn [take] in Hpre. injection Hpre as -> ->.
    subst.
    replace (240 :: 126 :: z1 :: 2 :: z3 :: data ++ [ck; e])
      with (240 :: (126 :: z1 :: 2 :: z3 :: data ++ [ck]) ++ [e]) in *
      by (cbn [app]; rewrite <- app_assoc; reflexivity).
    rewrite app_comm_cons, last_snoc in Hlast. injection Hlast as ->.
    rewrite interior_frame in Hint.
    forall_inv Hint. apply Forall_app in Hint. destruct Hint as [_ Hck].
    forall_inv Hck.
    cbn [Encode]. rewrite DataPacket_Encode_eq.
    cbn [DataPacket.Channel DataPacket.PacketNumber DataPacket.Data DataPacket.Checksum].
    cbn [app]. rewrite <- !app_assoc. cbn [app].
    rewrite take_app_length' by (symmetry; assumption).
    replace 120%nat with (length data) by assumption.
    rewrite app_nth2 by lia. rewrite Nat.sub_diag. cbn [nth].
    rewrite !seven_bit_land_id by assumption. reflexivity.
  - do 7 (destruct sysex as [|? sysex]; [discriminate Hl|]).
    destruct sysex; [|discriminate Hl].
    cbn [nth] in *. cbn [take] in Hpre. injection Hpre as -> ->.
    cbn [last] in Hlast. injection Hlast as ->.
    unfold interior in Hint. cbn [length Nat.sub take drop] in Hint.
    forall_inv Hint. subst.
    cbn [Encode]. unfold DumpRequest_Encode, append14bit.
    cbn [app DumpRequest.Channel DumpRequest.Number].
    rewrite enc14_lo, enc14_hi by assumption.
    rewrite !seven_bit_land_id by assumption. reflexivity.
  - do 6 (destruct sysex as [|? sysex]; [discriminate Hl|]).
    destruct sysex; [|discriminate Hl].
    cbn [nth] in *. cbn [take] in Hpre. injection Hpre as -> ->.
    cbn [last] in Hlast. injection Hlast as ->.
    unfold interior in Hint. cbn [length Nat.sub take drop] in Hint.
    forall_inv Hint.
    cbn [Encode]. unfold ControlPacket_Encode.
    cbn [app ControlPacket.Channel ControlPacket.Type_ ControlPacket.PacketNumber].
    rewrite (seven_bit_byte z2) by assumption.
    rewrite !seven_bit_land_id by assumption. reflexivity.
Qed.

Lemma Encode_Decode_witness :
  Decode [0xF0; 0x7E; 0x05; 0x03; 0x2A; 0x11; 0xF7] =
    Ret (Ok (MDumpRequest (DumpRequest.mk 5 0x8AA))) /\
  canonical [0xF0; 0x7E; 0x05; 0x03; 0x2A; 0x11; 0xF7] /\
  Encode (MDumpRequest (DumpRequest.mk 5 0x8AA)) [] =
    [0xF0; 0x7E; 0x05; 0x03; 0x2A; 0x11; 0xF7].
Proof.
  assert (Hc : canonical [0xF0; 0x7E; 0x05; 0x03; 0x2A; 0x11; 0xF7]).
  { split; [|intros [=]]. unfold interior, seven_bit. cbn [length Nat.sub take drop].
    repeat (constructor; [lia|]). constructor. }
  split; [reflexivity|]. split; [exact Hc|].
  apply (Encode_Decode [0xF0; 0x7E; 0x05; 0x03; 0x2A; 0x11; 0xF7]); [reflexivity|exact Hc].
Defined.

(** ** The filter of the MIDI listener *)

(** Property X7.  [isSysex] never panics; it holds exactly of the non-empty
    messages that start with F0 and end with F7, so it lets through every
    message that passes the framing check of [Decode], and more: F0 F7
    passes the filter and is rejected by [Decode] as not a sysex message. *)
Theorem isSysex_spec (msg : list Z) :
  isSysex msg = Ret (bool_decide (head msg = Some 0xF0 /\ last msg = Some 0xF7)) /\
  (framed msg = true -> isSysex msg = Ret true) /\
  isSysex [0xF0; 0xF7] = Ret true /\ Decode [0xF0; 0xF7] = Ret (Err errNotSysex).
Proof.
  assert (H : isSysex msg = Ret (bool_decide (head msg = Some 0xF0 /\ last msg = Some 0xF7))).
  { unfold isSysex. destruct msg as [|b msg].
    - rewrite bool_decide_eq_false_2 by (intros [[=] _]). reflexivity.
    - assert (Hlen : 0 < len (b :: msg)) by (unfold len; cbn [length]; lia).
      destruct (Z.ltb_spec 0 (len (b :: msg))); [|lia]. cbn [negb].
      rewrite index_ok by lia. cbn [bind]. change (Z.to_nat 0) with 0%nat. cbn [nth head].
      destruct (Z.eqb_spec b 240) as [->|Hb]; cbn [negb].
      + set (s := 240 :: msg) in *.
        rewrite index_ok by lia. cbn [bind].
        rewrite (nth_last s) by discriminate.
        unfold len. replace (Z.to_nat (Z.of_nat (length s) - 1))
          with (length s - 1)%nat by lia.
        f_equal. destruct (Z.eqb_spec (nth (length s - 1) s 0) 247) as [E|E].
        * rewrite bool_decide_eq_true_2; [reflexivity|]. rewrite E. split; reflexivity.
        * rewrite bool_decide_eq_false_2; [reflexivity|]. intros [_ [=]]. contradiction.
      + rewrite bool_decide_eq_false_2; [reflexivity|]. intros [[=] _]. contradiction. }
  split; [exact H|]. split; [|split; reflexivity]. intros Hf. rewrite H. f_equal.
  apply bool_decide_eq_true_2. apply framed_inv in Hf. destruct Hf as [Hpre Hlast].
  split; [|exact Hlast]. destruct msg as [|? [|? ?]]; try discriminate Hpre.
  cbn [take] in Hpre. injection Hpre as -> ->. reflexivity.
Qed.

(** ** The checksum *)

Lemma fold_lxor_acc (l : list Z) (c : Z) : fold_left Z.lxor l c = Z.lxor c (xor_fold l).
Proof.
  unfold xor_fold. revert c. induction l as [|x l IH]; intros c; cbn [fold_left].
  - rewrite Z.lxor_0_r. reflexivity.
  - rewrite IH, (IH (Z.lxor 0 x)), Z.lxor_0_l, Z.lxor_assoc. reflexivity.
Qed.

Lemma xor_fold_app (l1 l2 : list Z) : xor_fold (l1 ++ l2) = Z.lxor (xor_fold l1) (xor_fold l2).
Proof. unfold xor_fold at 1 2. rewrite fold_left_app, fold_lxor_acc. reflexivity. Qed.

Lemma xor_fold_cons (x : Z) (l : list Z) : xor_fold (x :: l) = Z.lxor x (xor_fold l).
Proof. unfold xor_fold at 1. cbn [fold_left]. rewrite fold_lxor_acc, Z.lxor_0_l. reflexivity. Qed.

Lemma xor_fold_insert (l : list Z) (i : nat) (y : Z) :
  (i < length l)%nat ->
  xor_fold (<[i := y]> l) = Z.lxor (xor_fold l) (Z.lxor (nth i l 0) y).
Proof.
  intros Hi. rewrite insert_take_drop by assumption.
  assert (E : xor_fold l = xor_fold (take i l ++ nth i l 0 :: drop (S i) l)).
  { rewrite <- drop_nth by assumption. rewrite take_drop. reflexivity. }
  rewrite E, !xor_fold_app, !xor_fold_cons.
  set (a := xor_fold (take i l)). set (b := xor_fold (drop (S i) l)). set (x := nth i l 0).
  Z.bitblast.
Qed.

Lemma land_lxor_distr (a b m : Z) :
  Z.land (Z.lxor a b) m = Z.lxor (Z.land a m) (Z.land b m).
Proof. Z.bitblast. Qed.

(** Property X8.  The checksum of a packet is below 0x80, does not depend on
    the checksum field of the packet, and depends on the channel and the
    packet number only through their low 7 bits. *)
Theorem ComputeChecksum_fields (p : DataPacket.t) (c : Z) :
  length (DataPacket.Data p) = 120%nat ->
  seven_bit (ComputeChecksum p) /\
  ComputeChecksum
    (DataPacket.mk (DataPacket.Channel p) (DataPacket.PacketNumber p) (DataPacket.Data p) c) =
    ComputeChecksum p /\
  ComputeChecksum
    (DataPacket.mk (Z.land (DataPacket.Channel p) 0x7F)
       (Z.land (DataPacket.PacketNumber p) 0x7F) (DataPacket.Data p) c) =
    ComputeChecksum p.
Proof.
  intros Hl. rewrite !ComputeChecksum_eq by assumption.
  cbn [DataPacket.Channel DataPacket.PacketNumber DataPacket.Data].
  rewrite !land_7F_idem.
  split; [apply seven_bit_land|]. split; reflexivity.
Qed.

Lemma ComputeChecksum_fields_witness :
  length (DataPacket.Data DataPacket.zero) = 120%nat /\
  seven_bit (ComputeChecksum DataPacket.zero) /\
  ComputeChecksum (DataPacket.mk 0 0 (replicate 120 0) 0x55) =
    ComputeChecksum DataPacket.zero /\
  ComputeChecksum (DataPacket.mk (Z.land 0 0x7F) (Z.land 0 0x7F) (replicate 120 0) 0x55) =
    ComputeChecksum DataPacket.zero.
Proof.
  split; [reflexivity|].
  apply (ComputeChecksum_fields DataPacket.zero 0x55). reflexivity.
Defined.

(** Property X9.  Replacing one byte of the payload changes the checksum by
    the XOR of the old and the new byte, masked to 7 bits; the checksum
    stays the same exactly when the two bytes agree in their low 7 bits, so
    every change of a single 7-bit payload byte is detected. *)
Theorem ComputeChecksum_single_byte (p : DataPacket.t) (i : nat) (y : Z) :
  length (DataPacket.Data p) = 120%nat -> (i < 120)%nat ->
  let p' :=
    DataPacket.mk (DataPacket.Channel p) (DataPacket.PacketNumber p)
      (<[i := y]> (DataPacket.Data p)) (DataPacket.Checksum p) in
  ComputeChecksum p' =
    Z.lxor (ComputeChecksum p) (Z.land (Z.lxor (nth i (DataPacket.Data p) 0) y) 0x7F) /\
  (ComputeChecksum p' = ComputeChecksum p <->
   Z.land (nth i (DataPacket.Data p) 0) 0x7F = Z.land y 0x7F).
Proof.
  intros Hl Hi p'.
  assert (E : ComputeChecksum p' =
    Z.lxor (ComputeChecksum p) (Z.land (Z.lxor (nth i (DataPacket.Data p) 0) y) 0x7F)).
  { subst p'.
    rewrite !ComputeChecksum_eq
      by (cbn [DataPacket.Data]; rewrite ?length_insert; assumption).
    cbn [DataPacket.Channel DataPacket.PacketNumber DataPacket.Data].
    rewrite !xor_fold_app, xor_fold_insert by lia.
    rewrite <- land_lxor_distr. f_equal. rewrite Z.lxor_assoc. reflexivity. }
  split; [exact E|]. rewrite E, land_lxor_distr.
  set (c := ComputeChecksum p). set (a := Z.land _ 127). set (b := Z.land y 127).
  split.
  - intros H. apply Z.lxor_eq. apply (f_equal (Z.lxor c)) in H.
    rewrite <- Z.lxor_assoc, Z.lxor_nilpotent, Z.lxor_0_l in H. exact H.
  - intros ->. rewrite Z.lxor_nilpotent, Z.lxor_0_r. reflexivity.
Qed.

Lemma ComputeChecksum_single_byte_witness :
  length (DataPacket.Data DataPacket.zero) = 120%nat /\ (7 < 120)%nat /\
  ComputeChecksum (DataPacket.mk 0 0 (<[7%nat := 0x41]> (replicate 120 0)) 0) =
    Z.lxor (ComputeChecksum DataPacket.zero)
      (Z.land (Z.lxor (nth 7 (replicate 120 0) 0) 0x41) 0x7F) /\
  (ComputeChecksum (DataPacket.mk 0 0 (<[7%nat := 0x41]> (replicate 120 0)) 0) =
     ComputeChecksum DataPacket.zero <->
   Z.land (nth 7 (replicate 120 0) 0) 0x7F = Z.land 0x41 0x7F).
Proof.
  split; [reflexivity|]. split; [lia|].
  apply (ComputeChecksum_single_byte DataPacket.zero 7 0x41); [reflexivity|lia].
Defined.

(** ** The packer on arbitrary samples and payloads *)

Lemma Forall_encode_sample (d x : Z) : Forall seven_bit (encode_sample d x).
Proof.
  unfold encode_sample, enc2, enc3, enc4.
  destruct (d <=? 14); [|destruct (d <=? 21)];
    repeat (constructor; [apply seven_bit_land|]); constructor.
Qed.

Lemma Forall_pack (d : Z) (xs : list Z) : Forall seven_bit (pack d xs).
Proof.
  unfold pack. apply Forall_app. split.
  - induction xs as [|x xs IH]; [constructor|].
    cbn [flat_map]. apply Forall_app. split; [apply Forall_encode_sample|exact IH].
  - apply Forall_replicate. unfold seven_bit. lia.
Qed.

(** Property X10.  For a supported bit depth and any samples, in range or
    not, [SetSamples] returns, takes the first 60, 40 or 30 samples, leaves
    channel, packet number and checksum as they are, and writes a payload of
    120 bytes that are all below 0x80. *)
Theorem SetSamples_payload (msg : DataPacket.t) (samples : list Z) (d : Z) :
  8 <= d <= 28 -> length (DataPacket.Data msg) = 120%nat ->
  exists msg' : DataPacket.t,
    SetSamples msg samples d = Ret (msg', drop (capacity d) samples) /\
    length (DataPacket.Data msg') = 120%nat /\
    Forall seven_bit (DataPacket.Data msg') /\
    DataPacket.Channel msg' = DataPacket.Channel msg /\
    DataPacket.PacketNumber msg' = DataPacket.PacketNumber msg /\
    DataPacket.Checksum msg' = DataPacket.Checksum msg.
Proof.
  intros Hd Hl. eexists. split; [apply SetSamples_spec; assumption|].
  cbn [DataPacket.Data DataPacket.Channel DataPacket.PacketNumber DataPacket.Checksum].
  split; [|split; [apply Forall_pack|repeat split]].
  apply length_pack. rewrite length_take. lia.
Qed.

Lemma SetSamples_payload_witness :
  8 <= 12 <= 28 /\ length (DataPacket.Data DataPacket.zero) = 120%nat /\
  exists msg' : DataPacket.t,
    SetSamples DataPacket.zero [2 ^ 40; - 2 ^ 40; 7] 12 =
      Ret (msg', drop (capacity 12) [2 ^ 40; - 2 ^ 40; 7]) /\
    length (DataPacket.Data msg') = 120%nat /\
    Forall seven_bit (DataPacket.Data msg') /\
    DataPacket.Channel msg' = DataPacket.Channel DataPacket.zero /\
    DataPacket.PacketNumber msg' = DataPacket.PacketNumber DataPacket.zero /\
    DataPacket.Checksum msg' = DataPacket.Checksum DataPacket.zero.
Proof.
  split; [lia|]. split; [reflexivity|].
  apply (SetSamples_payload DataPacket.zero [2 ^ 40; - 2 ^ 40; 7] 12); [lia|reflexivity].
Defined.

(** *** Samples outside of the range wrap around *)

Lemma biased_wrap (d x : Z) :
  8 <= d <= 28 ->
  0 <= uint (uint x + 2 ^ (d - 1)) < 2 ^ 64 /\
  uint (uint x + 2 ^ (d - 1)) mod 2 ^ d = (x + 2 ^ (d - 1)) mod 2 ^ d.
Proof.
  intros Hd. unfold uint. split; [apply Z.mod_pos_bound; lia|].
  rewrite Zplus_mod_idemp_l.
  apply Z.mod_mod_divide.
  exists (2 ^ (64 - d)). rewrite <- Z.pow_add_r by lia. f_equal. lia.
Qed.

Lemma join2_wrap (d u : Z) :
  8 <= d <= 14 ->
  Z.lor (uint (Z.shiftl (uint (Z.land (Z.land (byte (Z.shiftr u (d - 7))) 0x7F) 0x7F)) (d - 7)))
        (Z.shiftr (uint (Z.land (Z.land (byte (uint (Z.shiftl u (14 - d)))) 0x7F) 0x7F)) (14 - d))
  = u mod 2 ^ d.
Proof.
  intros Hd. normalise_groups. change 127 with (Z.ones 7).
  rewrite <- Z.land_ones by lia. Z.bitblast.
Qed.

Lemma join3_wrap (d u : Z) :
  15 <= d <= 21 ->
  Z.lor (Z.lor
    (uint (Z.shiftl (uint (Z.land (Z.land (byte (Z.shiftr u (d - 7))) 0x7F) 0x7F)) (d - 7)))
    (uint (Z.shiftl (uint (Z.land (Z.land (byte (Z.shiftr u (d - 14))) 0x7F) 0x7F)) (d - 14))))
    (Z.shiftr (uint (Z.land (Z.land (byte (uint (Z.shiftl u (21 - d)))) 0x7F) 0x7F)) (21 - d))
  = u mod 2 ^ d.
Proof.
  intros Hd. normalise_groups. change 127 with (Z.ones 7).
  rewrite <- Z.land_ones by lia. Z.bitblast.
Qed.

Lemma join4_wrap (d u : Z) :
  22 <= d <= 28 ->
  Z.lor (Z.lor (Z.lor
    (uint (Z.shiftl (uint (Z.land (Z.land (byte (Z.shiftr u (d - 7))) 0x7F) 0x7F)) (d - 7)))
    (uint (Z.shiftl (uint (Z.land (Z.land (byte (Z.shiftr u (d - 14))) 0x7F) 0x7F)) (d - 14))))
    (uint (Z.shiftl (uint (Z.land (Z.land (byte (Z.shiftr u (d - 21))) 0x7F) 0x7F)) (d - 21))))
    (Z.shiftr (uint (Z.land (Z.land (byte (uint (Z.shiftl u (28 - d)))) 0x7F) 0x7F)) (28 - d))
  = u mod 2 ^ d.
Proof.
  intros Hd. normalise_groups. change 127 with (Z.ones 7).
  rewrite <- Z.land_ones by lia. Z.bitblast.
Qed.

Lemma unbias_wrap (d x : Z) :
  8 <= d <= 28 ->
  int (uint (uint (uint x + 2 ^ (d - 1)) mod 2 ^ d - 2 ^ (d - 1))) = wrap_sample d x.
Proof.
  intros Hd. destruct (biased_wrap d x Hd) as [_ ->]. unfold wrap_sample.
  apply unbiased; [assumption|]. apply Z.mod_pos_bound. apply Z.pow_pos_nonneg; lia.
Qed.

Lemma unpack2_pack_wrap (d : Z) (xs rest : list Z) :
  8 <= d <= 14 ->
  unpack2 (d - 7) (14 - d) (uint (Z.shiftl (uint 1) (d - 1)))
    (flat_map (enc2 (d - 7) (14 - d) (uint (Z.shiftl (uint 1) (d - 1)))) xs ++ rest) =
  map (wrap_sample d) xs ++ unpack2 (d - 7) (14 - d) (uint (Z.shiftl (uint 1) (d - 1))) rest.
Proof.
  intros Hd. induction xs as [|x xs IH]; [reflexivity|].
  cbn [flat_map enc2 app unpack2 map]. rewrite IH. f_equal.
  unfold dec2. rewrite zero_value by lia.
  rewrite join2_wrap by assumption. apply unbias_wrap. lia.
Qed.

Lemma unpack3_pack_wrap (d : Z) (xs rest : list Z) :
  15 <= d <= 21 ->
  unpack3 (d - 7) (d - 14) (21 - d) (uint (Z.shiftl (uint 1) (d - 1)))
    (flat_map (enc3 (d - 7) (d - 14) (21 - d) (uint (Z.shiftl (uint 1) (d - 1)))) xs ++ rest) =
  map (wrap_sample d) xs
    ++ unpack3 (d - 7) (d - 14) (21 - d) (uint (Z.shiftl (uint 1) (d - 1))) rest.
Proof.
  intros Hd. induction xs as [|x xs IH]; [reflexivity|].
  cbn [flat_map enc3 app unpack3 map]. rewrite IH. f_equal.
  unfold dec3. rewrite zero_value by lia.
  rewrite join3_wrap by assumption. apply unbias_wrap. lia.
Qed.

Lemma unpack4_pack_wrap (d : Z) (xs rest : list Z) :
  22 <= d <= 28 ->
  unpack4 (d - 7) (d - 14) (d - 21) (28 - d) (uint (Z.shiftl (uint 1) (d - 1)))
    (flat_map (enc4 (d - 7) (d - 14) (d - 21) (28 - d) (uint (Z.shiftl (uint 1) (d - 1)))) xs
     ++ rest) =
  map (wrap_sample d) xs
    ++ unpack4 (d - 7) (d - 14) (d - 21) (28 - d) (uint (Z.shiftl (uint 1) (d - 1))) rest.
Proof.
  intros Hd. induction xs as [|x xs IH]; [reflexivity|].
  cbn [flat_map enc4 app unpack4 map]. rewrite IH. f_equal.
  unfold dec4. rewrite zero_value by lia.
  rewrite join4_wrap by assumption. apply unbias_wrap. lia.
Qed.

Lemma unpack_pack_wrap (d : Z) (xs : list Z) :
  8 <= d <= 28 -> (length xs <= capacity d)%nat ->
  unpack d (pack d xs) =
    map (wrap_sample d) xs ++ replicate (capacity d - length xs) (- 2 ^ (d - 1)).
Proof.
  intros Hd Hlen. rewrite <- (dec_zero d Hd).
  unfold unpack, pack, encode_sample, group, capacity in *.
  destruct (Z.leb_spec d 14).
  { rewrite unpack2_pack_wrap by (assumption || lia).
    replace (120 - 2 * length xs)%nat with (2 * (60 - length xs))%nat by lia.
    rewrite unpack2_zeros. reflexivity. }
  destruct (Z.leb_spec d 21).
  { rewrite unpack3_pack_wrap by (assumption || lia).
    replace (120 - 3 * length xs)%nat with (3 * (40 - length xs))%nat by lia.
    rewrite unpack3_zeros. reflexivity. }
  rewrite unpack4_pack_wrap by (assumption || lia).
  replace (120 - 4 * length xs)%nat with (4 * (30 - length xs))%nat by lia.
  rewrite unpack4_zeros. reflexivity.
Qed.

Lemma wrap_sample_range (d x : Z) : 8 <= d <= 28 -> in_range d (wrap_sample d x).
Proof.
  intros Hd. unfold in_range, wrap_sample.
  destruct (pow2_bounds d Hd) as (Hp & Hpp & _).
  pose proof (Z.mod_pos_bound (x + 2 ^ (d - 1)) (2 ^ d)). lia.
Qed.

Lemma wrap_sample_id (d x : Z) : 8 <= d <= 28 -> in_range d x -> wrap_sample d x = x.
Proof.
  intros Hd Hx. unfold in_range, wrap_sample in *.
  destruct (pow2_bounds d Hd) as (Hp & Hpp & _).
  rewrite Z.mod_small by lia. lia.
Qed.

(** Property X11.  For a supported bit depth d and any samples, [GetSamples]
    after [SetSamples] appends, for each packed sample x, the value of x
    taken into the signed range of d bits modulo 2^d, and -2^(d-1) for every
    unused slot of the packet; that value is x exactly when x is within the
    range. *)
Theorem SetSamples_GetSamples_wrap (msg : DataPacket.t) (samples out : list Z) (d : Z) :
  8 <= d <= 28 -> length (DataPacket.Data msg) = 120%nat ->
  exists msg' : DataPacket.t,
    SetSamples msg samples d = Ret (msg', drop (capacity d) samples) /\
    GetSamples msg' out d =
      Ret (out ++ map (wrap_sample d) (take (capacity d) samples)
               ++ replicate (capacity d - length samples) (- 2 ^ (d - 1))) /\
    (forall x : Z, in_range d (wrap_sample d x) /\ (wrap_sample d x = x <-> in_range d x)).
Proof.
  intros Hd Hl. eexists. split; [apply SetSamples_spec; assumption|]. split.
  - rewrite GetSamples_spec.
    + cbn [DataPacket.Data]. rewrite unpack_pack_wrap.
      * rewrite length_take.
        replace (capacity d - Nat.min (capacity d) (length samples))%nat
          with (capacity d - length samples)%nat by lia.
        reflexivity.
      * assumption.
      * rewrite length_take. lia.
    + assumption.
    + cbn [DataPacket.Data]. apply length_pack. rewrite length_take. lia.
  - intros x. split; [apply wrap_sample_range; assumption|]. split.
    + intros <-. apply wrap_sample_range; assumption.
    + apply wrap_sample_id; assumption.
Qed.

Lemma SetSamples_GetSamples_wrap_witness :
  8 <= 8 <= 28 /\ length (DataPacket.Data DataPacket.zero) = 120%nat /\
  exists msg' : DataPacket.t,
    SetSamples DataPacket.zero [128; -129; 300] 8 =
      Ret (msg', drop (capacity 8) [128; -129; 300]) /\
    GetSamples msg' [] 8 =
      Ret ([] ++ map (wrap_sample 8) (take (capacity 8) [128; -129; 300])
              ++ replicate (capacity 8 - length [128; -129; 300]) (- 2 ^ (8 - 1))) /\
    (forall x : Z, in_range 8 (wrap_sample 8 x) /\ (wrap_sample 8 x = x <-> in_range 8 x)).
Proof.
  split; [lia|]. split; [reflexivity|].
  apply (SetSamples_GetSamples_wrap DataPacket.zero [128; -129; 300] [] 8);
    [lia|reflexivity].
Defined.

(** *** Any payload decodes *)

Lemma land_ones_range (v d : Z) : 0 <= d -> v = Z.land v (Z.ones d) -> 0 <= v < 2 ^ d.
Proof.
  intros Hd H. rewrite H, Z.land_ones by assumption. apply Z.mod_pos_bound.
  apply Z.pow_pos_nonneg; lia.
Qed.

Lemma dec2_range (d a b : Z) :
  8 <= d <= 14 -> in_range d (dec2 (d - 7) (14 - d) (uint (Z.shiftl (uint 1) (d - 1))) a b).
Proof.
  intros Hd. unfold dec2. rewrite zero_value by lia.
  set (v := Z.lor _ _).
  assert (Hv : 0 <= v < 2 ^ d).
  { apply land_ones_range; [lia|]. subst v. normalise_groups. change 127 with (Z.ones 7).
    Z.bitblast. }
  rewrite unbiased by (assumption || lia). unfold in_range.
  destruct (pow2_bounds d) as (Hp & Hpp & _); lia.
Qed.

Lemma dec3_range (d a b c : Z) :
  15 <= d <= 21 ->
  in_range d (dec3 (d - 7) (d - 14) (21 - d) (uint (Z.shiftl (uint 1) (d - 1))) a b c).
Proof.
  intros Hd. unfold dec3. rewrite zero_value by lia.
  set (v := Z.lor _ _).
  assert (Hv : 0 <= v < 2 ^ d).
  { apply land_ones_range; [lia|]. subst v. normalise_groups. change 127 with (Z.ones 7).
    Z.bitblast. }
  rewrite unbiased by (assumption || lia). unfold in_range.
  destruct (pow2_bounds d) as (Hp & Hpp & _); lia.
Qed.

Lemma dec4_range (d a b c e : Z) :
  22 <= d <= 28 ->
  in_range d
    (dec4 (d - 7) (d - 14) (d - 21) (28 - d) (uint (Z.shiftl (uint 1) (d - 1))) a b c e).
Proof.
  intros Hd. unfold dec4. rewrite zero_value by lia.
  set (v := Z.lor _ _).
  assert (Hv : 0 <= v < 2 ^ d).
  { apply land_ones_range; [lia|]. subst v. normalise_groups. change 127 with (Z.ones 7).
    Z.bitblast. }
  rewrite unbiased by (assumption || lia). unfold in_range.
  destruct (pow2_bounds d) as (Hp & Hpp & _); lia.
Qed.

Lemma unpack2_any (P : Z -> Prop) (sH sL z : Z) (k : nat) (l : list Z) :
  (forall a b, P (dec2 sH sL z a b)) -> length l = (2 * k)%nat ->
  length (unpack2 sH sL z l) = k /\ Forall P (unpack2 sH sL z l).
Proof.
  intros HP. revert l. induction k as [|k IH]; intros l Hl.
  - destruct l; [|discriminate Hl]. split; [reflexivity|constructor].
  - destruct l as [|a [|b l]]; try (cbn [length] in Hl; lia).
    destruct (IH l) as [IH1 IH2]; [cbn [length] in Hl; lia|].
    cbn [unpack2 length]. split; [lia|]. constructor; [apply HP|exact IH2].
Qed.

Lemma unpack3_any (P : Z -> Prop) (sH sM sL z : Z) (k : nat) (l : list Z) :
  (forall a b c, P (dec3 sH sM sL z a b c)) -> length l = (3 * k)%nat ->
  length (unpack3 sH sM sL z l) = k /\ Forall P (unpack3 sH sM sL z l).
Proof.
  intros HP. revert l. induction k as [|k IH]; intros l Hl.
  - destruct l; [|discriminate Hl]. split; [reflexivity|constructor].
  - destruct l as [|a [|b [|c l]]]; try (cbn [length] in Hl; lia).
    destruct (IH l) as [IH1 IH2]; [cbn [length] in Hl; lia|].
    cbn [unpack3 length]. split; [lia|]. constructor; [apply HP|exact IH2].
Qed.

Lemma unpack4_any (P : Z -> Prop) (sH sM1 sM2 sL z : Z) (k : nat) (l : list Z) :
  (forall a b c e, P (dec4 sH sM1 sM2 sL z a b c e)) -> length l = (4 * k)%nat ->
  length (unpack4 sH sM1 sM2 sL z l) = k /\ Forall P (unpack4 sH sM1 sM2 sL z l).
Proof.
  intros HP. revert l. induction k as [|k IH]; intros l Hl.
  - destruct l; [|discriminate Hl]. split; [reflexivity|constructor].
  - destruct l as [|a [|b [|c [|e l]]]]; try (cbn [length] in Hl; lia).
    destruct (IH l) as [IH1 IH2]; [cbn [length] in Hl; lia|].
    cbn [unpack4 length]. split; [lia|]. constructor; [apply HP|exact IH2].
Qed.

Lemma unpack_any (d : Z) (l : list Z) :
  8 <= d <= 28 -> length l = 120%nat ->
  length (unpack d l) = capacity d /\ Forall (in_range d) (unpack d l).
Proof.
  intros Hd Hl. unfold unpack, capacity.
  destruct (Z.leb_spec d 14).
  { apply unpack2_any; [intros; apply dec2_range; lia|rewrite Hl; reflexivity]. }
  destruct (Z.leb_spec d 21).
  { apply unpack3_any; [intros; apply dec3_range; lia|rewrite Hl; reflexivity]. }
  apply unpack4_any; [intros; apply dec4_range; lia|rewrite Hl; reflexivity].
Qed.

(** Property X12.  For a supported bit depth d and any payload of 120 bytes,
    whatever the bytes, [GetSamples] keeps the samples it is given and
    appends exactly 60, 40 or 30 samples, each within the signed range of d
    bits. *)
Theorem GetSamples_any_payload (msg : DataPacket.t) (out : list Z) (d : Z) :
  8 <= d <= 28 -> length (DataPacket.Data msg) = 120%nat ->
  exists decoded : list Z,
    GetSamples msg out d = Ret (out ++ decoded) /\
    length decoded = capacity d /\ Forall (in_range d) decoded.
Proof.
  intros Hd Hl. exists (unpack d (DataPacket.Data msg)).
  split; [apply GetSamples_spec; assumption|]. apply unpack_any; assumption.
Qed.

Lemma GetSamples_any_payload_witness :
  8 <= 16 <= 28 /\
  length (DataPacket.Data (DataPacket.mk 0 0 (replicate 120 0xFF) 0)) = 120%nat /\
  exists decoded : list Z,
    GetSamples (DataPacket.mk 0 0 (replicate 120 0xFF) 0) [1; 2] 16 = Ret ([1; 2] ++ decoded) /\
    length decoded = capacity 16 /\ Forall (in_range 16) decoded.
Proof.
  split; [lia|]. split; [reflexivity|].
  apply (GetSamples_any_payload (DataPacket.mk 0 0 (replicate 120 0xFF) 0) [1; 2] 16);
    [lia|reflexivity].
Defined.

(** ** Sessions: the packets *)

Lemma NewSendOp_session_on (samples : list Z) (h : DumpHeader.t) :
  8 <= DumpHeader.BitDepth h <= 28 ->
  session_on (DumpHeader.Channel h) samples (DumpHeader.BitDepth h) 0
    (fst (NewSendOp samples h)).
Proof.
  intros Hd. split; [apply NewSendOp_session; assumption|reflexivity].
Qed.

Lemma length_packet_at (ch : Z) (orig : list Z) (d : Z) (k : nat) :
  length (DataPacket.Data (packet_at ch orig d k)) = 120%nat.
Proof.
  unfold packet_at. cbn [DataPacket.Data]. apply length_pack. rewrite length_take. lia.
Qed.

Lemma NextMessage_exact (ch : Z) (orig : list Z) (d : Z) (k : nat) (s : SendOp.t) :
  8 <= d <= 28 -> session_on ch orig d k s -> (k * capacity d < length orig)%nat ->
  exists s' : SendOp.t,
    NextMessage s = Ret (s', Some (MDataPacket (packet_at ch orig d k))) /\
    session_on ch orig d (S k) s' /\ SendOp.data s' = packet_at ch orig d k.
Proof.
  intros Hd [Hs Hch] Hk.
  destruct (NextMessage_packet orig d k s Hd Hs Hk) as (s' & p & Hcall & Hpn & Hdata & Hs').
  exists s'. revert Hcall. pose proof Hs as (Hlen & Hbd & HD & Hsm & Hnum).
  unfold NextMessage.
  destruct (Done s) eqn:E.
  { apply (session_Done orig d k s Hs) in E. lia. }
  rewrite Hbd, int_small by (change (2 ^ 63) with 9223372036854775808; lia).
  rewrite SetSamples_spec by assumption. cbn [bind].
  unfold nextNumber.
  cbn [SendOp.length SendOp.bitDepth SendOp.samples SendOp.data SendOp.num
       DataPacket.Channel DataPacket.PacketNumber DataPacket.Data DataPacket.Checksum].
  intros [= <- <-].
  assert (Hp : DataPacket.mk (DataPacket.Channel (SendOp.data s)) (SendOp.num s)
             (pack d (take (capacity d) (SendOp.samples s)))
             (ComputeChecksum
                (DataPacket.mk (DataPacket.Channel (SendOp.data s)) (SendOp.num s)
                   (pack d (take (capacity d) (SendOp.samples s)))
                   (DataPacket.Checksum (SendOp.data s)))) = packet_at ch orig d k).
  { unfold packet_at. rewrite Hsm, Hnum, Hch. cbn [DataPacket.Data]. f_equal.
    rewrite !ComputeChecksum_eq
      by (cbn [DataPacket.Data]; apply length_pack; rewrite length_take; lia).
    reflexivity. }
  rewrite Hp in Hs' |- *. split; [reflexivity|]. split; [|reflexivity].
  split; [exact Hs'|]. cbn [SendOp.data]. unfold packet_at. reflexivity.
Qed.

Lemma NextMessages_exact (ch : Z) (orig : list Z) (d : Z) (n k : nat) (s : SendOp.t) :
  8 <= d <= 28 -> session_on ch orig d k s ->
  (n = 0 \/ (k + n - 1) * capacity d < length orig)%nat ->
  exists s' : SendOp.t,
    NextMessages n s = Ret (s', map packet_message (map (packet_at ch orig d) (seq k n))) /\
    session_on ch orig d (k + n) s' /\
    ((0 < n)%nat -> SendOp.data s' = packet_at ch orig d (k + n - 1)).
Proof.
  intros Hd. revert k s. induction n as [|n IH]; intros k s Hs Hn.
  - exists s. rewrite Nat.add_0_r. split; [reflexivity|]. split; [assumption|lia].
  - assert (Hk : (k * capacity d < length orig)%nat).
    { destruct Hn as [Hn|Hn]; [discriminate Hn|].
      eapply Nat.le_lt_trans; [|exact Hn]. apply Nat.mul_le_mono_r. lia. }
    destruct (NextMessage_exact ch orig d k s Hd Hs Hk) as (s1 & Hcall & Hs1 & Hdata1).
    destruct (IH (S k) s1 Hs1) as (s' & Hrun & Hs' & Hdata').
    { destruct n; [left; reflexivity|right].
      destruct Hn as [Hn|Hn]; [discriminate Hn|].
      replace (S k + S n - 1)%nat with (k + S (S n) - 1)%nat by lia. exact Hn. }
    exists s'. cbn [NextMessages map seq].
    rewrite Hcall. cbn [bind fst snd]. rewrite Hrun. cbn [bind fst snd].
    split; [reflexivity|].
    replace (k + S n)%nat with (S k + n)%nat by lia. split; [exact Hs'|].
    intros _. destruct n as [|n].
    + cbn [NextMessages] in Hrun. injection Hrun as <-.
      rewrite Hdata1. f_equal. lia.
    + rewrite Hdata' by lia. reflexivity.
Qed.

(** Property X13.  A session over a waveform produces, in packets_needed
    calls of [NextMessage], exactly the packets of the waveform: packet k
    carries the channel of the header, the number k mod 128, the k-th group
    of samples and its checksum.  The session is then done, every further
    call returns nil and leaves the session as it is, and the packet held by
    the session is the last one produced. *)
Theorem session_packets (samples : list Z) (h : DumpHeader.t) :
  8 <= DumpHeader.BitDepth h <= 28 ->
  exists s' : SendOp.t,
    NextMessages (packets_needed (DumpHeader.BitDepth h) (length samples))
      (fst (NewSendOp samples h)) =
      Ret (s', map packet_message
                 (packets_of (DumpHeader.Channel h) samples (DumpHeader.BitDepth h))) /\
    Done s' = true /\
    NextMessage s' = Ret (s', None) /\
    (samples <> [] ->
     SendOp.data s' =
       packet_at (DumpHeader.Channel h) samples (DumpHeader.BitDepth h)
         (packets_needed (DumpHeader.BitDepth h) (length samples) - 1)).
Proof.
  intros Hd. set (d := DumpHeader.BitDepth h) in *.
  destruct (packets_needed_spec d (length samples)) as [Hup Hlow].
  destruct (NextMessages_exact (DumpHeader.Channel h) samples d
              (packets_needed d (length samples)) 0 (fst (NewSendOp samples h)) Hd)
    as (s' & Hrun & Hs' & Hdata); [apply NewSendOp_session_on; assumption|exact Hlow|].
  exists s'. split; [exact Hrun|]. destruct Hs' as [Hs' Hch].
  rewrite Nat.add_0_l in Hs', Hdata.
  split; [apply (session_Done samples d _ s' Hs'); exact Hup|].
  split; [apply (NextMessage_done samples d _ s' Hs'); exact Hup|].
  intros Hne. apply Hdata.
  destruct samples; [contradiction|]. cbn [length] in Hup.
  destruct (packets_needed d _); [simpl in Hup; lia|lia].
Qed.

Lemma session_packets_witness :
  8 <= DumpHeader.BitDepth (DumpHeader.mk 3 0 16 0 0 0 0 0) <= 28 /\
  exists s' : SendOp.t,
    NextMessages (packets_needed 16 (length (replicate 100 5)))
      (fst (NewSendOp (replicate 100 5) (DumpHeader.mk 3 0 16 0 0 0 0 0))) =
      Ret (s', map packet_message (packets_of 3 (replicate 100 5) 16)) /\
    Done s' = true /\
    NextMessage s' = Ret (s', None) /\
    (replicate 100 5 <> [] ->
     SendOp.data s' =
       packet_at 3 (replicate 100 5) 16 (packets_needed 16 (length (replicate 100 5)) - 1)).
Proof.
  split; [simpl; lia|].
  apply (session_packets (replicate 100 5) (DumpHeader.mk 3 0 16 0 0 0 0 0)). simpl. lia.
Defined.

(** ** Packets on the wire *)

Lemma packet_at_decodable (ch : Z) (orig : list Z) (d : Z) (k : nat) :
  decodable (MDataPacket (packet_at ch orig d k)).
Proof. apply length_packet_at. Qed.

Lemma Decode_wire (ch : Z) (orig : list Z) (d : Z) (k : nat) :
  Decode (wire (packet_at ch orig d k)) =
    Ret (Ok (MDataPacket
      (DataPacket.mk (Z.land ch 0x7F) (Z.of_nat k mod 128)
         (DataPacket.Data (packet_at ch orig d k))
         (DataPacket.Checksum (packet_at ch orig d k))))).
Proof.
  unfold wire. rewrite Decode_Encode_decodable by apply packet_at_decodable.
  cbn [masked]. do 3 f_equal.
  unfold packet_at at 1 2 4.
  cbn [DataPacket.Channel DataPacket.PacketNumber DataPacket.Data DataPacket.Checksum].
  f_equal.
  - change 127 with (Z.ones 7). rewrite Z.land_ones by lia.
    change (2 ^ 7) with 128. apply Z.mod_mod. lia.
  - unfold packet_at. cbn [DataPacket.Checksum].
    apply seven_bit_land_id. rewrite ComputeChecksum_eq
      by (cbn [DataPacket.Data]; apply length_pack; rewrite length_take; lia).
    apply seven_bit_land.
Qed.

Lemma wire_checksum (ch : Z) (orig : list Z) (d : Z) (k : nat) :
  ComputeChecksum
    (DataPacket.mk (Z.land ch 0x7F) (Z.of_nat k mod 128)
       (DataPacket.Data (packet_at ch orig d k))
       (DataPacket.Checksum (packet_at ch orig d k))) =
  DataPacket.Checksum (packet_at ch orig d k).
Proof.
  unfold packet_at. cbn [DataPacket.Data DataPacket.Checksum].
  rewrite !ComputeChecksum_eq
    by (cbn [DataPacket.Data]; apply length_pack; rewrite length_take; lia).
  cbn [DataPacket.Channel DataPacket.PacketNumber DataPacket.Data].
  rewrite ?land_7F_idem. reflexivity.
Qed.

Lemma unpack_packet_at (ch : Z) (orig : list Z) (d : Z) (k : nat) :
  8 <= d <= 28 ->
  unpack d (DataPacket.Data (packet_at ch orig d k)) =
    map (wrap_sample d) (take (capacity d) (drop (k * capacity d) orig))
      ++ replicate (capacity d - (length orig - k * capacity d)) (- 2 ^ (d - 1)).
Proof.
  intros Hd. unfold packet_at. cbn [DataPacket.Data].
  rewrite unpack_pack_wrap by (assumption || (rewrite length_take; lia)).
  rewrite length_take, length_drop.
  replace (capacity d - Nat.min (capacity d) (length orig - k * capacity d))%nat
    with (capacity d - (length orig - k * capacity d))%nat by lia.
  reflexivity.
Qed.

(** Property X14.  Every packet of a session passes the test of the
    receiver: whatever the channel, the encoding of packet k decodes to a
    packet whose checksum field equals its computed checksum, whose number
    is k mod 128 and whose channel is the channel masked to 7 bits, and
    [GetSamples] on it yields the k-th group of samples. *)
Theorem packets_verify (ch : Z) (orig : list Z) (d : Z) (k : nat) (out : list Z) :
  8 <= d <= 28 ->
  exists p : DataPacket.t,
    Decode (wire (packet_at ch orig d k)) = Ret (Ok (MDataPacket p)) /\
    ComputeChecksum p = DataPacket.Checksum p /\
    DataPacket.PacketNumber p = Z.of_nat k mod 128 /\
    DataPacket.Channel p = Z.land ch 0x7F /\
    GetSamples p out d =
      Ret (out ++ map (wrap_sample d) (take (capacity d) (drop (k * capacity d) orig))
               ++ replicate (capacity d - (length orig - k * capacity d)) (- 2 ^ (d - 1))).
Proof.
  intros Hd. eexists. split; [apply Decode_wire|].
  cbn [DataPacket.Channel DataPacket.PacketNumber DataPacket.Data DataPacket.Checksum].
  split; [apply wire_checksum|]. split; [reflexivity|]. split; [reflexivity|].
  rewrite GetSamples_spec;
    [|assumption|cbn [DataPacket.Data]; apply length_packet_at].
  cbn [DataPacket.Data]. rewrite unpack_packet_at by assumption. reflexivity.
Qed.

Lemma packets_verify_witness :
  8 <= 12 <= 28 /\
  exists p : DataPacket.t,
    Decode (wire (packet_at 0x93 (replicate 70 9) 12 1)) = Ret (Ok (MDataPacket p)) /\
    ComputeChecksum p = DataPacket.Checksum p /\
    DataPacket.PacketNumber p = Z.of_nat 1 mod 128 /\
    DataPacket.Channel p = Z.land 0x93 0x7F /\
    GetSamples p [] 12 =
      Ret ([] ++ map (wrap_sample 12) (take (capacity 12) (drop (1 * capacity 12) (replicate 70 9)))
              ++ replicate (capacity 12 - (length (replicate 70 9) - 1 * capacity 12))
                   (- 2 ^ (12 - 1))).
Proof.
  split; [lia|]. apply (packets_verify 0x93 (replicate 70 9) 12 1 []). lia.
Defined.

(** ** The sample period *)

Lemma samplerateToPeriod_pos (rate : Z) :
  0 < rate -> samplerateToPeriod rate = Ret (1000000000 / rate).
Proof.
  intros H. unfold samplerateToPeriod.
  destruct (Z.eqb_spec rate 0); [lia|].
  rewrite Z.quot_div_nonneg by lia. rewrite uint_small; [reflexivity|].
  pose proof (Z.div_pos 1000000000 rate ltac:(lia) H).
  pose proof (Z.div_le_upper_bound 1000000000 rate 1000000000 H ltac:(nia)).
  change (2 ^ 64) with 18446744073709551616. lia.
Qed.

(** Property X15.  For a positive sample rate, [samplerateToPeriod] returns
    the period p in nanoseconds rounded down, p * rate <= 10^9 < (p + 1) *
    rate, and p fits the 20 bits of the header exactly when the rate is at
    least 954 Hz. *)
Theorem samplerateToPeriod_spec (rate : Z) :
  0 < rate ->
  exists p : Z,
    samplerateToPeriod rate = Ret p /\
    p * rate <= 1000000000 < (p + 1) * rate /\
    (fits 20 p <-> 954 <= rate).
Proof.
  intros H. exists (1000000000 / rate). split; [apply samplerateToPeriod_pos; exact H|].
  pose proof (Z.div_mod 1000000000 rate ltac:(lia)) as Hdm.
  pose proof (Z.mod_pos_bound 1000000000 rate H) as Hm.
  pose proof (Z.div_pos 1000000000 rate ltac:(lia) H) as Hq.
  set (q := 1000000000 / rate) in *.
  split; [nia|]. unfold fits. change (2 ^ 20) with 1048576. split.
  - intros Hf. nia.
  - intros Hr. split; [lia|]. nia.
Qed.

Lemma samplerateToPeriod_spec_witness :
  0 < 44100 /\
  exists p : Z,
    samplerateToPeriod 44100 = Ret p /\
    p * 44100 <= 1000000000 < (p + 1) * 44100 /\
    (fits 20 p <-> 954 <= 44100).
Proof.
  split; [lia|]. apply (samplerateToPeriod_spec 44100). lia.
Defined.

(** ** The data loop: what it sends *)

Section Transfer.
Variable cfg : sendConfig.t.
Variable ch : Z.
Variable orig : list Z.
Variable d : Z.
Hypothesis Hd : 8 <= d <= 28.

Lemma session_more (k : nat) (s : SendOp.t) :
  session_on ch orig d k s -> Done s = false ->
  (k * capacity d < length orig)%nat /\ (k < packets_needed d (length orig))%nat.
Proof.
  intros [Hs _] HD.
  assert (Hk : (k * capacity d < length orig)%nat).
  { destruct (Nat.lt_ge_cases (k * capacity d) (length orig)) as [H|H]; [exact H|].
    apply (session_Done orig d k s Hs) in H. congruence. }
  split; [exact Hk|].
  destruct (packets_needed_spec d (length orig)) as [Hup _].
  destruct (Nat.lt_ge_cases k (packets_needed d (length orig))) as [H|H]; [exact H|].
  assert (packets_needed d (length orig) * capacity d <= k * capacity d)%nat
    by (apply Nat.mul_le_mono_r; exact H).
  lia.
Qed.

Lemma session_finished (k : nat) (s : SendOp.t) :
  session_on ch orig d k s -> Done s = true ->
  (k <= packets_needed d (length orig))%nat -> k = packets_needed d (length orig).
Proof.
  intros [Hs _] HD Hk. apply (session_Done orig d k s Hs) in HD.
  destruct (packets_needed_spec d (length orig)) as [_ Hlow].
  destruct Hlow as [H0|Hlow]; [lia|].
  destruct (Nat.lt_ge_cases k (packets_needed d (length orig))) as [H|H]; [|lia].
  assert (k * capacity d <= (packets_needed d (length orig) - 1) * capacity d)%nat
    by (apply Nat.mul_le_mono_r; lia).
  lia.
Qed.

(** One pass: the packet that is due is sent unless the loop is held, and
    the session moves on by as much. *)
Lemma iteration_session (st : loop_state) (ev : option Message) (k : nat) :
  session_on ch orig d k (transfer st) -> Done (transfer st) = false ->
  let sent := if waiting st then [] else [wire (packet_at ch orig d k)] in
  let k' := if waiting st then k else S k in
  (exists st' : loop_state,
     iteration cfg st ev = Next st' sent /\ session_on ch orig d k' (transfer st') /\
     (~ control_on cfg Wait ev -> waiting st = false -> waiting st' = false)) \/
  (exists why : string,
     iteration cfg st ev = Fatal sent why /\
     (control_on cfg Nak ev \/ control_on cfg Cancel ev)).
Proof.
  intros Hs HD. destruct (session_more k (transfer st) Hs HD) as [Hk _].
  unfold iteration.
  assert (Hsend : exists t : SendOp.t,
    (if negb (waiting st)
     then r <- NextMessage (transfer st) ;;
          match snd r with
          | Some m => Ret (fst r, [Encode m []])
          | None => Panic "nil pointer dereference"
          end
     else Ret (transfer st, [])) =
    Ret (t, if waiting st then [] else [wire (packet_at ch orig d k)]) /\
    session_on ch orig d (if waiting st then k else S k) t).
  { destruct (waiting st); cbn [negb].
    - exists (transfer st). split; [reflexivity|exact Hs].
    - destruct (NextMessage_exact ch orig d k (transfer st) Hd Hs Hk) as (s' & Hcall & Hs' & _).
      exists s'. rewrite Hcall. cbn [bind fst snd]. split; [reflexivity|exact Hs']. }
  destruct Hsend as (t & -> & Ht). cbv zeta.
  destruct ev as [[h|p|r|c]|].
  - left. eexists. split; [reflexivity|].
    split; [rewrite (proj1 (report_keeps _ _ _)); exact Ht|].
    intros _ Hw. rewrite (proj2 (report_keeps _ _ _)). exact Hw.
  - left. eexists. split; [reflexivity|].
    split; [rewrite (proj1 (report_keeps _ _ _)); exact Ht|].
    intros _ Hw. rewrite (proj2 (report_keeps _ _ _)). exact Hw.
  - left. eexists. split; [reflexivity|].
    split; [rewrite (proj1 (report_keeps _ _ _)); exact Ht|].
    intros _ Hw. rewrite (proj2 (report_keeps _ _ _)). exact Hw.
  - destruct (Z.eqb_spec (ControlPacket.Channel c) (byte (sendConfig.Channel cfg))) as [Ec|Ec];
      cbn [negb].
    + destruct (Z.eqb_spec (ControlPacket.Type_ c) Ack) as [Ea|Ea].
      { left. eexists. split; [reflexivity|].
        split; [rewrite (proj1 (report_keeps _ _ _)); exact Ht|].
        intros _ _. apply report_keeps. }
      destruct (Z.eqb_spec (ControlPacket.Type_ c) Nak) as [En|En].
      { right. eexists. split; [reflexivity|]. left. split; assumption. }
      destruct (Z.eqb_spec (ControlPacket.Type_ c) Cancel) as [Ecn|Ecn].
      { right. eexists. split; [reflexivity|]. right. split; assumption. }
      destruct (Z.eqb_spec (ControlPacket.Type_ c) Wait) as [Ew|Ew].
      { left. eexists. split; [reflexivity|].
        split; [rewrite (proj1 (report_keeps _ _ _)); exact Ht|].
        intros Hw _. exfalso. apply Hw. split; assumption. }
      left. eexists. split; [reflexivity|].
      split; [rewrite (proj1 (report_keeps _ _ _)); exact Ht|].
      intros _ _. apply report_keeps.
    + left. eexists. split; [reflexivity|]. split; [exact Ht|].
      intros _ Hw. exact Hw.
  - left. eexists. split; [reflexivity|].
    split; [rewrite (proj1 (report_keeps _ _ _)); exact Ht|].
    intros _ Hw. rewrite (proj2 (report_keeps _ _ _)). exact Hw.
Qed.

Lemma packets_seq_cons (k j : nat) :
  map wire (map (packet_at ch orig d) (seq k (S j))) =
    wire (packet_at ch orig d k) :: map wire (map (packet_at ch orig d) (seq (S k) j)).
Proof. reflexivity. Qed.

(** Whatever is received, the loop sends the packets that are due, in
    order, none twice and none skipped, and does not panic. *)
Lemma loop_sends_prefix (evs : list (option Message)) (st : loop_state) (k : nat) :
  session_on ch orig d k (transfer st) -> (k <= packets_needed d (length orig))%nat ->
  exists (j : nat) (e : run_end),
    transferData_loop cfg evs st = (map wire (map (packet_at ch orig d) (seq k j)), e) /\
    (k + j <= packets_needed d (length orig))%nat /\ (j <= length evs)%nat /\
    (forall reason : string, e <> Crashed reason) /\
    (forall st' : loop_state, e = Finished st' -> (k + j)%nat = packets_needed d (length orig)).
Proof.
  revert st k. induction evs as [|ev evs IH]; intros st k Hs Hk.
  - exists 0%nat. cbn [transferData_loop]. destruct (Done (transfer st)) eqn:HD.
    + eexists. split; [reflexivity|]. split; [lia|]. split; [cbn [length]; lia|].
      split; [discriminate|]. intros _ _. rewrite Nat.add_0_r.
      apply (session_finished k (transfer st)); assumption.
    + eexists. split; [reflexivity|]. split; [lia|]. split; [cbn [length]; lia|].
      split; discriminate.
  - cbn [transferData_loop]. destruct (Done (transfer st)) eqn:HD.
    + exists 0%nat. eexists. split; [reflexivity|]. split; [lia|].
      split; [cbn [length]; lia|]. split; [discriminate|]. intros _ _.
      rewrite Nat.add_0_r. apply (session_finished k (transfer st)); assumption.
    + destruct (session_more k (transfer st) Hs HD) as [_ Hlt].
      destruct (iteration_session st ev k Hs HD) as [(st' & -> & Hs' & _)|(why & -> & _)].
      * destruct (waiting st).
        -- destruct (IH st' k Hs' Hk) as (j & e & -> & Hj & Hlen & Hc & Hf).
           exists j, e. split; [reflexivity|]. split; [exact Hj|].
           split; [cbn [length]; lia|]. split; assumption.
        -- destruct (IH st' (S k) Hs' ltac:(lia)) as (j & e & -> & Hj & Hlen & Hc & Hf).
           exists (S j), e. split; [rewrite packets_seq_cons; reflexivity|].
           split; [lia|]. split; [cbn [length]; lia|]. split; [exact Hc|].
           intros st'' E. rewrite <- (Hf st'' E). lia.
      * destruct (waiting st).
        -- exists 0%nat. eexists. split; [reflexivity|]. split; [lia|].
           split; [cbn [length]; lia|]. split; discriminate.
        -- exists 1%nat. eexists. split; [reflexivity|]. split; [lia|].
           split; [cbn [length]; lia|]. split; discriminate.
Qed.

(** With events that all let the transfer through, every pass sends one
    packet. *)
Lemma loop_lets_through (evs : list (option Message)) (st : loop_state) (k : nat) :
  session_on ch orig d k (transfer st) -> (k <= packets_needed d (length orig))%nat ->
  waiting st = false ->
  Forall (lets_through cfg) evs ->
  exists e : run_end,
    transferData_loop cfg evs st =
      (map wire
         (map (packet_at ch orig d)
            (seq k (Nat.min (length evs) (packets_needed d (length orig) - k)))), e) /\
    ((packets_needed d (length orig) - k <= length evs)%nat ->
     exists st' : loop_state, e = Finished st') /\
    ((length evs < packets_needed d (length orig) - k)%nat ->
     exists st' : loop_state,
       e = Receiving st' /\ waiting st' = false /\
       session_on ch orig d (k + length evs) (transfer st')).
Proof.
  revert st k. induction evs as [|ev evs IH]; intros st k Hs Hk Hw Hall.
  - cbn [transferData_loop length]. destruct (Done (transfer st)) eqn:HD.
    + pose proof (session_finished k (transfer st) Hs HD Hk) as E.
      eexists. split; [reflexivity|]. split; [eauto|lia].
    + destruct (session_more k (transfer st) Hs HD) as [_ Hlt].
      eexists. split; [reflexivity|]. split; [lia|]. intros _.
      exists st. rewrite Nat.add_0_r. auto.
  - apply Forall_cons in Hall. destruct Hall as [Hev Hall].
    cbn [transferData_loop length]. destruct (Done (transfer st)) eqn:HD.
    + pose proof (session_finished k (transfer st) Hs HD Hk) as E.
      replace (packets_needed d (length orig) - k)%nat with 0%nat by lia.
      eexists. split; [reflexivity|]. split; [eauto|lia].
    + destruct (session_more k (transfer st) Hs HD) as [_ Hlt].
      destruct (iteration_session st ev k Hs HD)
        as [(st' & -> & Hs' & Hthrough)|(why & _ & [Hn|Hn])].
      * assert (Hw' : waiting st' = false) by (apply Hthrough; [apply Hev|exact Hw]).
        rewrite Hw in *.
        destruct (IH st' (S k) Hs' ltac:(lia) Hw' Hall) as (e & -> & Hfin & Hrec).
        exists e.
        replace (Nat.min (S (length evs)) (packets_needed d (length orig) - k))
          with (S (Nat.min (length evs) (packets_needed d (length orig) - S k))) by lia.
        split; [rewrite packets_seq_cons; reflexivity|].
        split; [intros H; apply Hfin; lia|].
        intros H. destruct Hrec as (st'' & E & Hw'' & Hs''); [lia|].
        exists st''. replace (k + S (length evs))%nat with (S k + length evs)%nat by lia.
        auto.
      * destruct Hev as (_ & Hev & _). contradiction.
      * destruct Hev as (_ & _ & Hev). contradiction.
Qed.




End Transfer.

Lemma take_map_seq {A : Type} (f : nat -> A) (n j k : nat) :
  take j (map f (seq k n)) = map f (seq k (Nat.min j n)).
Proof.
  revert j k. induction n as [|n IH]; intros j k.
  - rewrite Nat.min_0_r. destruct j; reflexivity.
  - destruct j as [|j]; [reflexivity|]. cbn [seq map take Nat.min]. rewrite IH. reflexivity.
Qed.

Lemma take_wire_packets (ch : Z) (orig : list Z) (d : Z) (j : nat) :
  (j <= packets_needed d (length orig))%nat ->
  take j (map wire (packets_of ch orig d)) = map wire (map (packet_at ch orig d) (seq 0 j)).
Proof.
  intros Hj. unfold packets_of. rewrite map_map, take_map_seq, map_map.
  rewrite Nat.min_l by exact Hj. reflexivity.
Qed.

Lemma take_all_wire_packets (ch : Z) (orig : list Z) (d : Z) (j : nat) :
  take j (map wire (packets_of ch orig d)) =
    map wire (map (packet_at ch orig d) (seq 0 (Nat.min j (packets_needed d (length orig))))).
Proof. unfold packets_of. rewrite map_map, take_map_seq, map_map. reflexivity. Qed.

(** ** The data loop *)

(** Property X16.  Whatever the receiver answers, [transferData] over a
    supported bit depth sends a prefix of the packets of the waveform, in
    order, none twice and none left out, at most one per received event; it
    does not panic, and it finishes only when all packets are sent. *)
Theorem transferData_sends_prefix (cfg : sendConfig.t) (samples : list Z)
    (h : DumpHeader.t) (evs : list (option Message)) :
  8 <= DumpHeader.BitDepth h <= 28 ->
  let packets := map wire (packets_of (DumpHeader.Channel h) samples (DumpHeader.BitDepth h)) in
  exists (j : nat) (e : run_end),
    transferData cfg (fst (NewSendOp samples h)) evs = (take j packets, e) /\
    (j <= length evs)%nat /\ (j <= length packets)%nat /\
    (forall reason : string, e <> Crashed reason) /\
    (forall st : loop_state, e = Finished st -> j = length packets).
Proof.
  intros Hd packets. unfold transferData.
  destruct (loop_sends_prefix cfg (DumpHeader.Channel h) samples (DumpHeader.BitDepth h) Hd
              evs (mk_loop_state (fst (NewSendOp samples h)) 0 false) 0)
    as (j & e & Hrun & Hj & Hlen & Hc & Hf).
  { apply NewSendOp_session_on. exact Hd. }
  { lia. }
  assert (Hl : length packets =
               packets_needed (DumpHeader.BitDepth h) (length samples)).
  { subst packets. unfold packets_of. rewrite !length_map, length_seq. reflexivity. }
  exists j, e. subst packets. rewrite take_wire_packets by lia.
  split; [exact Hrun|]. split; [exact Hlen|]. split; [lia|]. split; [exact Hc|].
  intros st E. rewrite Hl. apply (Hf st E).
Qed.

Lemma transferData_sends_prefix_witness :
  8 <= DumpHeader.BitDepth (DumpHeader.mk 2 0 12 0 0 0 0 0) <= 28 /\
  exists (j : nat) (e : run_end),
    transferData (sendConfig.mk 2 0)
      (fst (NewSendOp (replicate 100 1%Z) (DumpHeader.mk 2 0 12 0 0 0 0 0)))
      [Some (MControlPacket (ControlPacket.mk Wait 2 0)); None;
       Some (MControlPacket (ControlPacket.mk Ack 2 0)); None] =
      (take j (map wire (packets_of 2 (replicate 100 1%Z) 12)), e) /\
    (j <= length [Some (MControlPacket (ControlPacket.mk Wait 2 0)); None;
                  Some (MControlPacket (ControlPacket.mk Ack 2 0)); None])%nat /\
    (j <= length (map wire (packets_of 2 (replicate 100 1%Z) 12)))%nat /\
    (forall reason : string, e <> Crashed reason) /\
    (forall st : loop_state,
       e = Finished st -> j = length (map wire (packets_of 2 (replicate 100 1%Z) 12))).
Proof.
  split; [simpl; lia|].
  apply (transferData_sends_prefix (sendConfig.mk 2 0) (replicate 100 1%Z)
           (DumpHeader.mk 2 0 12 0 0 0 0 0)). simpl. lia.
Defined.

(** Property X17.  When no event is a Wait, Nak or Cancel on the channel of
    the transfer (timeouts, acknowledgements, other channels, other
    messages), [transferData] sends one packet per pass: after n events the
    first n packets are sent, and the loop finishes as soon as all packets
    are sent. *)
Theorem transferData_lets_through (cfg : sendConfig.t) (samples : list Z)
    (h : DumpHeader.t) (evs : list (option Message)) :
  8 <= DumpHeader.BitDepth h <= 28 -> Forall (lets_through cfg) evs ->
  let packets := map wire (packets_of (DumpHeader.Channel h) samples (DumpHeader.BitDepth h)) in
  exists e : run_end,
    transferData cfg (fst (NewSendOp samples h)) evs = (take (length evs) packets, e) /\
    ((length packets <= length evs)%nat -> exists st : loop_state, e = Finished st) /\
    ((length evs < length packets)%nat ->
     exists st : loop_state, e = Receiving st /\ waiting st = false).
Proof.
  intros Hd Hall packets. unfold transferData.
  destruct (loop_lets_through cfg (DumpHeader.Channel h) samples (DumpHeader.BitDepth h) Hd
              evs (mk_loop_state (fst (NewSendOp samples h)) 0 false) 0)
    as (e & Hrun & Hfin & Hrec).
  { apply NewSendOp_session_on. exact Hd. }
  { lia. }
  { reflexivity. }
  { exact Hall. }
  assert (Hl : length packets =
               packets_needed (DumpHeader.BitDepth h) (length samples)).
  { subst packets. unfold packets_of. rewrite !length_map, length_seq. reflexivity. }
  exists e. subst packets. rewrite take_all_wire_packets.
  rewrite Nat.sub_0_r in Hrun, Hfin, Hrec. split; [exact Hrun|]. rewrite Hl.
  split; [exact Hfin|]. intros H. destruct (Hrec H) as (st & E & Hw & _). eauto.
Qed.

Lemma transferData_lets_through_witness :
  8 <= DumpHeader.BitDepth (DumpHeader.mk 2 0 12 0 0 0 0 0) <= 28 /\
  Forall (lets_through (sendConfig.mk 2 0))
    [None; Some (MControlPacket (ControlPacket.mk Ack 2 0))] /\
  exists e : run_end,
    transferData (sendConfig.mk 2 0)
      (fst (NewSendOp (replicate 100 1%Z) (DumpHeader.mk 2 0 12 0 0 0 0 0)))
      [None; Some (MControlPacket (ControlPacket.mk Ack 2 0))] =
      (take (length [None; Some (MControlPacket (ControlPacket.mk Ack 2 0))])
         (map wire (packets_of 2 (replicate 100 1%Z) 12)), e) /\
    ((length (map wire (packets_of 2 (replicate 100 1%Z) 12))
      <= length [None; Some (MControlPacket (ControlPacket.mk Ack 2 0))])%nat ->
     exists st : loop_state, e = Finished st) /\
    ((length [None; Some (MControlPacket (ControlPacket.mk Ack 2 0))]
      < length (map wire (packets_of 2 (replicate 100 1%Z) 12)))%nat ->
     exists st : loop_state, e = Receiving st /\ waiting st = false).
Proof.
  assert (H : Forall (lets_through (sendConfig.mk 2 0))
                [None; Some (MControlPacket (ControlPacket.mk Ack 2 0))]).
  { repeat constructor; simpl; try tauto; intros [_ E]; discriminate E. }
  split; [simpl; lia|]. split; [exact H|].
  apply (transferData_lets_through (sendConfig.mk 2 0) (replicate 100 1%Z)
           (DumpHeader.mk 2 0 12 0 0 0 0 0)); [simpl; lia|exact H].
Defined.



(** ** The handshake of the sender *)

Lemma samplerateToPeriod_nonzero (rate : Z) :
  rate <> 0 -> samplerateToPeriod rate = Ret (uint (Z.quot 1000000000 rate)).
Proof.
  intros H. unfold samplerateToPeriod. destruct (Z.eqb_spec rate 0); [contradiction|].
  reflexivity.
Qed.

Lemma doTransfer_eq (cfg : sendConfig.t) (waveform : IntBuffer.t)
    (evs : list (option Message)) (period : Z) :
  samplerateToPeriod (IntBuffer.SampleRate waveform) = Ret period ->
  doTransfer cfg waveform evs =
    let t := fst (NewSendOp (IntBuffer.Data waveform) (transfer_header cfg waveform period)) in
    Ret (Encode (MDumpHeader (transfer_header cfg waveform period)) []
           :: fst (handshake_loop cfg t evs false),
         snd (handshake_loop cfg t evs false)).
Proof.
  intros Hp. unfold doTransfer. rewrite Hp. cbn [bind]. unfold NewSendOp.
  cbn [fst DumpHeader.Channel DumpHeader.Number DumpHeader.BitDepth DumpHeader.Period
       DumpHeader.Length DumpHeader.LoopStart DumpHeader.LoopEnd DumpHeader.LoopType
       transfer_header].
  match goal with |- (let '(sent, e) := ?x in _) = _ => destruct x as [sent e] end.
  reflexivity.
Qed.

Lemma transfer_session (cfg : sendConfig.t) (waveform : IntBuffer.t) (period : Z) :
  8 <= byte (IntBuffer.SourceBitDepth waveform) <= 28 ->
  session_on (byte (sendConfig.Channel cfg)) (IntBuffer.Data waveform)
    (byte (IntBuffer.SourceBitDepth waveform)) 0
    (fst (NewSendOp (IntBuffer.Data waveform) (transfer_header cfg waveform period))).
Proof.
  intros Hd. apply (NewSendOp_session_on _ (transfer_header cfg waveform period)). exact Hd.
Qed.

(** Messages that are not answers to this sender are skipped. *)
Lemma handshake_skips (cfg : sendConfig.t) (t : SendOp.t)
    (evs1 evs2 : list (option Message)) (w : bool) :
  Forall (foreign cfg) evs1 ->
  handshake_loop cfg t (evs1 ++ evs2) w = handshake_loop cfg t evs2 w.
Proof.
  intros H. induction H as [|ev evs1 Hev _ IH]; [reflexivity|].
  cbn [app handshake_loop]. destruct ev as [[h|p|r|c]|]; try exact IH.
  - cbn [foreign] in Hev.
    destruct (Z.eqb_spec (ControlPacket.Channel c) (byte (sendConfig.Channel cfg)));
      [contradiction|exact IH].
  - destruct Hev.
Qed.

(** While the receiver has asked to wait, nothing but an answer on the
    channel ends the wait; a timeout does not. *)
Lemma handshake_holds (cfg : sendConfig.t) (t : SendOp.t) (evs : list (option Message)) :
  Forall from_wire evs -> Forall (fun ev => ~ resumes cfg ev) evs ->
  handshake_loop cfg t evs true = ([], Handshaking true).
Proof.
  intros Hw Hr. induction evs as [|ev evs IH]; [reflexivity|].
  apply Forall_cons in Hw. destruct Hw as [Hev Hw].
  apply Forall_cons in Hr. destruct Hr as [Hnr Hr].
  specialize (IH Hw Hr). cbn [handshake_loop].
  destruct ev as [[h|p|r|c]|]; try exact IH.
  destruct (Z.eqb_spec (ControlPacket.Channel c) (byte (sendConfig.Channel cfg))) as [Ec|Ec];
    cbn [negb]; [|exact IH].
  destruct Hev as [sysex Hdec]. apply Decode_control_type in Hdec.
  unfold resumes, control_on in Hnr.
  destruct (Z.eqb_spec (ControlPacket.Type_ c) Ack) as [E|E]; [tauto|].
  destruct (Z.eqb_spec (ControlPacket.Type_ c) Nak) as [E1|E1]; [tauto|].
  destruct (Z.eqb_spec (ControlPacket.Type_ c) Cancel) as [E2|E2]; [tauto|].
  destruct (Z.eqb_spec (ControlPacket.Type_ c) Wait) as [E3|E3]; [exact IH|].
  unfold Ack, Nak, Cancel, Wait in *. lia.
Qed.

Section Handshake.
Variable cfg : sendConfig.t.
Variable ch : Z.
Variable orig : list Z.
Variable d : Z.
Hypothesis Hd : 8 <= d <= 28.
Variable t : SendOp.t.
Hypothesis Ht : session_on ch orig d 0 t.

Lemma enter_sends_prefix (evs : list (option Message)) :
  exists (j : nat) (e : handshake_end),
    (let '(sent, e) := transferData cfg t evs in (sent, DataPhase e)) =
      (map wire (map (packet_at ch orig d) (seq 0 j)), e) /\
    (j <= length evs)%nat /\ (j <= packets_needed d (length orig))%nat /\
    (forall reason : string, e <> DataPhase (Crashed reason)) /\
    (forall st : loop_state,
       e = DataPhase (Finished st) -> j = packets_needed d (length orig)).
Proof.
  unfold transferData.
  destruct (loop_sends_prefix cfg ch orig d Hd evs (mk_loop_state t 0 false) 0 Ht ltac:(lia))
    as (j & e & -> & Hj & Hlen & Hc & Hf).
  exists j, (DataPhase e). split; [reflexivity|]. split; [exact Hlen|]. split; [lia|].
  split.
  - intros reason [= E]. exact (Hc reason E).
  - intros st [= E]. exact (Hf st E).
Qed.

Lemma handshake_sends_prefix (evs : list (option Message)) (w : bool) :
  exists (j : nat) (e : handshake_end),
    handshake_loop cfg t evs w = (map wire (map (packet_at ch orig d) (seq 0 j)), e) /\
    (j <= length evs)%nat /\ (j <= packets_needed d (length orig))%nat /\
    (forall reason : string, e <> DataPhase (Crashed reason)) /\
    (forall st : loop_state,
       e = DataPhase (Finished st) -> j = packets_needed d (length orig)).
Proof.
  assert (Hstop : forall (e : handshake_end),
    (forall reason, e <> DataPhase (Crashed reason)) ->
    (forall st, e <> DataPhase (Finished st)) ->
    exists (j : nat) (e' : handshake_end),
      ([] : list (list Z), e) = (map wire (map (packet_at ch orig d) (seq 0 j)), e') /\
      (j <= 0)%nat /\ (j <= packets_needed d (length orig))%nat /\
      (forall reason : string, e' <> DataPhase (Crashed reason)) /\
      (forall st : loop_state,
         e' = DataPhase (Finished st) -> j = packets_needed d (length orig))).
  { intros e H1 H2. exists 0%nat, e. split; [reflexivity|]. split; [lia|]. split; [lia|].
    split; [exact H1|]. intros st E. exfalso. exact (H2 st E). }
  assert (Hweak : forall (evs' : list (option Message)) (ev : option Message)
                         (r : list (list Z) * handshake_end),
    (exists (j : nat) (e : handshake_end),
       r = (map wire (map (packet_at ch orig d) (seq 0 j)), e) /\
       (j <= length evs')%nat /\ (j <= packets_needed d (length orig))%nat /\
       (forall reason : string, e <> DataPhase (Crashed reason)) /\
       (forall st : loop_state,
          e = DataPhase (Finished st) -> j = packets_needed d (length orig))) ->
    exists (j : nat) (e : handshake_end),
       r = (map wire (map (packet_at ch orig d) (seq 0 j)), e) /\
       (j <= length (ev :: evs'))%nat /\ (j <= packets_needed d (length orig))%nat /\
       (forall reason : string, e <> DataPhase (Crashed reason)) /\
       (forall st : loop_state,
          e = DataPhase (Finished st) -> j = packets_needed d (length orig))).
  { intros evs' ev r (j & e & E & H1 & H2 & H3 & H4). exists j, e.
    split; [exact E|]. split; [cbn [length]; lia|]. auto. }
  revert w. induction evs as [|ev evs IH]; intros w.
  - cbn [handshake_loop]. apply (Hstop (Handshaking w)); discriminate.
  - cbn [handshake_loop]. apply Hweak.
    destruct ev as [[h|p|r|c]|]; try apply IH.
    + destruct (negb (ControlPacket.Channel c =? byte (sendConfig.Channel cfg)));
        [apply IH|].
      destruct (ControlPacket.Type_ c =? Ack).
      { destruct (negb (ControlPacket.PacketNumber c =? 0));
          [apply IH|apply enter_sends_prefix]. }
      destruct (ControlPacket.Type_ c =? Nak).
      { destruct (Hstop (Denied "transfer denied: NAK response"))
          as (j & e & E & H1 & H2); try discriminate.
        exists j, e. split; [exact E|]. split; [lia|]. exact H2. }
      destruct (ControlPacket.Type_ c =? Cancel).
      { destruct (Hstop (Denied "transfer denied: CANCEL response"))
          as (j & e & E & H1 & H2); try discriminate.
        exists j, e. split; [exact E|]. split; [lia|]. exact H2. }
      destruct (ControlPacket.Type_ c =? Wait); apply IH.
    + destruct (negb w); [apply enter_sends_prefix|apply IH].
Qed.

End Handshake.

Lemma length_transfer_packets (cfg : sendConfig.t) (waveform : IntBuffer.t) :
  length (transfer_packets cfg waveform) =
    packets_needed (byte (IntBuffer.SourceBitDepth waveform))
      (length (IntBuffer.Data waveform)).
Proof. unfold transfer_packets, packets_of. rewrite !length_map, length_seq. reflexivity. Qed.

Lemma byte_range (x : Z) : 0 <= byte x < 256.
Proof. unfold byte. apply Z.mod_pos_bound. lia. Qed.

Lemma Decode_transfer_header (cfg : sendConfig.t) (waveform : IntBuffer.t) (period : Z) :
  8 <= byte (IntBuffer.SourceBitDepth waveform) <= 28 ->
  exists h : DumpHeader.t,
    Decode (Encode (MDumpHeader (transfer_header cfg waveform period)) []) =
      Ret (Ok (MDumpHeader h)) /\
    DumpHeader.Channel h = Z.land (byte (sendConfig.Channel cfg)) 0x7F /\
    DumpHeader.BitDepth h = byte (IntBuffer.SourceBitDepth waveform) /\
    DumpHeader.Period h = period mod 2 ^ 20 /\
    DumpHeader.Length h = len (IntBuffer.Data waveform) mod 2 ^ 20.
Proof.
  intros Hd.
  assert (Hbd : Z.land (byte (IntBuffer.SourceBitDepth waveform)) 0x7F =
                byte (IntBuffer.SourceBitDepth waveform))
    by (apply seven_bit_land_id; unfold seven_bit; lia).
  assert (Hok : decodable (MDumpHeader (transfer_header cfg waveform period))).
  { cbn [decodable transfer_header DumpHeader.BitDepth]. rewrite Hbd. exact Hd. }
  pose proof (Decode_Encode_decodable _ Hok) as Hdec. cbn [masked] in Hdec.
  eexists. split; [exact Hdec|].
  cbn [transfer_header DumpHeader.Channel DumpHeader.Number DumpHeader.BitDepth
       DumpHeader.Period DumpHeader.Length DumpHeader.LoopStart DumpHeader.LoopEnd
       DumpHeader.LoopType].
  split; [reflexivity|]. split; [exact Hbd|]. split; [reflexivity|].
  unfold uint. apply Z.mod_mod_divide. exists (2 ^ 44). reflexivity.
Qed.

(** ** doTransfer *)

(** Property X19.  For a non-zero sample rate and a supported bit depth,
    whatever the receiver answers, [doTransfer] first sends the header,
    which carries the bit depth and the number of samples modulo 2^20, and
    then a prefix of the packets of the waveform, in order; it does not
    panic. *)
Theorem doTransfer_sends (cfg : sendConfig.t) (waveform : IntBuffer.t)
    (evs : list (option Message)) :
  IntBuffer.SampleRate waveform <> 0 ->
  8 <= byte (IntBuffer.SourceBitDepth waveform) <= 28 ->
  exists (period : Z) (j : nat) (e : handshake_end) (h : DumpHeader.t),
    samplerateToPeriod (IntBuffer.SampleRate waveform) = Ret period /\
    doTransfer cfg waveform evs =
      Ret (Encode (MDumpHeader (transfer_header cfg waveform period)) []
             :: take j (transfer_packets cfg waveform), e) /\
    (j <= length evs)%nat /\
    (forall reason : string, e <> DataPhase (Crashed reason)) /\
    (forall st : loop_state,
       e = DataPhase (Finished st) -> j = length (transfer_packets cfg waveform)) /\
    Decode (Encode (MDumpHeader (transfer_header cfg waveform period)) []) =
      Ret (Ok (MDumpHeader h)) /\
    DumpHeader.BitDepth h = byte (IntBuffer.SourceBitDepth waveform) /\
    DumpHeader.Length h = len (IntBuffer.Data waveform) mod 2 ^ 20.
Proof.
  intros Hrate Hd.
  pose proof (samplerateToPeriod_nonzero _ Hrate) as Hp.
  set (period := uint (Z.quot 1000000000 (IntBuffer.SampleRate waveform))) in *.
  destruct (handshake_sends_prefix cfg _ _ _ Hd _ (transfer_session cfg waveform period Hd)
              evs false) as (j & e & Hrun & Hlen & Hj & Hc & Hf).
  destruct (Decode_transfer_header cfg waveform period Hd) as (h & Hdec & _ & Hbd & _ & Hl).
  exists period, j, e, h. split; [exact Hp|]. split.
  - rewrite (doTransfer_eq cfg waveform evs period Hp). cbv zeta. rewrite Hrun.
    cbn [fst snd]. unfold transfer_packets. rewrite take_wire_packets by exact Hj.
    reflexivity.
  - split; [exact Hlen|]. split; [exact Hc|]. split.
    + intros st E. rewrite length_transfer_packets. exact (Hf st E).
    + split; [exact Hdec|]. split; [exact Hbd|exact Hl].
Qed.

Lemma doTransfer_sends_witness :
  IntBuffer.SampleRate (IntBuffer.mk 44100 16 (replicate 100 7)) <> 0 /\
  8 <= byte (IntBuffer.SourceBitDepth (IntBuffer.mk 44100 16 (replicate 100 7))) <= 28 /\
  exists (period : Z) (j : nat) (e : handshake_end) (h : DumpHeader.t),
    samplerateToPeriod (IntBuffer.SampleRate (IntBuffer.mk 44100 16 (replicate 100 7))) =
      Ret period /\
    doTransfer (sendConfig.mk 1 2) (IntBuffer.mk 44100 16 (replicate 100 7))
      [Some (MControlPacket (ControlPacket.mk Ack 1 0)); None; None; None] =
      Ret (Encode (MDumpHeader
                     (transfer_header (sendConfig.mk 1 2)
                        (IntBuffer.mk 44100 16 (replicate 100 7)) period)) []
             :: take j (transfer_packets (sendConfig.mk 1 2)
                          (IntBuffer.mk 44100 16 (replicate 100 7))), e) /\
    (j <= length [Some (MControlPacket (ControlPacket.mk Ack 1 0)); None; None; None])%nat /\
    (forall reason : string, e <> DataPhase (Crashed reason)) /\
    (forall st : loop_state,
       e = DataPhase (Finished st) ->
       j = length (transfer_packets (sendConfig.mk 1 2)
                     (IntBuffer.mk 44100 16 (replicate 100 7)))) /\
    Decode (Encode (MDumpHeader
                      (transfer_header (sendConfig.mk 1 2)
                         (IntBuffer.mk 44100 16 (replicate 100 7)) period)) []) =
      Ret (Ok (MDumpHeader h)) /\
    DumpHeader.BitDepth h =
      byte (IntBuffer.SourceBitDepth (IntBuffer.mk 44100 16 (replicate 100 7))) /\
    DumpHeader.Length h = len (IntBuffer.Data (IntBuffer.mk 44100 16 (replicate 100 7))) mod 2 ^ 20.
Proof.
  split; [simpl; lia|]. split; [vm_compute; split; discriminate|].
  apply (doTransfer_sends (sendConfig.mk 1 2) (IntBuffer.mk 44100 16 (replicate 100 7))).
  - simpl. lia.
  - vm_compute. split; discriminate.
Defined.

(** Property X20.  In the handshake, control packets on other channels and
    messages that are not control packets are skipped.  The first other
    event decides: a timeout or an Ack for packet 0 on the channel starts
    the data phase on the events that follow, a Nak or a Cancel on the
    channel ends the process with only the header sent. *)
Theorem handshake_decides (cfg : sendConfig.t) (t : SendOp.t)
    (evs rest : list (option Message)) (ev : option Message) :
  Forall (foreign cfg) evs ->
  (ev = None \/
   ev = Some (MControlPacket (ControlPacket.mk Ack (byte (sendConfig.Channel cfg)) 0)) ->
   handshake_loop cfg t (evs ++ ev :: rest) false =
     (fst (transferData cfg t rest), DataPhase (snd (transferData cfg t rest)))) /\
  (control_on cfg Nak ev ->
   handshake_loop cfg t (evs ++ ev :: rest) false =
     ([], Denied "transfer denied: NAK response")) /\
  (control_on cfg Cancel ev ->
   handshake_loop cfg t (evs ++ ev :: rest) false =
     ([], Denied "transfer denied: CANCEL response")).
Proof.
  intros Hf. rewrite (handshake_skips cfg t evs (ev :: rest) false Hf).
  split; [|split].
  - intros [->| ->]; cbn [handshake_loop negb ControlPacket.Channel ControlPacket.Type_
                          ControlPacket.PacketNumber].
    + destruct (transferData cfg t rest); reflexivity.
    + rewrite Z.eqb_refl. cbn [negb]. change (Ack =? Ack) with true. cbv iota.
      change (0 =? 0) with true. cbn [negb].
      destruct (transferData cfg t rest); reflexivity.
  - destruct ev as [[h|p|r|c]|]; try (intros []; fail). intros [Ec Et].
    cbn [handshake_loop]. rewrite Ec, Et, Z.eqb_refl. reflexivity.
  - destruct ev as [[h|p|r|c]|]; try (intros []; fail). intros [Ec Et].
    cbn [handshake_loop]. rewrite Ec, Et, Z.eqb_refl. reflexivity.
Qed.

Lemma handshake_decides_witness :
  Forall (foreign (sendConfig.mk 1 0))
    [Some (MControlPacket (ControlPacket.mk Nak 9 0));
     Some (MDumpRequest (DumpRequest.mk 1 0))] /\
  (Some (MControlPacket (ControlPacket.mk Nak 1 0)) = None \/
   Some (MControlPacket (ControlPacket.mk Nak 1 0)) =
     Some (MControlPacket
             (ControlPacket.mk Ack (byte (sendConfig.Channel (sendConfig.mk 1 0))) 0)) ->
   handshake_loop (sendConfig.mk 1 0)
     (fst (NewSendOp [1; 2; 3] (DumpHeader.mk 1 0 16 0 0 0 0 0)))
     ([Some (MControlPacket (ControlPacket.mk Nak 9 0));
       Some (MDumpRequest (DumpRequest.mk 1 0))]
      ++ Some (MControlPacket (ControlPacket.mk Nak 1 0)) :: [None]) false =
     (fst (transferData (sendConfig.mk 1 0)
             (fst (NewSendOp [1; 2; 3] (DumpHeader.mk 1 0 16 0 0 0 0 0))) [None]),
      DataPhase (snd (transferData (sendConfig.mk 1 0)
                        (fst (NewSendOp [1; 2; 3] (DumpHeader.mk 1 0 16 0 0 0 0 0))) [None])))) /\
  (control_on (sendConfig.mk 1 0) Nak (Some (MControlPacket (ControlPacket.mk Nak 1 0))) ->
   handshake_loop (sendConfig.mk 1 0)
     (fst (NewSendOp [1; 2; 3] (DumpHeader.mk 1 0 16 0 0 0 0 0)))
     ([Some (MControlPacket (ControlPacket.mk Nak 9 0));
       Some (MDumpRequest (DumpRequest.mk 1 0))]
      ++ Some (MControlPacket (ControlPacket.mk Nak 1 0)) :: [None]) false =
     ([], Denied "transfer denied: NAK response")) /\
  (control_on (sendConfig.mk 1 0) Cancel (Some (MControlPacket (ControlPacket.mk Nak 1 0))) ->
   handshake_loop (sendConfig.mk 1 0)
     (fst (NewSendOp [1; 2; 3] (DumpHeader.mk 1 0 16 0 0 0 0 0)))
     ([Some (MControlPacket (ControlPacket.mk Nak 9 0));
       Some (MDumpRequest (DumpRequest.mk 1 0))]
      ++ Some (MControlPacket (ControlPacket.mk Nak 1 0)) :: [None]) false =
     ([], Denied "transfer denied: CANCEL response")).
Proof.
  assert (H : Forall (foreign (sendConfig.mk 1 0))
                [Some (MControlPacket (ControlPacket.mk Nak 9 0));
                 Some (MDumpRequest (DumpRequest.mk 1 0))]).
  { constructor; [simpl; discriminate|]. constructor; [exact I|constructor]. }
  split; [exact H|].
  apply (handshake_decides (sendConfig.mk 1 0)
           (fst (NewSendOp [1; 2; 3] (DumpHeader.mk 1 0 16 0 0 0 0 0)))
           [Some (MControlPacket (ControlPacket.mk Nak 9 0));
            Some (MDumpRequest (DumpRequest.mk 1 0))]
           [None] (Some (MControlPacket (ControlPacket.mk Nak 1 0))) H).
Defined.

(** Property X21.  After a Wait on the channel the handshake holds: as long
    as no Ack, Nak or Cancel on the channel arrives, timeouts included, the
    data phase is not entered and nothing is sent. *)
Theorem handshake_wait (cfg : sendConfig.t) (t : SendOp.t) (ev : option Message)
    (evs : list (option Message)) (w : bool) :
  control_on cfg Wait ev -> Forall from_wire evs ->
  Forall (fun e => ~ resumes cfg e) evs ->
  handshake_loop cfg t (ev :: evs) w = ([], Handshaking true).
Proof.
  intros Hev Hw Hr. destruct ev as [[h|p|r|c]|]; try (destruct Hev; fail).
  cbn [handshake_loop]. destruct Hev as [Ec Et]. rewrite Ec, Et, Z.eqb_refl.
  cbn [negb]. change (Wait =? Ack) with false. change (Wait =? Nak) with false.
  change (Wait =? Cancel) with false. change (Wait =? Wait) with true. cbv iota.
  apply handshake_holds; assumption.
Qed.

Lemma handshake_wait_witness :
  control_on (sendConfig.mk 1 0) Wait (Some (MControlPacket (ControlPacket.mk Wait 1 0))) /\
  Forall from_wire [None; None; Some (MControlPacket (ControlPacket.mk Ack 5 0))] /\
  Forall (fun e => ~ resumes (sendConfig.mk 1 0) e)
    [None; None; Some (MControlPacket (ControlPacket.mk Ack 5 0))] /\
  handshake_loop (sendConfig.mk 1 0)
    (fst (NewSendOp [1; 2; 3] (DumpHeader.mk 1 0 16 0 0 0 0 0)))
    (Some (MControlPacket (ControlPacket.mk Wait 1 0))
       :: [None; None; Some (MControlPacket (ControlPacket.mk Ack 5 0))]) false =
    ([], Handshaking true).
Proof.
  assert (H1 : control_on (sendConfig.mk 1 0) Wait
                 (Some (MControlPacket (ControlPacket.mk Wait 1 0))))
    by (split; reflexivity).
  assert (H2 : Forall from_wire [None; None; Some (MControlPacket (ControlPacket.mk Ack 5 0))]).
  { constructor; [exact I|]. constructor; [exact I|]. constructor; [|constructor].
    exists [0xF0; 0x7E; 5; 0x7F; 0; 0xF7]. reflexivity. }
  assert (H3 : Forall (fun e => ~ resumes (sendConfig.mk 1 0) e)
                 [None; None; Some (MControlPacket (ControlPacket.mk Ack 5 0))]).
  { repeat constructor; unfold resumes, control_on; simpl; try tauto.
    intros [[E _]|[[E _]|[E _]]]; discriminate E. }
  split; [exact H1|]. split; [exact H2|]. split; [exact H3|].
  exact (handshake_wait (sendConfig.mk 1 0)
           (fst (NewSendOp [1; 2; 3] (DumpHeader.mk 1 0 16 0 0 0 0 0))) _ _ false H1 H2 H3).
Defined.

(** ** Error paths of the sender *)



Lemma NextMessage_unsupported (samples : list Z) (h : DumpHeader.t) :
  samples <> [] -> DumpHeader.BitDepth h = byte (DumpHeader.BitDepth h) ->
  ~ 8 <= DumpHeader.BitDepth h <= 28 ->
  NextMessage (fst (NewSendOp samples h)) =
    Panic (if DumpHeader.BitDepth h <? 8 then "bit depth < 8 is not supported"
           else "bit depth > 28 is not supported").
Proof.
  intros Hne Hb Hd. pose proof (byte_range (DumpHeader.BitDepth h)) as Hr.
  rewrite <- Hb in Hr.
  unfold NextMessage, NewSendOp. cbn [fst].
  unfold Done. cbn [SendOp.samples SendOp.bitDepth SendOp.data DumpHeader.BitDepth].
  destruct samples as [|x samples]; [contradiction|].
  unfold len. cbn [length]. destruct (Z.eqb_spec (Z.of_nat (S (length samples))) 0); [lia|].
  rewrite !(int_small (DumpHeader.BitDepth h))
    by (change (2 ^ 63) with 9223372036854775808; lia).
  unfold SetSamples.
  destruct (Z.ltb_spec (DumpHeader.BitDepth h) 8); [reflexivity|].
  destruct (Z.leb_spec (DumpHeader.BitDepth h) 14); [lia|].
  destruct (Z.leb_spec (DumpHeader.BitDepth h) 21); [lia|].
  destruct (Z.leb_spec (DumpHeader.BitDepth h) 28); [lia|]. reflexivity.
Qed.

(** Property X23.  With a bit depth outside of 8..28 and a waveform that is
    not empty, [doTransfer] still sends the header; when the receiver does
    not answer, the data phase panics in [SetSamples] at the first packet,
    and no packet is sent. *)
Theorem doTransfer_unsupported_depth (cfg : sendConfig.t) (waveform : IntBuffer.t)
    (ev : option Message) (rest : list (option Message)) :
  IntBuffer.SampleRate waveform <> 0 ->
  ~ 8 <= byte (IntBuffer.SourceBitDepth waveform) <= 28 ->
  IntBuffer.Data waveform <> [] ->
  exists period : Z,
    samplerateToPeriod (IntBuffer.SampleRate waveform) = Ret period /\
    doTransfer cfg waveform (None :: ev :: rest) =
      Ret ([Encode (MDumpHeader (transfer_header cfg waveform period)) []],
           DataPhase
             (Crashed (if byte (IntBuffer.SourceBitDepth waveform) <? 8
                       then "bit depth < 8 is not supported"
                       else "bit depth > 28 is not supported"))).
Proof.
  intros Hrate Hd Hne.
  pose proof (samplerateToPeriod_nonzero _ Hrate) as Hp.
  set (period := uint (Z.quot 1000000000 (IntBuffer.SampleRate waveform))) in *.
  exists period. split; [exact Hp|].
  rewrite (doTransfer_eq cfg waveform _ period Hp). cbv zeta.
  cbn [handshake_loop negb]. unfold transferData.
  cbn [transferData_loop transfer].
  assert (HD : Done (fst (NewSendOp (IntBuffer.Data waveform)
                            (transfer_header cfg waveform period))) = false).
  { unfold Done, NewSendOp. cbn [fst SendOp.samples].
    destruct (IntBuffer.Data waveform); [contradiction|]. reflexivity. }
  rewrite HD. unfold iteration. cbn [waiting negb transfer].
  rewrite (NextMessage_unsupported (IntBuffer.Data waveform)
             (transfer_header cfg waveform period) Hne).
  - reflexivity.
  - cbn [transfer_header DumpHeader.BitDepth]. unfold byte.
    rewrite Z.mod_mod by (vm_compute; discriminate).
    reflexivity.
  - exact Hd.
Qed.

Lemma doTransfer_unsupported_depth_witness :
  IntBuffer.SampleRate (IntBuffer.mk 44100 32 [1; 2]) <> 0 /\
  ~ 8 <= byte (IntBuffer.SourceBitDepth (IntBuffer.mk 44100 32 [1; 2])) <= 28 /\
  IntBuffer.Data (IntBuffer.mk 44100 32 [1; 2]) <> [] /\
  exists period : Z,
    samplerateToPeriod (IntBuffer.SampleRate (IntBuffer.mk 44100 32 [1; 2])) = Ret period /\
    doTransfer (sendConfig.mk 0 0) (IntBuffer.mk 44100 32 [1; 2]) (None :: None :: []) =
      Ret ([Encode (MDumpHeader
                      (transfer_header (sendConfig.mk 0 0) (IntBuffer.mk 44100 32 [1; 2])
                         period)) []],
           DataPhase
             (Crashed (if byte (IntBuffer.SourceBitDepth (IntBuffer.mk 44100 32 [1; 2])) <? 8
                       then "bit depth < 8 is not supported"
                       else "bit depth > 28 is not supported"))).
Proof.
  assert (H1 : IntBuffer.SampleRate (IntBuffer.mk 44100 32 [1; 2]) <> 0) by (simpl; lia).
  assert (H2 : ~ 8 <= byte (IntBuffer.SourceBitDepth (IntBuffer.mk 44100 32 [1; 2])) <= 28)
    by (vm_compute; intros [_ H]; apply H; reflexivity).
  assert (H3 : IntBuffer.Data (IntBuffer.mk 44100 32 [1; 2]) <> []) by discriminate.
  split; [exact H1|]. split; [exact H2|]. split; [exact H3|].
  exact (doTransfer_unsupported_depth (sendConfig.mk 0 0) (IntBuffer.mk 44100 32 [1; 2])
           None [] H1 H2 H3).
Defined.

(** ** encodeSDS *)

Lemma packets_needed_le (d : Z) (n : nat) : (packets_needed d n <= n)%nat.
Proof.
  destruct (packets_needed_spec d n) as [_ [H|H]]; [lia|].
  pose proof (capacity_pos d). nia.
Qed.

Lemma encodeSDS_loop_spec (ch : Z) (orig : list Z) (d : Z) (fuel k : nat)
    (send : SendOp.t) (output : list Z) :
  8 <= d <= 28 -> session_on ch orig d k send ->
  (k <= packets_needed d (length orig))%nat ->
  (packets_needed d (length orig) - k < fuel)%nat ->
  encodeSDS_loop fuel send output =
    Ret (output ++ concat (map wire (map (packet_at ch orig d)
                                       (seq k (packets_needed d (length orig) - k))))).
Proof.
  intros Hd. revert k send output. induction fuel as [|fuel IH]; intros k send output Hs Hk Hf;
    [lia|].
  cbn [encodeSDS_loop]. destruct (Done send) eqn:HD.
  - rewrite (session_finished ch orig d k send Hs HD Hk), Nat.sub_diag.
    cbn [seq map concat]. rewrite app_nil_r. reflexivity.
  - destruct (session_more ch orig d k send Hs HD) as [Hlt Hkn].
    destruct (NextMessage_exact ch orig d k send Hd Hs Hlt) as (s' & -> & Hs' & _).
    cbn [bind fst snd]. rewrite (IH (S k) s') by (assumption || lia).
    replace (packets_needed d (length orig) - k)%nat
      with (S (packets_needed d (length orig) - S k)) by lia.
    cbn [seq map concat]. rewrite Encode_app, <- app_assoc. reflexivity.
Qed.

Lemma length_wire_packet (ch : Z) (orig : list Z) (d : Z) (k : nat) :
  length (wire (packet_at ch orig d k)) = 127%nat.
Proof.
  unfold wire. rewrite length_Encode. cbn [wire_size]. rewrite length_packet_at. reflexivity.
Qed.

Lemma length_concat_wire (ch : Z) (orig : list Z) (d : Z) (l : list nat) :
  length (concat (map wire (map (packet_at ch orig d) l))) = (127 * length l)%nat.
Proof.
  induction l as [|k l IH]; [reflexivity|].
  cbn [map concat length]. rewrite length_app, IH, length_wire_packet. lia.
Qed.

Lemma encodeSDS_file (samples : list Z) (sampleRate bitDepth : Z) :
  sampleRate <> 0 -> 8 <= byte bitDepth <= 28 ->
  exists (period : Z) (file : list Z),
    samplerateToPeriod sampleRate = Ret period /\
    encodeSDS samples sampleRate bitDepth = Ret file /\
    file =
      Encode (MDumpHeader (DumpHeader.mk 0 0 (byte bitDepth) period (uint (len samples)) 0 0 0)) []
        ++ concat (map wire (packets_of 0 samples (byte bitDepth))) /\
    length file = (21 + 127 * packets_needed (byte bitDepth) (length samples))%nat.
Proof.
  intros Hrate Hd. pose proof (samplerateToPeriod_nonzero _ Hrate) as Hp.
  set (period := uint (Z.quot 1000000000 sampleRate)) in *.
  set (h := DumpHeader.mk 0 0 (byte bitDepth) period (uint (len samples)) 0 0 0).
  assert (Hrun : encodeSDS samples sampleRate bitDepth =
    Ret (Encode (MDumpHeader h) [] ++ concat (map wire (packets_of 0 samples (byte bitDepth))))).
  { unfold encodeSDS. rewrite Hp. cbn [bind].
    pose proof (NewSendOp_session_on samples h Hd) as Hs.
    change (let '(send, h0) :=
              NewSendOp samples (DumpHeader.mk 0 0 (byte bitDepth) period 0 0 0 0) in
            encodeSDS_loop (S (length samples)) send (Encode (MDumpHeader h0) []))
      with (encodeSDS_loop (S (length samples)) (fst (NewSendOp samples h))
              (Encode (MDumpHeader h) [])).
    rewrite (encodeSDS_loop_spec 0 samples (byte bitDepth) _ 0 _ _ Hd Hs).
    - rewrite Nat.sub_0_r. reflexivity.
    - lia.
    - pose proof (packets_needed_le (byte bitDepth) (length samples)). lia. }
  exists period, (Encode (MDumpHeader h) []
                  ++ concat (map wire (packets_of 0 samples (byte bitDepth)))).
  split; [exact Hp|]. split; [exact Hrun|]. split; [reflexivity|].
  rewrite length_app, length_Encode. cbn [wire_size]. unfold packets_of.
  rewrite length_concat_wire, length_seq. reflexivity.
Qed.

(** Property X24.  For a non-zero sample rate and a supported bit depth,
    [encodeSDS] returns the encoded header followed by the encodings of all
    packets of the waveform on channel 0: 21 + 127 * packets_needed bytes. *)
Theorem encodeSDS_spec (samples : list Z) (sampleRate bitDepth : Z) :
  sampleRate <> 0 -> 8 <= byte bitDepth <= 28 ->
  exists (period : Z) (file : list Z),
    samplerateToPeriod sampleRate = Ret period /\
    encodeSDS samples sampleRate bitDepth = Ret file /\
    file =
      Encode (MDumpHeader (DumpHeader.mk 0 0 (byte bitDepth) period (uint (len samples)) 0 0 0)) []
        ++ concat (map wire (packets_of 0 samples (byte bitDepth))) /\
    length file = (21 + 127 * packets_needed (byte bitDepth) (length samples))%nat.
Proof. apply encodeSDS_file. Qed.

Lemma encodeSDS_spec_witness :
  44100 <> 0 /\ 8 <= byte 16 <= 28 /\
  exists (period : Z) (file : list Z),
    samplerateToPeriod 44100 = Ret period /\
    encodeSDS [1; -2; 3] 44100 16 = Ret file /\
    file =
      Encode (MDumpHeader (DumpHeader.mk 0 0 (byte 16) period (uint (len [1; -2; 3])) 0 0 0)) []
        ++ concat (map wire (packets_of 0 [1; -2; 3] (byte 16))) /\
    length file = (21 + 127 * packets_needed (byte 16) (length [1; -2; 3]%Z))%nat.
Proof.
  split; [lia|]. split; [vm_compute; split; discriminate|].
  apply (encodeSDS_spec [1; -2; 3] 44100 16); [lia|vm_compute; split; discriminate].
Defined.

(** Property X25.  A transfer on channel 0, slot 0 to a receiver that never
    answers finishes once the handshake and every data pass have timed out,
    and the bytes it has sent are the bytes that [encodeSDS] writes for the
    same waveform. *)
Theorem doTransfer_silent_encodeSDS (waveform : IntBuffer.t) (n : nat) :
  IntBuffer.SampleRate waveform <> 0 ->
  8 <= byte (IntBuffer.SourceBitDepth waveform) <= 28 ->
  (packets_needed (byte (IntBuffer.SourceBitDepth waveform))
     (length (IntBuffer.Data waveform)) < n)%nat ->
  exists (sent : list (list Z)) (st : loop_state),
    doTransfer (sendConfig.mk 0 0) waveform (replicate n None) =
      Ret (sent, DataPhase (Finished st)) /\
    encodeSDS (IntBuffer.Data waveform) (IntBuffer.SampleRate waveform)
      (IntBuffer.SourceBitDepth waveform) = Ret (concat sent).
Proof.
  intros Hrate Hd Hn. set (cfg := sendConfig.mk 0 0).
  pose proof (samplerateToPeriod_nonzero _ Hrate) as Hp.
  set (period := uint (Z.quot 1000000000 (IntBuffer.SampleRate waveform))) in *.
  destruct n as [|n]; [lia|].
  rewrite (doTransfer_eq cfg waveform _ period Hp). cbv zeta.
  cbn [replicate handshake_loop negb]. unfold transferData.
  destruct (loop_lets_through cfg (byte (sendConfig.Channel cfg)) (IntBuffer.Data waveform)
              (byte (IntBuffer.SourceBitDepth waveform)) Hd (replicate n None)
              (mk_loop_state
                 (fst (NewSendOp (IntBuffer.Data waveform)
                         (transfer_header cfg waveform period))) 0 false) 0)
    as (e & Hrun & Hfin & _).
  { apply (transfer_session cfg waveform period Hd). }
  { lia. }
  { reflexivity. }
  { apply Forall_replicate. repeat split; intros []. }
  rewrite length_replicate, Nat.sub_0_r in Hrun, Hfin.
  destruct Hfin as [st ->]; [lia|].
  rewrite Nat.min_r in Hrun by lia.
  change (byte (sendConfig.Channel cfg)) with 0 in Hrun.
  rewrite Hrun. cbn [fst snd]. eexists _, st. split; [reflexivity|].
  destruct (encodeSDS_file (IntBuffer.Data waveform) (IntBuffer.SampleRate waveform)
              (IntBuffer.SourceBitDepth waveform) Hrate Hd)
    as (period' & file & Hp' & -> & -> & _).
  rewrite Hp in Hp'. injection Hp' as <-.
  cbn [concat]. unfold packets_of. rewrite map_map. reflexivity.
Qed.

Lemma doTransfer_silent_encodeSDS_witness :
  IntBuffer.SampleRate (IntBuffer.mk 44100 16 (replicate 50 7%Z)) <> 0 /\
  8 <= byte (IntBuffer.SourceBitDepth (IntBuffer.mk 44100 16 (replicate 50 7%Z))) <= 28 /\
  (packets_needed (byte (IntBuffer.SourceBitDepth (IntBuffer.mk 44100 16 (replicate 50 7%Z))))
     (length (IntBuffer.Data (IntBuffer.mk 44100 16 (replicate 50 7%Z)))) < 3)%nat /\
  exists (sent : list (list Z)) (st : loop_state),
    doTransfer (sendConfig.mk 0 0) (IntBuffer.mk 44100 16 (replicate 50 7%Z))
      (replicate 3 None) = Ret (sent, DataPhase (Finished st)) /\
    encodeSDS (IntBuffer.Data (IntBuffer.mk 44100 16 (replicate 50 7%Z)))
      (IntBuffer.SampleRate (IntBuffer.mk 44100 16 (replicate 50 7%Z)))
      (IntBuffer.SourceBitDepth (IntBuffer.mk 44100 16 (replicate 50 7%Z))) =
      Ret (concat sent).
Proof.
  assert (H1 : IntBuffer.SampleRate (IntBuffer.mk 44100 16 (replicate 50 7%Z)) <> 0)
    by (simpl; lia).
  assert (H2 : 8 <= byte (IntBuffer.SourceBitDepth (IntBuffer.mk 44100 16 (replicate 50 7%Z)))
               <= 28) by (vm_compute; split; discriminate).
  assert (H3 : (packets_needed
                  (byte (IntBuffer.SourceBitDepth (IntBuffer.mk 44100 16 (replicate 50 7%Z))))
                  (length (IntBuffer.Data (IntBuffer.mk 44100 16 (replicate 50 7%Z)))) < 3)%nat)
    by (vm_compute; lia).
  split; [exact H1|]. split; [exact H2|]. split; [exact H3|].
  exact (doTransfer_silent_encodeSDS (IntBuffer.mk 44100 16 (replicate 50 7%Z)) 3 H1 H2 H3).
Defined.

(** ** loadSDS *)

Lemma ReadBytes_Some (delim : Z) (input line rest : list Z) :
  ReadBytes delim input = Some (line, rest) ->
  input = line ++ rest /\ (length rest < length input)%nat.
Proof.
  revert line rest. induction input as [|b input IH]; intros line rest H; [discriminate H|].
  cbn [ReadBytes] in H. destruct (b =? delim).
  - injection H as <- <-. split; [reflexivity|]. cbn [length]. lia.
  - destruct (ReadBytes delim input) as [[line' rest']|]; [|discriminate H].
    injection H as <- <-. destruct (IH line' rest' eq_refl) as [-> Hl].
    split; [reflexivity|]. cbn [length]. lia.
Qed.

Lemma ReadBytes_frame (delim x : Z) (l rest : list Z) :
  x <> delim -> Forall (fun b => b <> delim) l ->
  ReadBytes delim (x :: l ++ [delim] ++ rest) = Some (x :: l ++ [delim], rest).
Proof.
  intros Hx Hl. cbn [ReadBytes]. destruct (Z.eqb_spec x delim); [contradiction|].
  assert (H : ReadBytes delim (l ++ [delim] ++ rest) = Some (l ++ [delim], rest)).
  { induction Hl as [|b l Hb _ IH].
    - cbn [app ReadBytes]. rewrite Z.eqb_refl. reflexivity.
    - cbn [app ReadBytes]. destruct (Z.eqb_spec b delim); [contradiction|].
      cbn [app] in IH. rewrite IH. reflexivity. }
  rewrite H. reflexivity.
Qed.

Lemma framed_decompose (s : list Z) :
  framed s = true -> s = 0xF0 :: interior s ++ [0xF7].
Proof.
  intros H. apply framed_inv in H. destruct H as [Hpre Hlast].
  apply last_Some in Hlast. destruct Hlast as [l' ->].
  destruct l' as [|a l'].
  - discriminate Hpre.
  - assert (a = 0xF0) as ->.
    { destruct l' as [|b l']; cbn [app take] in Hpre; congruence. }
    cbn [app]. rewrite interior_frame. reflexivity.
Qed.

Lemma ReadBytes_Encode (m : Message) (rest : list Z) :
  payload_seven_bit m ->
  ReadBytes 0xF7 (Encode m [] ++ rest) = Some (Encode m [], rest).
Proof.
  intros Hp. destruct (Encode_frame m) as [Hf Hi].
  apply Hi in Hp. rewrite (framed_decompose _ Hf).
  cbn [app]. rewrite <- app_assoc. apply ReadBytes_frame; [discriminate|].
  eapply Forall_impl; [exact Hp|]. unfold seven_bit. intros b Hb. lia.
Qed.

Lemma Decode_returns (sysex : list Z) : exists r : result Message, Decode sysex = Ret r.
Proof.
  pose proof (Decode_verdict sysex) as H.
  destruct (Decode sysex) as [r|reason]; [eauto|discriminate H].
Qed.

Lemma loadSDS_loop_total (fuel : nat) (input : list Z) (i : Z) (r : sdsFile.t) :
  loaded_ok r ->
  exists (r' : sdsFile.t) (e : option load_error),
    loadSDS_loop fuel input i r = Ret (r', e) /\ loaded_ok r' /\
    sdsFile.raw r' = sdsFile.raw r.
Proof.
  revert input i r. induction fuel as [|fuel IH]; intros input i r Hr.
  - exists r, None. auto.
  - cbn [loadSDS_loop]. destruct (ReadBytes 247 input) as [[rawmsg rest]|].
    2: { exists r, None. auto. }
    destruct (Decode_returns rawmsg) as [[m|e] Hdec]; rewrite Hdec; cbn [bind].
    2: { eexists r, _. auto. }
    apply Decode_Ok_inv in Hdec. destruct Hdec as [_ Hdec].
    destruct Hdec as [Hl Hid Hbd|Hl Hid|Hl Hid|Hl Hid].
    + unfold loaded_ok in Hr. destruct (sdsFile.header r) eqn:Hh.
      * eexists r, _. split; [reflexivity|]. split; [|reflexivity].
        unfold loaded_ok. rewrite Hh. exact Hr.
      * destruct (IH rest (int (i + 1))
                    (sdsFile.mk (Some (DumpHeader.mk (nth 2 rawmsg 0)
                       (dec14bit (nth 4 rawmsg 0) (nth 5 rawmsg 0)) (nth 6 rawmsg 0)
                       (dec20bit (nth 7 rawmsg 0) (nth 8 rawmsg 0) (nth 9 rawmsg 0))
                       (dec20bit (nth 10 rawmsg 0) (nth 11 rawmsg 0) (nth 12 rawmsg 0))
                       (dec20bit (nth 13 rawmsg 0) (nth 14 rawmsg 0) (nth 15 rawmsg 0))
                       (dec20bit (nth 16 rawmsg 0) (nth 17 rawmsg 0) (nth 18 rawmsg 0))
                       (nth 19 rawmsg 0))) (sdsFile.samples r) (sdsFile.raw r)))
          as (r' & e & Hrun & Hok & Hraw).
        { unfold loaded_ok. cbn [sdsFile.header sdsFile.samples DumpHeader.BitDepth].
          split; [exact Hbd|]. rewrite Hr. constructor. }
        exists r', e. split; [exact Hrun|]. split; [exact Hok|exact Hraw].
    + pose proof Hr as Hr'. unfold loaded_ok in Hr'.
      destruct (sdsFile.header r) as [h|] eqn:Hh.
      2: { eexists r, _. split; [reflexivity|]. split; [exact Hr|reflexivity]. }
      destruct Hr' as [Hbd Hs]. cbv zeta.
      match goal with |- context [negb ?c] => destruct (negb c) end.
      { eexists r, _. split; [reflexivity|]. split; [exact Hr|reflexivity]. }
      rewrite int_small by (change (2 ^ 63) with 9223372036854775808; lia).
      assert (Hlen : length (take 120 (drop 5 rawmsg)) = 120%nat)
        by (rewrite length_take, length_drop, Hl; reflexivity).
      rewrite GetSamples_spec by (assumption || exact Hlen). cbn [bind DataPacket.Data].
      destruct (unpack_any (DumpHeader.BitDepth h) _ Hbd Hlen) as [_ Hall].
      destruct (IH rest (int (i + 1))
                  (sdsFile.mk (Some h)
                     (sdsFile.samples r
                      ++ unpack (DumpHeader.BitDepth h) (take 120 (drop 5 rawmsg)))
                     (sdsFile.raw r)))
        as (r' & e & Hrun & Hok & Hraw).
      { unfold loaded_ok. cbn [sdsFile.header sdsFile.samples].
        split; [exact Hbd|]. apply Forall_app. split; assumption. }
      exists r', e. split; [exact Hrun|]. split; [exact Hok|exact Hraw].
    + apply IH. exact Hr.
    + apply IH. exact Hr.
Qed.

Lemma loadSDS_loop_fuel (fuel1 fuel2 : nat) (input : list Z) (i : Z) (r : sdsFile.t) :
  (length input < fuel1)%nat -> (length input < fuel2)%nat ->
  loadSDS_loop fuel1 input i r = loadSDS_loop fuel2 input i r.
Proof.
  revert fuel2 input i r. induction fuel1 as [|fuel1 IH]; intros fuel2 input i r H1 H2;
    [lia|].
  destruct fuel2 as [|fuel2]; [lia|]. cbn [loadSDS_loop].
  destruct (ReadBytes 247 input) as [[rawmsg rest]|] eqn:E; [|reflexivity].
  apply ReadBytes_Some in E. destruct E as [_ Hlen].
  destruct (Decode rawmsg) as [[m|e]|]; cbn [bind]; try reflexivity.
  destruct m as [h|p|q|c].
  - destruct (sdsFile.header r); [reflexivity|]. apply IH; lia.
  - destruct (sdsFile.header r); [|reflexivity]. cbv zeta.
    match goal with |- context [negb ?c] => destruct (negb c) end; [reflexivity|].
    destruct (GetSamples _ _ _); cbn [bind]; [|reflexivity]. apply IH; lia.
  - apply IH; lia.
  - apply IH; lia.
Qed.

(** Property X26.  [loadSDS] never panics, whatever the content of the file:
    it returns the file read so far, with the content as given, and possibly
    an error.  Samples are decoded only after a header, the bit depth of
    that header lies in 8..28, and every sample is within the signed range
    of that depth.  The loop ends by itself: more fuel than the length of
    the content does not change the result. *)
Theorem loadSDS_total (raw : list Z) :
  exists (r : sdsFile.t) (e : option load_error),
    loadSDS raw = Ret (r, e) /\ sdsFile.raw r = raw /\ loaded_ok r /\
    (forall fuel : nat,
       (length raw < fuel)%nat ->
       loadSDS_loop fuel raw 0 (sdsFile.mk None [] raw) = loadSDS raw).
Proof.
  unfold loadSDS.
  destruct (loadSDS_loop_total (S (length raw)) raw 0 (sdsFile.mk None [] raw))
    as (r & e & Hrun & Hok & Hraw); [reflexivity|].
  exists r, e. split; [exact Hrun|]. split; [exact Hraw|]. split; [exact Hok|].
  intros fuel Hf. apply loadSDS_loop_fuel; lia.
Qed.

(** *** The file that encodeSDS writes is read back *)

Lemma chunks_concat (d : Z) (orig : list Z) (n k : nat) :
  (length orig <= (k + n) * capacity d)%nat ->
  (n = 0 \/ (k + n - 1) * capacity d < length orig)%nat ->
  concat (map (fun i : nat =>
                 map (wrap_sample d) (take (capacity d) (drop (i * capacity d) orig))
                   ++ replicate (capacity d - (length orig - i * capacity d)) (- 2 ^ (d - 1)))
              (seq k n)) =
    map (wrap_sample d) (drop (k * capacity d) orig)
      ++ replicate (match n with O => 0 | S _ => (k + n) * capacity d - length orig end)%nat
           (- 2 ^ (d - 1)).
Proof.
  pose proof (capacity_pos d) as Hc. set (c := capacity d) in *.
  revert k. induction n as [|n IH]; intros k Hup Hlow.
  - cbn [seq map concat replicate]. rewrite drop_ge by lia. reflexivity.
  - destruct Hlow as [Hlow|Hlow]; [discriminate Hlow|].
    cbn [seq map concat]. destruct n as [|n].
    + cbn [seq map concat]. rewrite app_nil_r.
      replace (k + 1 - 1)%nat with k in Hlow by lia.
      rewrite take_ge by (rewrite length_drop; nia).
      f_equal. f_equal. nia.
    + rewrite IH; [|nia|right; replace (S k + S n - 1)%nat with (k + S (S n) - 1)%nat by lia;
                             exact Hlow].
      assert (Hfull : (S k * c <= length orig)%nat).
      { assert (S k * c <= (k + S (S n) - 1) * c)%nat by (apply Nat.mul_le_mono_r; lia). lia. }
      replace (c - (length orig - k * c))%nat with 0%nat by nia.
      cbn [replicate]. rewrite app_nil_r, app_assoc, <- map_app.
      replace (S k * c)%nat with (k * c + c)%nat by lia.
      rewrite <- drop_drop, take_drop.
      do 2 f_equal. lia.
Qed.

Lemma load_packets (ch : Z) (orig : list Z) (d : Z) (l : list nat) (fuel : nat) (i : Z)
    (h : DumpHeader.t) (samples raw : list Z) :
  8 <= d <= 28 -> DumpHeader.BitDepth h = d -> (length l < fuel)%nat ->
  loadSDS_loop fuel (concat (map wire (map (packet_at ch orig d) l))) i
    (sdsFile.mk (Some h) samples raw) =
    Ret (sdsFile.mk (Some h)
           (samples
            ++ concat (map (fun k => unpack d (DataPacket.Data (packet_at ch orig d k))) l))
           raw, None).
Proof.
  intros Hd Hh. revert fuel i samples. induction l as [|k l IH]; intros fuel i samples Hf.
  - destruct fuel; [cbn [length] in Hf; lia|]. cbn [map concat loadSDS_loop ReadBytes].
    rewrite app_nil_r. reflexivity.
  - destruct fuel as [|fuel]; [lia|]. cbn [map concat loadSDS_loop].
    unfold wire at 1. rewrite ReadBytes_Encode
      by (cbn [payload_seven_bit]; unfold packet_at; cbn [DataPacket.Data]; apply Forall_pack).
    fold (wire (packet_at ch orig d k)). rewrite Decode_wire. cbn [bind sdsFile.header].
    cbv zeta. cbn [DataPacket.Checksum]. rewrite wire_checksum, Z.eqb_refl. cbn [negb].
    rewrite Hh, int_small by (change (2 ^ 63) with 9223372036854775808; lia).
    rewrite GetSamples_spec
      by (assumption || (cbn [DataPacket.Data]; apply length_packet_at)).
    cbn [bind sdsFile.samples sdsFile.raw DataPacket.Data].
    rewrite IH by (cbn [length] in Hf; lia). rewrite <- app_assoc. reflexivity.
Qed.

Lemma map_wrap_id (d : Z) (xs : list Z) :
  8 <= d <= 28 -> Forall (in_range d) xs -> map (wrap_sample d) xs = xs.
Proof.
  intros Hd H. induction H as [|x xs Hx _ IH]; [reflexivity|].
  cbn [map]. rewrite IH, wrap_sample_id by assumption. reflexivity.
Qed.

(** Property X27.  [loadSDS] reads back what [encodeSDS] writes: for a non-
    zero sample rate and a supported bit depth d there is no error, the
    header carries d and the number of samples modulo 2^20, and the samples
    are the ones given, wrapped into the range of d bits, followed by
    -2^(d-1) up to a whole number of packets; samples within the range are
    read back as they are. *)
Theorem loadSDS_encodeSDS (samples : list Z) (sampleRate bitDepth : Z) :
  sampleRate <> 0 -> 8 <= byte bitDepth <= 28 ->
  let d := byte bitDepth in
  exists (file : list Z) (r : sdsFile.t) (h : DumpHeader.t),
    encodeSDS samples sampleRate bitDepth = Ret file /\
    loadSDS file = Ret (r, None) /\
    sdsFile.header r = Some h /\
    DumpHeader.BitDepth h = d /\
    DumpHeader.Length h = len samples mod 2 ^ 20 /\
    sdsFile.samples r =
      map (wrap_sample d) samples
        ++ replicate (packets_needed d (length samples) * capacity d - length samples)
             (- 2 ^ (d - 1)) /\
    (Forall (in_range d) samples -> take (length samples) (sdsFile.samples r) = samples).
Proof.
  intros Hrate Hd d.
  destruct (encodeSDS_file samples sampleRate bitDepth Hrate Hd)
    as (period & file & Hp & Hrun & Hfile & Hlen).
  set (h0 := DumpHeader.mk 0 0 (byte bitDepth) period (uint (len samples)) 0 0 0) in *.
  assert (Hbd : Z.land d 0x7F = d) by (apply seven_bit_land_id; unfold seven_bit; lia).
  assert (Hok : decodable (MDumpHeader h0)).
  { cbn [decodable h0 DumpHeader.BitDepth]. fold d. rewrite Hbd. exact Hd. }
  pose proof (Decode_Encode_decodable _ Hok) as Hdec. cbn [masked] in Hdec.
  cbn [h0 DumpHeader.Channel DumpHeader.Number DumpHeader.BitDepth DumpHeader.Period
       DumpHeader.Length DumpHeader.LoopStart DumpHeader.LoopEnd DumpHeader.LoopType] in Hdec.
  fold d in Hdec. rewrite Hbd in Hdec.
  set (h := DumpHeader.mk (Z.land 0 127) (0 mod 2 ^ 14) d (period mod 2 ^ 20)
              (uint (len samples) mod 2 ^ 20) (0 mod 2 ^ 20) (0 mod 2 ^ 20) (Z.land 0 127))
    in *.
  set (decoded :=
         map (wrap_sample d) samples
           ++ replicate (packets_needed d (length samples) * capacity d - length samples)
                (- 2 ^ (d - 1))).
  assert (Hload : loadSDS file = Ret (sdsFile.mk (Some h) decoded file, None)).
  { unfold loadSDS. rewrite Hfile at 2. cbn [loadSDS_loop].
    rewrite (ReadBytes_Encode (MDumpHeader h0)) by exact I.
    rewrite Hdec. cbn [bind sdsFile.header sdsFile.samples sdsFile.raw].
    unfold packets_of. rewrite load_packets with (d := d).
    - cbn [app]. do 3 f_equal.
      rewrite (map_ext _ (fun i : nat =>
                 map (wrap_sample d) (take (capacity d) (drop (i * capacity d) samples))
                   ++ replicate (capacity d - (length samples - i * capacity d))
                        (- 2 ^ (d - 1))))
        by (intros k; apply unpack_packet_at; exact Hd).
      destruct (packets_needed_spec d (length samples)) as [Hup Hlow].
      rewrite chunks_concat by (rewrite ?Nat.add_0_l; assumption).
      rewrite drop_0. subst decoded. f_equal. change (byte bitDepth) with d.
      rewrite Nat.add_0_l.
      destruct (packets_needed d (length samples)) eqn:E; reflexivity.
    - exact Hd.
    - reflexivity.
    - rewrite length_seq, Hlen. lia. }
  exists file, (sdsFile.mk (Some h) decoded file), h.
  split; [exact Hrun|]. split; [exact Hload|]. split; [reflexivity|]. split; [reflexivity|].
  split.
  - cbn [h DumpHeader.Length]. unfold uint. apply Z.mod_mod_divide. exists (2 ^ 44). reflexivity.
  - split; [reflexivity|]. intros Hall. cbn [sdsFile.samples]. subst decoded.
    rewrite (map_wrap_id d samples Hd Hall).
    rewrite take_app_length. reflexivity.
Qed.

Lemma loadSDS_encodeSDS_witness :
  44100 <> 0 /\ 8 <= byte 16 <= 28 /\
  exists (file : list Z) (r : sdsFile.t) (h : DumpHeader.t),
    encodeSDS [1; -2; 3] 44100 16 = Ret file /\
    loadSDS file = Ret (r, None) /\
    sdsFile.header r = Some h /\
    DumpHeader.BitDepth h = byte 16 /\
    DumpHeader.Length h = len [1; -2; 3] mod 2 ^ 20 /\
    sdsFile.samples r =
      map (wrap_sample (byte 16)) [1; -2; 3]
        ++ replicate (packets_needed (byte 16) (length [1; -2; 3]%Z) * capacity (byte 16)
                      - length [1; -2; 3]%Z)
             (- 2 ^ (byte 16 - 1)) /\
    (Forall (in_range (byte 16)) [1; -2; 3] ->
     take (length [1; -2; 3]%Z) (sdsFile.samples r) = [1; -2; 3]).
Proof.
  split; [lia|]. split; [vm_compute; split; discriminate|].
  apply (loadSDS_encodeSDS [1; -2; 3] 44100 16); [lia|vm_compute; split; discriminate].
Defined.

(** ** The progress that the data loop reports *)

Lemma report_progress (t : SendOp.t) (p : Z) (w : bool) :
  progress (report t p w) = p \/ progress (report t p w) = Progress t.
Proof.
  unfold report.
  destruct ((5 <? Progress t - p) || ((Progress t =? 100) && negb (p =? 100)));
    [right|left]; reflexivity.
Qed.

Lemma iteration_progress (cfg : sendConfig.t) (st st' : loop_state) (ev : option Message)
    (sent : list (list Z)) :
  iteration cfg st ev = Next st' sent ->
  progress st' = progress st \/ progress st' = Progress (transfer st').
Proof.
  unfold iteration.
  destruct (if negb (waiting st)
            then r <- NextMessage (transfer st) ;;
                 match snd r with
                 | Some m => Ret (fst r, [Encode m []])
                 | None => Panic "nil pointer dereference"
                 end
            else Ret (transfer st, [])) as [[t out]|reason]; [|discriminate].
  assert (Hr : forall w, progress (report t (progress st) w) = progress st \/
                         progress (report t (progress st) w) =
                           Progress (transfer (report t (progress st) w))).
  { intros w. rewrite (proj1 (report_keeps t (progress st) w)). apply report_progress. }
  destruct ev as [[h|p|r|c]|]; try (intros [= <- _]; apply Hr).
  destruct (negb (ControlPacket.Channel c =? byte (sendConfig.Channel cfg))).
  { intros [= <- _]. left. reflexivity. }
  destruct (ControlPacket.Type_ c =? Ack); [intros [= <- _]; apply Hr|].
  destruct (ControlPacket.Type_ c =? Nak); [discriminate|].
  destruct (ControlPacket.Type_ c =? Cancel); [discriminate|].
  destruct (ControlPacket.Type_ c =? Wait); intros [= <- _]; apply Hr.
Qed.

Lemma session_Progress_mono (orig : list Z) (d : Z) (k k' : nat) (s s' : SendOp.t) :
  session_at orig d k s -> session_at orig d k' s' -> (k <= k')%nat ->
  orig <> [] -> len orig < 2 ^ 63 ->
  0 <= Progress s /\ Progress s <= Progress s' /\ Progress s' <= 100.
Proof.
  intros Hs Hs' Hk Hne Hlen.
  destruct (session_Progress orig d k s Hs Hne Hlen) as (E & Hr & Hb).
  destruct (session_Progress orig d k' s' Hs' Hne Hlen) as (E' & Hr' & Hb').
  split; [lia|]. split; [|lia]. rewrite E, E'. apply F64Facts.rounded_mono.
  destruct Hs as (_ & _ & _ & -> & _). destruct Hs' as (_ & _ & _ & -> & _).
  unfold len. rewrite !length_drop.
  assert (k * capacity d <= k' * capacity d)%nat by (apply Nat.mul_le_mono_r; exact Hk).
  lia.
Qed.

Lemma session_Progress_done (orig : list Z) (d : Z) (k : nat) (s : SendOp.t) :
  session_at orig d k s -> Done s = true -> orig <> [] -> len orig < 2 ^ 63 ->
  Progress s = 100.
Proof.
  intros Hs HD Hne Hlen.
  destruct (session_Progress orig d k s Hs Hne Hlen) as (E & _ & _).
  rewrite E. apply Done_iff in HD. rewrite HD. unfold len at 2. cbn [length].
  rewrite Z.sub_0_r. apply F64Facts.rounded_full.
  unfold len. destruct orig; [contradiction|]. cbn [length]. lia.
Qed.

Lemma loop_progress (cfg : sendConfig.t) (ch : Z) (orig : list Z) (d : Z)
    (evs : list (option Message)) (st : loop_state) (k : nat) :
  8 <= d <= 28 -> orig <> [] -> len orig < 2 ^ 63 ->
  session_on ch orig d k (transfer st) ->
  0 <= progress st <= Progress (transfer st) ->
  forall st' : loop_state,
    snd (transferData_loop cfg evs st) = Finished st' \/
    snd (transferData_loop cfg evs st) = Receiving st' ->
    0 <= progress st' <= Progress (transfer st') /\ Progress (transfer st') <= 100 /\
    progress st <= progress st' /\
    (snd (transferData_loop cfg evs st) = Finished st' -> Progress (transfer st') = 100).
Proof.
  intros Hd Hne Hlen. revert st k.
  assert (Hbase : forall (st : loop_state) (k : nat),
    session_on ch orig d k (transfer st) ->
    0 <= progress st <= Progress (transfer st) ->
    0 <= progress st <= Progress (transfer st) /\ Progress (transfer st) <= 100 /\
    progress st <= progress st).
  { intros st k [Hs _] Hp. split; [exact Hp|]. split; [|lia].
    destruct (session_Progress orig d k (transfer st) Hs Hne Hlen) as (_ & _ & Hb). lia. }
  induction evs as [|ev evs IH]; intros st k Hs Hp st' Hend.
  - cbn [transferData_loop] in *. destruct (Done (transfer st)) eqn:HD; cbn [snd] in *.
    + destruct Hend as [[= <-]|[=]].
      destruct (Hbase st k Hs Hp) as (H1 & H2 & H3).
      split; [exact H1|]. split; [exact H2|]. split; [exact H3|]. intros _.
      apply (session_Progress_done orig d k); [apply Hs|assumption..].
    + destruct Hend as [[=]|[= <-]].
      destruct (Hbase st k Hs Hp) as (H1 & H2 & H3).
      split; [exact H1|]. split; [exact H2|]. split; [exact H3|]. discriminate.
  - cbn [transferData_loop] in *. destruct (Done (transfer st)) eqn:HD.
    + cbn [snd] in *. destruct Hend as [[= <-]|[=]].
      destruct (Hbase st k Hs Hp) as (H1 & H2 & H3).
      split; [exact H1|]. split; [exact H2|]. split; [exact H3|]. intros _.
      apply (session_Progress_done orig d k); [apply Hs|assumption..].
    + destruct (iteration_session cfg ch orig d Hd st ev k Hs HD)
        as [(st1 & Hit & Hs1 & _)|(why & Hit & _)].
      * rewrite Hit in *.
        assert (Hk : (k <= (if waiting st then k else S k))%nat)
          by (destruct (waiting st); lia).
        destruct (session_Progress_mono orig d _ _ (transfer st) (transfer st1)
                    (proj1 Hs) (proj1 Hs1) Hk Hne Hlen) as (Hp0 & Hmono & Hp100).
        assert (Hp1 : 0 <= progress st1 <= Progress (transfer st1) /\
                      progress st <= progress st1).
        { destruct (iteration_progress cfg st st1 ev _ Hit) as [E|E]; rewrite E; lia. }
        destruct (transferData_loop cfg evs st1) as [more e] eqn:Hloop. cbn [snd] in *.
        specialize (IH st1 _ Hs1 (proj1 Hp1) st'). rewrite Hloop in IH. cbn [snd] in IH.
        destruct (IH Hend) as (H1 & H2 & H3 & H4).
        split; [exact H1|]. split; [exact H2|]. split; [lia|exact H4].
      * rewrite Hit in *. cbn [snd] in Hend. destruct Hend as [[=]|[=]].
Qed.

(** Property X28.  The percentage that [transferData] keeps for its log
    never runs ahead of the session: for a waveform that is not empty,
    whenever the loop has finished or stands before the next event, the
    logged percentage lies between 0 and the percentage of the session,
    which is at most 100, and is 100 when the loop has finished. *)
Theorem transferData_progress (cfg : sendConfig.t) (samples : list Z) (h : DumpHeader.t)
    (evs : list (option Message)) (st : loop_state) :
  samples <> [] -> len samples < 2 ^ 63 -> 8 <= DumpHeader.BitDepth h <= 28 ->
  snd (transferData cfg (fst (NewSendOp samples h)) evs) = Finished st \/
  snd (transferData cfg (fst (NewSendOp samples h)) evs) = Receiving st ->
  0 <= progress st <= Progress (transfer st) /\ Progress (transfer st) <= 100 /\
  (snd (transferData cfg (fst (NewSendOp samples h)) evs) = Finished st ->
   Progress (transfer st) = 100).
Proof.
  intros Hne Hlen Hd Hend. unfold transferData in *.
  pose proof (NewSendOp_session_on samples h Hd) as Hs.
  destruct (loop_progress cfg (DumpHeader.Channel h) samples (DumpHeader.BitDepth h) evs
              (mk_loop_state (fst (NewSendOp samples h)) 0 false) 0 Hd Hne Hlen Hs)
    with (st' := st) as (H1 & H2 & _ & H4).
  - cbn [progress transfer].
    destruct (session_Progress samples _ 0 _ (proj1 Hs) Hne Hlen) as (_ & _ & Hb). lia.
  - exact Hend.
  - split; [exact H1|]. split; [exact H2|exact H4].
Qed.

Lemma transferData_progress_witness :
  exists st : loop_state,
    replicate 100 1 <> [] /\ len (replicate 100 1) < 2 ^ 63 /\
    8 <= DumpHeader.BitDepth (DumpHeader.mk 2 0 12 0 0 0 0 0) <= 28 /\
    (snd (transferData (sendConfig.mk 2 0)
            (fst (NewSendOp (replicate 100 1) (DumpHeader.mk 2 0 12 0 0 0 0 0)))
            [None; None]) = Finished st \/
     snd (transferData (sendConfig.mk 2 0)
            (fst (NewSendOp (replicate 100 1) (DumpHeader.mk 2 0 12 0 0 0 0 0)))
            [None; None]) = Receiving st) /\
    0 <= progress st <= Progress (transfer st) /\ Progress (transfer st) <= 100 /\
    (snd (transferData (sendConfig.mk 2 0)
            (fst (NewSendOp (replicate 100 1) (DumpHeader.mk 2 0 12 0 0 0 0 0)))
            [None; None]) = Finished st ->
     Progress (transfer st) = 100).
Proof.
  assert (H : exists st : loop_state,
            snd (transferData (sendConfig.mk 2 0)
                   (fst (NewSendOp (replicate 100 1) (DumpHeader.mk 2 0 12 0 0 0 0 0)))
                   [None; None]) = Finished st)
    by (eexists; vm_compute; reflexivity).
  destruct H as [st H]. exists st.
  assert (H1 : replicate 100 1 <> []) by discriminate.
  assert (H2 : len (replicate 100 1) < 2 ^ 63) by (vm_compute; reflexivity).
  assert (H3 : 8 <= DumpHeader.BitDepth (DumpHeader.mk 2 0 12 0 0 0 0 0) <= 28)
    by (simpl; lia).
  split; [exact H1|]. split; [exact H2|]. split; [exact H3|]. split; [left; exact H|].
  exact (transferData_progress (sendConfig.mk 2 0) (replicate 100 1)
           (DumpHeader.mk 2 0 12 0 0 0 0 0) [None; None] st H1 H2 H3 (or_introl H)).
Defined.

